(** * The carry / snap controller of the Hubs client

    A shallow embedding of [src/bit-systems/carry-system.ts] and the
    properties its specification states about it.

    Conventions of the embedding.
    - JavaScript numbers that hold measurements (angles, distances, the
      frame time) are real numbers; the arithmetic is exact.  Numbers that
      hold the [SnapFace] enumeration are integers and [%] is the truncating
      remainder [Z.rem], as in JavaScript.
    - The module-level variables of the file are the fields of [State].
    - Everything the file reaches through [world], [APP] and [AFRAME] is a
      field of [World]; calls that leave the program (pointer lock, physics
      body options, the UI event) are appended to [effects] in call order.
    - What the frame reads from its collaborators (user input, the two
      entity queries, the raycast, the avatar pose) is a [Frame].
    - three.js quaternions and the utilities of the client that are not
      part of this file enter through the interface [Collaborators].
    - [eid2obj.get(eid)!] is taken at its word: every entity has an object. *)

From Stdlib Require Import Reals Lra ZArith Lia List Bool.
From stdpp Require Import base decidable countable gmap.
Import ListNotations.

Local Open Scope R_scope.

(** ** Vectors *)

Record Vector3 := V3 { vx : R; vy : R; vz : R }.

Module Vec.
Definition add (a b : Vector3) : Vector3 :=
  V3 (vx a + vx b) (vy a + vy b) (vz a + vz b).
Definition sub (a b : Vector3) : Vector3 :=
  V3 (vx a - vx b) (vy a - vy b) (vz a - vz b).
Definition multiply (a b : Vector3) : Vector3 :=
  V3 (vx a * vx b) (vy a * vy b) (vz a * vz b).
Definition multiplyScalar (a : Vector3) (k : R) : Vector3 :=
  V3 (vx a * k) (vy a * k) (vz a * k).
Definition addScalar (a : Vector3) (k : R) : Vector3 :=
  V3 (vx a + k) (vy a + k) (vz a + k).
Definition addScaledVector (a v : Vector3) (k : R) : Vector3 :=
  V3 (vx a + vx v * k) (vy a + vy v * k) (vz a + vz v * k).
Definition max (a b : Vector3) : Vector3 :=
  V3 (Rmax (vx a) (vx b)) (Rmax (vy a) (vy b)) (Rmax (vz a) (vz b)).
Definition dot (a b : Vector3) : R :=
  vx a * vx b + vy a * vy b + vz a * vz b.
Definition length (a : Vector3) : R := sqrt (dot a a).
(** [divideScalar(this.length() || 1)] *)
Definition normalize (a : Vector3) : Vector3 :=
  let l := length a in
  multiplyScalar a (/ (if Req_dec_T l 0 then 1 else l)).
Definition projectOnPlane (a n : Vector3) : Vector3 :=
  sub a (multiplyScalar n (dot a n)).
Definition setY (a : Vector3) (y : R) : Vector3 := V3 (vx a) y (vz a).
End Vec.

Definition ZERO : Vector3 := V3 0 0 0.
Definition X_AXIS : Vector3 := V3 1 0 0.
Definition Y_AXIS : Vector3 := V3 0 1 0.
Definition Z_AXIS : Vector3 := V3 0 0 1.

(** ** Enumerations *)

Inductive CarryState := NONE | MENU | CARRYING | SNAPPING.

#[global] Instance CarryState_eq_dec : EqDecision CarryState.
Proof. solve_decision. Defined.

(** [SnapFace] is a numeric enum; the code does arithmetic on it. *)
Module SnapFace.
Definition AUTO : Z := (-1)%Z.
Definition LEFT : Z := 0%Z.
Definition FRONT : Z := 1%Z.
Definition RIGHT : Z := 2%Z.
Definition TOP : Z := 3%Z.
Definition BOTTOM : Z := 4%Z.
Definition BACK : Z := 5%Z.
End SnapFace.

Inductive AxisName := ax_x | ax_y | ax_z.

Definition component (v : Vector3) (a : AxisName) : R :=
  match a with ax_x => vx v | ax_y => vy v | ax_z => vz v end.

(** ** Configuration constants *)

Definition CARRY_HEIGHT : R := 6 / 10.
Definition CARRY_DISTANCE : R := 5 / 10.
Definition NUDGE_START_OFFSET : R := 1 / 1000.

Definition degToRad (d : R) : R := d * (PI / 180).
Definition FLOOR_SNAP_ANGLE : R := degToRad 45.
Definition DEFAULT_FLOOR_FACE : Z := SnapFace.BOTTOM.
Definition DEFAULT_WALL_FACE : Z := SnapFace.BACK.
Definition DEFAULT_CEIL_FACE : Z := SnapFace.TOP.

Definition ROTATIONS_PER_SECOND : R := 4.
Definition ROTATION_SPEED : R := (PI * 2) / ROTATIONS_PER_SECOND / 1000.

Definition MIN_SCALE : Vector3 := V3 (1 / 100) (1 / 100) (1 / 100).
Definition SCALE_SPEED : R := 1 / 10.
Definition NUDGE_SPEED : R := 1 / 10.

Definition COS_FLOOR_SNAP_ANGLE : R := cos FLOOR_SNAP_ANGLE.

(** The three tables keyed by face.  A key outside [-1 .. 5] has no entry
    in the source; here it falls through to the last line.  No reachable
    state holds such a key (see [reachable_face_in_range]). *)
Definition ROT_AXIS_FOR_FACE (f : Z) : Vector3 :=
  match f with
  | (-1)%Z => Y_AXIS | 4%Z => Y_AXIS | 3%Z => Y_AXIS
  | 5%Z => Z_AXIS | 1%Z => Z_AXIS
  | 0%Z => X_AXIS | 2%Z => X_AXIS
  | _ => Y_AXIS
  end.

Definition AXIS_NAME_FOR_FACE (f : Z) : AxisName :=
  match f with
  | (-1)%Z => ax_y | 4%Z => ax_y | 3%Z => ax_y
  | 5%Z => ax_z | 1%Z => ax_z
  | 0%Z => ax_x | 2%Z => ax_x
  | _ => ax_y
  end.

(** ** Entities and components *)

Definition EntityID := nat.
Definition BodyId := nat.
Definition MeshId := nat.

Inductive Component :=
  | Carryable | FloatyObject | Held | HeldHandLeft | HeldHandRight
  | HeldRemoteLeft | HeldRemoteRight | HoveredRemoteRight | Owned
  | Rigidbody | SceneRoot.

#[global] Instance Component_eq_dec : EqDecision Component.
Proof. solve_decision. Defined.

(** The part of the bitecs world the file queries for membership. *)
Record ECS := mkECS {
  entities : gset EntityID;
  members : Component -> gset EntityID
}.

Definition entityExists (e : ECS) (eid : EntityID) : bool :=
  bool_decide (eid ∈ entities e).

Definition hasComponent (e : ECS) (c : Component) (eid : EntityID) : bool :=
  bool_decide (eid ∈ members e c).

Definition removeComponent (e : ECS) (c : Component) (eid : EntityID) : ECS :=
  mkECS (entities e)
        (fun c' => if decide (c' = c) then members e c' ∖ {[ eid ]}
                   else members e c').

(** A value used as a condition: [undefined], [null] and [0] are false. *)
Definition truthy (o : option EntityID) : bool :=
  match o with Some (S _) => true | _ => false end.

Definition eidOf (o : option EntityID) : EntityID :=
  match o with Some e => e | None => 0%nat end.

(** ** Collaborators

    three.js quaternion algebra and the client utilities imported by the
    file.  [lookAtQuaternion eye target up] stands for
    [setFromRotationMatrix(tmpMat4.lookAt(eye, target, up))].
    [takeOwnership] lives in [utils/take-ownership]; it acts on component
    membership only.  [unlockPointerOnDrop] is read once from the query
    string; the remaining fields are constants of other modules. *)
Class Collaborators := {
  Quaternion : Type;
  identityQuaternion : Quaternion;
  setFromAxisAngle : Vector3 -> R -> Quaternion;
  multiplyQuaternions : Quaternion -> Quaternion -> Quaternion;
  setFromUnitVectors : Vector3 -> Vector3 -> Quaternion;
  lookAtQuaternion : Vector3 -> Vector3 -> Vector3 -> Quaternion;
  applyQuaternion : Vector3 -> Quaternion -> Vector3;
  takeOwnership : ECS -> EntityID -> ECS;
  unlockPointerOnDrop : bool;
  MODIFY_GRAVITY_ON_RELEASE : Z;
  DEFAULT_INTERACTABLE : Z;
  HANDS : Z;
  MEDIA_FRAMES : Z
}.

(** ** Calls that leave the program *)

Inductive BodyType := dynamic | kinematic.

Record BodyOptions := mkBodyOptions {
  bo_type : BodyType;
  bo_gravity : Vector3;
  bo_angularDamping : option R;
  bo_linearDamping : option R;
  bo_linearSleepingThreshold : option R;
  bo_angularSleepingThreshold : option R;
  bo_collisionFilterMask : option Z
}.

(** ** The state record of the controller *)

Record CarryStateData := mkData {
  activeObject : EntityID;
  rotationOffset : R;
  nudgeOffset : R;
  snapFace : Z;
  applyGravity : bool;
  menuPosX : R;
  menuPosY : R;
  center : Vector3;
  size : Vector3
}.

Inductive Effect :=
  | RequestPointerLock
  | ExitPointerLock
  | UpdateBodyOptions (body : BodyId) (options : BodyOptions)
  | UpdateCarryUI (cs : CarryState) (d : CarryStateData).

Record ArrowHelper := mkArrow {
  ah_visible : bool;
  ah_parent : bool;
  ah_position : Vector3;
  ah_direction : Vector3;
  ah_length : R
}.

(** [gm_geometry] names the mesh whose geometry and world matrix the grid
    currently shares. *)
Record GridMesh := mkGrid {
  gm_visible : bool;
  gm_parent : bool;
  gm_geometry : option MeshId;
  gm_objectPos : Vector3;
  gm_objectScale : R
}.

Record State := mkState {
  carryState : CarryState;
  carryStateData : CarryStateData;
  prevDot : R;
  lastIntersectedObj : option MeshId;
  uiNeedsUpdate : bool;
  exitedPointerlock : bool;
  arrowHelper : ArrowHelper;
  gridMesh : GridMesh
}.

Definition initialData : CarryStateData :=
  mkData 0%nat 0 NUDGE_START_OFFSET SnapFace.AUTO true 0 0 ZERO ZERO.

Definition initialState : State :=
  mkState NONE initialData 0 None false false
          (mkArrow true false ZERO Z_AXIS 1)
          (mkGrid false false None ZERO 1).

(** Field updates. *)
Definition set_activeObject (v : EntityID) (d : CarryStateData) :=
  mkData v (rotationOffset d) (nudgeOffset d) (snapFace d) (applyGravity d)
         (menuPosX d) (menuPosY d) (center d) (size d).
Definition set_rotationOffset (v : R) (d : CarryStateData) :=
  mkData (activeObject d) v (nudgeOffset d) (snapFace d) (applyGravity d)
         (menuPosX d) (menuPosY d) (center d) (size d).
Definition set_nudgeOffset (v : R) (d : CarryStateData) :=
  mkData (activeObject d) (rotationOffset d) v (snapFace d) (applyGravity d)
         (menuPosX d) (menuPosY d) (center d) (size d).
Definition set_snapFace (v : Z) (d : CarryStateData) :=
  mkData (activeObject d) (rotationOffset d) (nudgeOffset d) v (applyGravity d)
         (menuPosX d) (menuPosY d) (center d) (size d).
Definition set_applyGravity (v : bool) (d : CarryStateData) :=
  mkData (activeObject d) (rotationOffset d) (nudgeOffset d) (snapFace d) v
         (menuPosX d) (menuPosY d) (center d) (size d).
Definition set_menuPos (x y : R) (d : CarryStateData) :=
  mkData (activeObject d) (rotationOffset d) (nudgeOffset d) (snapFace d)
         (applyGravity d) x y (center d) (size d).
Definition set_bounds (c sz : Vector3) (d : CarryStateData) :=
  mkData (activeObject d) (rotationOffset d) (nudgeOffset d) (snapFace d)
         (applyGravity d) (menuPosX d) (menuPosY d) c sz.

Definition set_carryState (v : CarryState) (s : State) :=
  mkState v (carryStateData s) (prevDot s) (lastIntersectedObj s)
          (uiNeedsUpdate s) (exitedPointerlock s) (arrowHelper s) (gridMesh s).
Definition upd_data (f : CarryStateData -> CarryStateData) (s : State) :=
  mkState (carryState s) (f (carryStateData s)) (prevDot s)
          (lastIntersectedObj s) (uiNeedsUpdate s) (exitedPointerlock s)
          (arrowHelper s) (gridMesh s).
Definition set_prevDot (v : R) (s : State) :=
  mkState (carryState s) (carryStateData s) v (lastIntersectedObj s)
          (uiNeedsUpdate s) (exitedPointerlock s) (arrowHelper s) (gridMesh s).
Definition set_lastIntersectedObj (v : option MeshId) (s : State) :=
  mkState (carryState s) (carryStateData s) (prevDot s) v
          (uiNeedsUpdate s) (exitedPointerlock s) (arrowHelper s) (gridMesh s).
Definition set_uiNeedsUpdate (v : bool) (s : State) :=
  mkState (carryState s) (carryStateData s) (prevDot s) (lastIntersectedObj s)
          v (exitedPointerlock s) (arrowHelper s) (gridMesh s).
Definition set_exitedPointerlock (v : bool) (s : State) :=
  mkState (carryState s) (carryStateData s) (prevDot s) (lastIntersectedObj s)
          (uiNeedsUpdate s) v (arrowHelper s) (gridMesh s).
Definition upd_arrow (f : ArrowHelper -> ArrowHelper) (s : State) :=
  mkState (carryState s) (carryStateData s) (prevDot s) (lastIntersectedObj s)
          (uiNeedsUpdate s) (exitedPointerlock s) (f (arrowHelper s))
          (gridMesh s).
Definition upd_grid (f : GridMesh -> GridMesh) (s : State) :=
  mkState (carryState s) (carryStateData s) (prevDot s) (lastIntersectedObj s)
          (uiNeedsUpdate s) (exitedPointerlock s) (arrowHelper s)
          (f (gridMesh s)).

Definition arrow_visible (v : bool) (a : ArrowHelper) :=
  mkArrow v (ah_parent a) (ah_position a) (ah_direction a) (ah_length a).
Definition arrow_parent (v : bool) (a : ArrowHelper) :=
  mkArrow (ah_visible a) v (ah_position a) (ah_direction a) (ah_length a).
Definition arrow_pose (p dir : Vector3) (len : R) (a : ArrowHelper) :=
  mkArrow (ah_visible a) (ah_parent a) p dir len.

Definition grid_visible (v : bool) (g : GridMesh) :=
  mkGrid v (gm_parent g) (gm_geometry g) (gm_objectPos g) (gm_objectScale g).
Definition grid_parent (v : bool) (g : GridMesh) :=
  mkGrid (gm_visible g) v (gm_geometry g) (gm_objectPos g) (gm_objectScale g).
Definition grid_geometry (m : option MeshId) (g : GridMesh) :=
  mkGrid (gm_visible g) (gm_parent g) m (gm_objectPos g) (gm_objectScale g).
Definition grid_uniforms (p : Vector3) (k : R) (g : GridMesh) :=
  mkGrid (gm_visible g) (gm_parent g) (gm_geometry g) p k.

(** ** What a frame reads from outside *)

(** The first hit of the raycast.  [worldNormal] is the face normal after
    [applyNormalMatrix(getNormalMatrix(object.matrixWorld))]. *)
Record Intersection := mkHit {
  hit_point : Vector3;
  worldNormal : Vector3;
  hit_object : MeshId
}.

Record Frame := mkFrame {
  (* userinput.get of the paths.actions.carry actions *)
  toggle_snap : bool;
  drop : bool;
  rotate_ccw : bool;
  rotate_cw : bool;
  change_snap_face : bool;
  snap_nudge : option R;
  snap_scale : option R;
  toggle_gravity : bool;
  carry : bool;
  (* paths.actions.cursor.right.menu, paths.device.mouse.pos *)
  menu : bool;
  mousePos : R * R;
  (* world.time.delta *)
  delta : R;
  (* queryHoveredRemoteRight(world)[0], anyEntityWith(world, HeldRemoteRight) *)
  hovered : option EntityID;
  heldRightRemote : option EntityID;
  (* raycaster.intersectObjects(...)[0], None when the list is empty *)
  raycast : option Intersection;
  (* rig.getWorldPosition, pov.getWorldDirection *)
  rigWorldPosition : Vector3;
  povWorldDirection : Vector3
}.

Section Controller.
Context {collaborators : Collaborators}.

(** ** The world *)

(** The scene object of an entity.  [meshes] are the objects [traverse]
    visits that are meshes; [boundsCenter] and [boundsSize] are what
    [getCenter] and [getSize] return for the box that
    [computeLocalBoundingBox] fills. *)
Record Object3D := mkObj {
  position : Vector3;
  quaternion : Quaternion;
  scale : Vector3;
  meshes : list MeshId;
  boundsCenter : Vector3;
  boundsSize : Vector3
}.

Record World := mkWorld {
  ecs : ECS;
  bodyId : EntityID -> BodyId;          (* Rigidbody.bodyId *)
  floatyFlags : EntityID -> Z;          (* FloatyObject.flags *)
  eid2obj : EntityID -> Object3D;
  selection : gset MeshId;              (* outlineEffect.selection *)
  visibleEdgeColor : Z;
  effects : list Effect
}.

Definition obj_position (v : Vector3) (o : Object3D) :=
  mkObj v (quaternion o) (scale o) (meshes o) (boundsCenter o) (boundsSize o).
Definition obj_quaternion (q : Quaternion) (o : Object3D) :=
  mkObj (position o) q (scale o) (meshes o) (boundsCenter o) (boundsSize o).
Definition obj_scale (v : Vector3) (o : Object3D) :=
  mkObj (position o) (quaternion o) v (meshes o) (boundsCenter o)
        (boundsSize o).

Definition set_ecs (e : ECS) (w : World) :=
  mkWorld e (bodyId w) (floatyFlags w) (eid2obj w) (selection w)
          (visibleEdgeColor w) (effects w).
Definition set_floatyFlags (eid : EntityID) (v : Z) (w : World) :=
  mkWorld (ecs w) (bodyId w)
          (fun e => if decide (e = eid) then v else floatyFlags w e)
          (eid2obj w) (selection w) (visibleEdgeColor w) (effects w).
Definition set_obj (eid : EntityID) (o : Object3D) (w : World) :=
  mkWorld (ecs w) (bodyId w) (floatyFlags w)
          (fun e => if decide (e = eid) then o else eid2obj w e)
          (selection w) (visibleEdgeColor w) (effects w).
Definition set_selection (sel : gset MeshId) (w : World) :=
  mkWorld (ecs w) (bodyId w) (floatyFlags w) (eid2obj w) sel
          (visibleEdgeColor w) (effects w).
Definition setHex (c : Z) (w : World) :=
  mkWorld (ecs w) (bodyId w) (floatyFlags w) (eid2obj w) (selection w) c
          (effects w).
Definition emit (e : Effect) (w : World) :=
  mkWorld (ecs w) (bodyId w) (floatyFlags w) (eid2obj w) (selection w)
          (visibleEdgeColor w) (effects w ++ [e]).

Definition QUAT_FOR_FACE (f : Z) : Quaternion :=
  match f with
  | (-1)%Z => setFromAxisAngle X_AXIS (PI / 2)
  | 4%Z => setFromAxisAngle X_AXIS (PI / 2)
  | 3%Z => setFromAxisAngle X_AXIS (- PI / 2)
  | 5%Z => identityQuaternion
  | 1%Z => setFromAxisAngle Y_AXIS PI
  | 0%Z => setFromAxisAngle Y_AXIS (PI / 2)
  | 2%Z => setFromAxisAngle Y_AXIS (- PI / 2)
  | _ => setFromAxisAngle X_AXIS (PI / 2)
  end.

(** ** Menu, carry and drop *)

Definition updateUI (s : State) (w : World) : World :=
  emit (UpdateCarryUI (carryState s) (carryStateData s)) w.

Definition showObjectMenu (eid : EntityID) (x y : R) (s : State) : State :=
  let s := set_carryState MENU s in
  let s := upd_data (set_activeObject eid) s in
  let s := upd_data (set_menuPos x y) s in
  set_uiNeedsUpdate true s.

Definition clearObjectMenu (s : State) : State :=
  let s := set_carryState NONE s in
  let s := upd_data (set_activeObject 0%nat) s in
  set_uiNeedsUpdate true s.

Definition isObjectMenuShowing (s : State) : bool :=
  bool_decide (carryState s = MENU).

Definition carryOptions : BodyOptions :=
  mkBodyOptions kinematic (V3 0 0 0) None None None None None.

Definition carryObject (eid : EntityID) (s : State) (w : World)
  : State * World :=
  let s := clearObjectMenu s in
  let s := set_carryState CARRYING s in
  let s := upd_data (set_activeObject eid) s in
  let s := upd_data (set_applyGravity true) s in
  let w := set_ecs (takeOwnership (ecs w) (activeObject (carryStateData s))) w in
  let w := set_ecs (removeComponent (ecs w) HeldRemoteRight eid) w in
  let w := set_ecs (removeComponent (ecs w) HeldRemoteLeft eid) w in
  let w := set_ecs (removeComponent (ecs w) HeldRemoteRight eid) w in
  let w := set_ecs (removeComponent (ecs w) HeldHandLeft eid) w in
  let w := set_ecs (removeComponent (ecs w) Held eid) w in
  let w := emit RequestPointerLock w in
  let w := emit (UpdateBodyOptions (bodyId w eid) carryOptions) w in
  let obj := eid2obj w eid in
  let s := upd_data (set_bounds (boundsCenter obj) (boundsSize obj)) s in
  (set_uiNeedsUpdate true s, w).

Definition dropOptions (gravity : bool) : BodyOptions :=
  if gravity then
    mkBodyOptions dynamic (V3 0 (- (98 / 10)) 0)
      (Some (1 / 100)) (Some (1 / 100)) (Some (16 / 10)) (Some (25 / 10))
      (Some DEFAULT_INTERACTABLE)
  else
    mkBodyOptions kinematic (V3 0 0 0)
      (Some (89 / 100)) (Some (95 / 100)) (Some (1 / 10)) (Some (1 / 10))
      (Some (Z.lor HANDS MEDIA_FRAMES)).

Definition dropObject (s : State) (w : World) (gravity : bool)
  : State * World :=
  let w := if unlockPointerOnDrop then emit ExitPointerLock w else w in
  let active := activeObject (carryStateData s) in
  let w := emit (UpdateBodyOptions (bodyId w active) (dropOptions gravity)) w in
  let w :=
    if hasComponent (ecs w) FloatyObject active then
      set_floatyFlags active
        (Z.land (floatyFlags w active)
                (if gravity then Z.lnot MODIFY_GRAVITY_ON_RELEASE
                 else MODIFY_GRAVITY_ON_RELEASE)) w
    else w in
  let s := set_carryState NONE s in
  let s := upd_data (set_activeObject 0%nat) s in
  let s := upd_arrow (arrow_visible false) s in
  let s := upd_grid (grid_visible false) s in
  (set_uiNeedsUpdate true s, w).

Definition isCarryingObject (s : State) : bool :=
  bool_decide (carryState s = CARRYING).
Definition isSnappingObject (s : State) : bool :=
  bool_decide (carryState s = SNAPPING).

Definition addEntityToSelection (w : World) (eid : EntityID) : World :=
  set_selection (selection w ∪ list_to_set (meshes (eid2obj w eid))) w.

(** The [pointerlockchange] listener; [locked] tells whether
    [document.pointerLockElement] is set. *)
Definition onPointerLockChange (locked : bool) (s : State) : State :=
  set_exitedPointerlock (negb locked) s.

(** ** The snap solver *)

(** The statement run on a [change_snap_face] press. *)
Definition changeSnapFace (d : CarryStateData) : CarryStateData :=
  set_snapFace (Z.rem (snapFace d + 1) 6) d.

(** The face the solver snaps with: lines 386 to 393. *)
Definition effectiveSnapFace (pinned : Z) (dot : R) : Z :=
  if negb (pinned =? -1)%Z then pinned
  else if Rle_dec COS_FLOOR_SNAP_ANGLE (Rabs dot) then
    (if Rlt_dec 0 dot then DEFAULT_FLOOR_FACE else DEFAULT_CEIL_FACE)
  else DEFAULT_WALL_FACE.

(** The standoff along the normal: lines 399 to 402. *)
Definition offsetDistance (sizeOnAxis scaleOnAxis nudge : R) : R :=
  if Rlt_dec nudge 0 then (sizeOnAxis / 2 + nudge) * scaleOnAxis
  else (sizeOnAxis / 2) * scaleOnAxis + nudge.

(** The local constants of a solver run that reaches the placement. *)
Record SnapLocals := mkLocals {
  loc_dot : R;
  loc_snapFace : Z;
  loc_sizeOnAxis : R;
  loc_scaleOnAxis : R;
  loc_offsetDistance : R
}.

(** The statements of [handleSnapping], in source order.  Each is named
    so that its effect on the state can be stated on its own. *)

(** Lines 317 to 321. *)
Definition rotateInput (f : Frame) (s : State) : State :=
  if rotate_ccw f then
    upd_data (fun d => set_rotationOffset
                (rotationOffset d - ROTATION_SPEED * delta f) d) s
  else if rotate_cw f then
    upd_data (fun d => set_rotationOffset
                (rotationOffset d + ROTATION_SPEED * delta f) d) s
  else s.

(** Lines 322 to 325. *)
Definition faceInput (f : Frame) (s : State) : State :=
  if change_snap_face f then
    set_uiNeedsUpdate true (upd_data changeSnapFace s)
  else s.

(** Lines 335 to 338. *)
Definition nudgeInput (f : Frame) (s : State) : State :=
  match snap_nudge f with
  | Some nudgeDelta =>
      upd_data (fun d => set_nudgeOffset
                  (nudgeOffset d + nudgeDelta * delta f * NUDGE_SPEED) d) s
  | None => s
  end.

(** Lines 340 to 343. *)
Definition scaleInput (f : Frame) (obj : Object3D) : Object3D :=
  match snap_scale f with
  | Some scaleDelta =>
      obj_scale (Vec.addScalar (scale obj)
                   (scaleDelta * delta f * SCALE_SPEED)) obj
  | None => obj
  end.

(** Lines 352 to 355. *)
Definition attachHelpers (s : State) : State :=
  if negb (ah_parent (arrowHelper s)) then
    upd_grid (grid_parent true) (upd_arrow (arrow_parent true) s)
  else s.

(** Lines 357 to 362. *)
Definition anchorGrid (intersection : Intersection) (s : State) : State :=
  if bool_decide (lastIntersectedObj s <> Some (hit_object intersection))
  then
    let s := set_lastIntersectedObj (Some (hit_object intersection)) s in
    upd_grid (grid_geometry (lastIntersectedObj s)) s
  else s.

(** Lines 365 to 369. *)
Definition resetOnDiscontinuity (dot : R) (s : State) : State :=
  let s :=
    if Rlt_dec (2 / 10) (Rabs (dot - prevDot s)) then
      let s := upd_data (set_rotationOffset 0) s in
      upd_data (set_nudgeOffset NUDGE_START_OFFSET) s
    else s in
  set_prevDot dot s.

(** Lines 371 to 375. *)
Definition aimArrow (target dir : Vector3) (s : State) : State :=
  let s :=
    upd_arrow (arrow_pose target dir (nudgeOffset (carryStateData s))) s in
  upd_arrow (arrow_visible
               (if Req_dec_T (nudgeOffset (carryStateData s)) 0
                then false else true)) s.

(** Lines 379 to 381. *)
Definition gridUniforms (target : Vector3) (obj : Object3D) (s : State)
  : State :=
  let sz := size (carryStateData s) in
  upd_grid (grid_uniforms target
              (Rmax (Rmax (vx sz) (vy sz)) (vz sz) * vx (scale obj))) s.

Definition handleSnapping (s : State) (w : World) (f : Frame)
  : State * World * option SnapLocals :=
  if toggle_snap f then
    let s := set_carryState CARRYING s in
    let s := upd_grid (grid_visible false) s in
    (set_uiNeedsUpdate true s, w, None)
  else if drop f || exitedPointerlock s then
    (dropObject s w false, None)
  else
    let s := rotateInput f s in
    let s := faceInput f s in
    match raycast f with
    | None => (s, w, None)
    | Some intersection =>
      let eid := activeObject (carryStateData s) in
      let obj := eid2obj w eid in
      let s := nudgeInput f s in
      let obj := scaleInput f obj in
      let dir := worldNormal intersection in
      let target := hit_point intersection in
      let s := attachHelpers s in
      let s := anchorGrid intersection s in
      let dot := Vec.dot dir Y_AXIS in
      let s := resetOnDiscontinuity dot s in
      let s := aimArrow target dir s in
      let obj := obj_scale (Vec.max (scale obj) MIN_SCALE) obj in
      let s := gridUniforms target obj s in
      let obj := obj_quaternion (lookAtQuaternion dir ZERO Y_AXIS) obj in
      let snapFace :=
        effectiveSnapFace (snapFace (carryStateData s)) dot in
      let rotationAxis := ROT_AXIS_FOR_FACE snapFace in
      let sizeOnAxis :=
        component (size (carryStateData s)) (AXIS_NAME_FOR_FACE snapFace) in
      let scaleOnAxis := component (scale obj) (AXIS_NAME_FOR_FACE snapFace) in
      let distance :=
        offsetDistance sizeOnAxis scaleOnAxis (nudgeOffset (carryStateData s)) in
      let obj :=
        obj_quaternion
          (multiplyQuaternions (quaternion obj) (QUAT_FOR_FACE snapFace)) obj in
      let obj :=
        obj_quaternion
          (multiplyQuaternions (quaternion obj)
             (setFromAxisAngle rotationAxis
                (- rotationOffset (carryStateData s)))) obj in
      let target :=
        Vec.sub target
          (applyQuaternion
             (Vec.multiply (center (carryStateData s)) (scale obj))
             (quaternion obj)) in
      let target := Vec.addScaledVector target dir distance in
      let obj := obj_position target obj in
      (s, set_obj eid obj w,
       Some (mkLocals dot snapFace sizeOnAxis scaleOnAxis distance))
    end.

(** ** The frame driver *)

(** Lines 425 to 436: the check run at the top of every frame. *)
Definition watchdogFires (s : State) (w : World) : bool :=
  let entityWasRemoved :=
    negb (entityExists (ecs w) (activeObject (carryStateData s))) in
  let lostOwnership :=
    negb (hasComponent (ecs w) Owned (activeObject (carryStateData s))) in
  entityWasRemoved
  || ((bool_decide (carryState s = CARRYING)
       || bool_decide (carryState s = SNAPPING)) && lostOwnership).

Definition watchdog (s : State) (w : World) : State :=
  if watchdogFires s w then
    let s := set_carryState NONE s in
    let s := upd_data (set_activeObject 0%nat) s in
    let s := upd_arrow (arrow_visible false) s in
    let s := upd_grid (grid_visible false) s in
    set_uiNeedsUpdate true s
  else s.

(** The block both transitions into SNAPPING run. *)
Definition enterSnapping (s : State) : State :=
  let s := set_carryState SNAPPING s in
  let s := upd_data (set_rotationOffset 0) s in
  let s := upd_data (set_nudgeOffset NUDGE_START_OFFSET) s in
  let s := upd_data (set_snapFace (-1)) s in
  let s := upd_grid (grid_visible true) s in
  let s := set_lastIntersectedObj None s in
  set_uiNeedsUpdate true s.

Definition carryingBranch (s : State) (w : World) (f : Frame)
  : State * World :=
  let eid := activeObject (carryStateData s) in
  let obj := eid2obj w eid in
  let tmpWorldPos := rigWorldPosition f in
  let tmpWorldDir := povWorldDirection f in
  let tmpWorldDir := Vec.normalize (Vec.projectOnPlane tmpWorldDir Y_AXIS) in
  let obj := obj_quaternion (setFromUnitVectors Z_AXIS tmpWorldDir) obj in
  let tmpWorldDir := Vec.multiplyScalar tmpWorldDir (- CARRY_DISTANCE) in
  let tmpWorldDir := Vec.setY tmpWorldDir CARRY_HEIGHT in
  let tmpWorldPos := Vec.add tmpWorldPos tmpWorldDir in
  let obj := obj_position tmpWorldPos obj in
  let w := set_obj eid obj w in
  let s :=
    if toggle_gravity f then
      set_uiNeedsUpdate true
        (upd_data (fun d => set_applyGravity (negb (applyGravity d)) d) s)
    else s in
  let '(s, w) :=
    if drop f || exitedPointerlock s then
      dropObject s w (applyGravity (carryStateData s))
    else (s, w) in
  let s := if toggle_snap f then enterSnapping s else s in
  (s, w).

Definition snappingBranch (s : State) (w : World) (f : Frame)
  : State * World * option SnapLocals :=
  let w := setHex 16777215 w in
  let w :=
    if Rlt_dec (nudgeOffset (carryStateData s)) 0 then
      addEntityToSelection w (activeObject (carryStateData s))
    else w in
  handleSnapping s w f.

Definition idleBranch (s : State) (w : World) (f : Frame)
  : State * World :=
  let w := setHex 575473 w in
  if truthy (heldRightRemote f) && toggle_snap f then
    let '(s, w) := carryObject (eidOf (heldRightRemote f)) s w in
    (enterSnapping s, w)
  else if negb (Nat.eqb (activeObject (carryStateData s)) 0) then
    (s, addEntityToSelection w (activeObject (carryStateData s)))
  else if truthy (hovered f) then
    let w := addEntityToSelection w (eidOf (hovered f)) in
    if carry f then carryObject (eidOf (hovered f)) s w
    else if menu f then
      let s :=
        showObjectMenu (eidOf (hovered f)) (fst (mousePos f))
                       (snd (mousePos f)) s in
      (s, emit ExitPointerLock w)
    else (s, w)
  else (s, w).

(** The branch taken, with the local constants of the solver when it ran
    and reached the placement. *)
Definition dispatch (s : State) (w : World) (f : Frame)
  : State * World * option SnapLocals :=
  match carryState s with
  | CARRYING => (carryingBranch s w f, None)
  | SNAPPING => snappingBranch s w f
  | _ => (idleBranch s w f, None)
  end.

Definition carrySystemTrace (s : State) (w : World) (f : Frame)
  : State * World * option SnapLocals :=
  let w := set_selection ∅ w in
  let s := watchdog s w in
  let '(s, w, locals) := dispatch s w f in
  let '(s, w) :=
    if uiNeedsUpdate s then (set_uiNeedsUpdate false s, updateUI s w)
    else (s, w) in
  (set_exitedPointerlock false s, w, locals).

Definition carrySystem (s : State) (w : World) (f : Frame) : State * World :=
  fst (carrySystemTrace s w f).

Definition solverLocals (s : State) (w : World) (f : Frame)
  : option SnapLocals :=
  snd (carrySystemTrace s w f).

(** ** Reachable states

    The controller state changes in a frame, in a call of one of the two
    exported actions, or in the pointer-lock listener; the world and the
    frame inputs are arbitrary at each of them. *)
Inductive step : State -> State -> Prop :=
  | step_frame s w f : step s (fst (carrySystem s w f))
  | step_carryObject s w eid : step s (fst (carryObject eid s w))
  | step_clearObjectMenu s : step s (clearObjectMenu s)
  | step_pointerlockchange s locked : step s (onPointerLockChange locked s).

Inductive reachable : State -> Prop :=
  | reachable_init : reachable initialState
  | reachable_step s s' : reachable s -> step s s' -> reachable s'.

(** ** Notions used in the statements *)

(** A frame in which the solver runs and its ray hits [intersection]:
    the controller is snapping, the check at the top of the frame lets it
    go on, and neither early return of [handleSnapping] is taken. *)
Definition snappingHit (s : State) (w : World) (f : Frame)
           (intersection : Intersection) : Prop :=
  carryState s = SNAPPING
  /\ watchdogFires s w = false
  /\ toggle_snap f = false
  /\ drop f = false
  /\ exitedPointerlock s = false
  /\ raycast f = Some intersection.

(** The state after the statements of the solver that change it, up to
    the arrow update. *)
Definition solverState (f : Frame) (intersection : Intersection) (s : State)
  : State :=
  aimArrow (hit_point intersection) (worldNormal intersection)
    (resetOnDiscontinuity (Vec.dot (worldNormal intersection) Y_AXIS)
       (anchorGrid intersection
          (attachHelpers (nudgeInput f (faceInput f (rotateInput f s)))))).

(** The scale of the object after the scale input and the clamp. *)
Definition clampedScale (f : Frame) (obj : Object3D) : Vector3 :=
  Vec.max (scale (scaleInput f obj)) MIN_SCALE.

(** The last statements of a frame. *)
Definition endFrame (s : State) : State :=
  set_exitedPointerlock false
    (if uiNeedsUpdate s then set_uiNeedsUpdate false s else s).

(** The idle branch picks something up or opens the menu. *)
Definition startsInteraction (f : Frame) : bool :=
  (truthy (heldRightRemote f) && toggle_snap f)
  || (truthy (hovered f) && (carry f || menu f)).

(** The options updates issued for one body, oldest first. *)
Fixpoint bodyUpdates (b : BodyId) (l : list Effect) : list BodyOptions :=
  match l with
  | [] => []
  | UpdateBodyOptions b' o :: l' =>
      if Nat.eqb b' b then o :: bodyUpdates b l' else bodyUpdates b l'
  | _ :: l' => bodyUpdates b l'
  end.

(** How a transition may leave the face: untouched, cycled by a press,
    or reset on entering SNAPPING. *)
Inductive faceChange (pressed toggled : bool) (s s' : State) : Prop :=
  | face_kept :
      snapFace (carryStateData s') = snapFace (carryStateData s) ->
      faceChange pressed toggled s s'
  | face_cycled :
      pressed = true ->
      snapFace (carryStateData s') = Z.rem (snapFace (carryStateData s) + 1) 6 ->
      faceChange pressed toggled s s'
  | face_reset :
      toggled = true ->
      carryState s' = SNAPPING ->
      rotationOffset (carryStateData s') = 0 ->
      nudgeOffset (carryStateData s') = NUDGE_START_OFFSET ->
      snapFace (carryStateData s') = SnapFace.AUTO ->
      faceChange pressed toggled s s'.

(** How a transition may leave state and active object. *)
Inductive machineChange (s s' : State) : Prop :=
  | machine_cleared :
      carryState s' = NONE -> activeObject (carryStateData s') = 0%nat ->
      machineChange s s'
  | machine_kept :
      carryState s' = carryState s ->
      activeObject (carryStateData s') = activeObject (carryStateData s) ->
      machineChange s s'
  | machine_busy :
      carryState s' <> NONE -> machineChange s s'.

(** The two invariants of the reachable states. *)
Definition cleared_when_none (s : State) : Prop :=
  carryState s = NONE -> activeObject (carryStateData s) = 0%nat.

Definition face_in_range (s : State) : Prop :=
  (-1 <= snapFace (carryStateData s) <= 5)%Z.

(** Kinds of calls in the log. *)
Definition isUIEvent (e : Effect) : bool :=
  match e with UpdateCarryUI _ _ => true | _ => false end.

Definition isBodyUpdate (e : Effect) : bool :=
  match e with UpdateBodyOptions _ _ => true | _ => false end.

(** The calls a drop issues, in order. *)
Definition dropCalls (body : BodyId) (gravity : bool) : list Effect :=
  (if unlockPointerOnDrop then [ExitPointerLock] else [])
  ++ [UpdateBodyOptions body (dropOptions gravity)].

(** The calls a pickup issues, in order. *)
Definition carryCalls (body : BodyId) : list Effect :=
  [RequestPointerLock; UpdateBodyOptions body carryOptions].

(** The UI event a frame sends when the state it ends in was marked
    dirty. *)
Definition uiCall (dirty : bool) (s : State) : list Effect :=
  if dirty then [UpdateCarryUI (carryState s) (carryStateData s)] else [].

(** A frame in which the carrying branch runs. *)
Definition carryingFrame (s : State) (w : World) : Prop :=
  carryState s = CARRYING /\ watchdogFires s w = false.

(** A frame in which the solver runs past its two early returns. *)
Definition solverFrame (s : State) (w : World) (f : Frame) : Prop :=
  carryState s = SNAPPING
  /\ watchdogFires s w = false
  /\ toggle_snap f = false
  /\ drop f = false
  /\ exitedPointerlock s = false.

(** A frame in which the idle branch runs while nothing is active. *)
Definition idleFrame (s : State) (w : World) : Prop :=
  (carryState (watchdog s w) = NONE \/ carryState (watchdog s w) = MENU)
  /\ activeObject (carryStateData (watchdog s w)) = 0%nat.

(** The horizontal part of a vector, squared. *)
Definition horizontalSq (v : Vector3) : R := vx v * vx v + vz v * vz v.

(** The grid shares the geometry of the surface that is remembered as
    last hit. *)
Definition grid_anchored (s : State) : Prop :=
  forall m, lastIntersectedObj s = Some m -> gm_geometry (gridMesh s) = Some m.
End Controller.

(** ** A concrete setting for examples

    Orientation is not tracked ([Quaternion] is [unit]), taking ownership
    adds [Owned], and the constants have sample values. *)
Definition plainCollaborators : Collaborators := {|
  Quaternion := unit;
  identityQuaternion := tt;
  setFromAxisAngle := fun _ _ => tt;
  multiplyQuaternions := fun _ _ => tt;
  setFromUnitVectors := fun _ _ => tt;
  lookAtQuaternion := fun _ _ _ => tt;
  applyQuaternion := fun v _ => v;
  takeOwnership := fun e eid =>
    mkECS (entities e)
          (fun c => if decide (c = Owned) then members e c ∪ {[ eid ]}
                    else members e c);
  unlockPointerOnDrop := true;
  MODIFY_GRAVITY_ON_RELEASE := 1%Z;
  DEFAULT_INTERACTABLE := 31%Z;
  HANDS := 8%Z;
  MEDIA_FRAMES := 16%Z
|}.

(** A unit cube centred at the origin, at unit scale, with one mesh. *)
Definition unitCube (m : MeshId) : @Object3D plainCollaborators :=
  @mkObj plainCollaborators ZERO tt (V3 1 1 1) [m] ZERO (V3 1 1 1).

(** Entities 5 and 7 exist; 5 is owned; 7 is held by the right hand and by
    the right remote.  The body of entity [e] is [100 + e]. *)
Definition sampleECS : ECS :=
  mkECS {[ 5%nat; 7%nat ]}
        (fun c => match c with
                  | Owned => {[ 5%nat ]}
                  | HeldHandRight => {[ 7%nat ]}
                  | HeldRemoteRight => {[ 7%nat ]}
                  | Carryable => {[ 5%nat; 7%nat ]}
                  | Rigidbody => {[ 5%nat; 7%nat ]}
                  | _ => ∅
                  end).

Definition sampleWorld : @World plainCollaborators :=
  @mkWorld plainCollaborators sampleECS (fun e => (100 + e)%nat) (fun _ => 0%Z)
           unitCube ∅ 0%Z [].

(** A frame in which nothing is pressed and the ray hits nothing. *)
Definition quietFrame : Frame :=
  mkFrame false false false false false None None false false false (0, 0)
          16 None None None ZERO Z_AXIS.

Definition with_raycast (h : Intersection) (f : Frame) : Frame :=
  mkFrame (toggle_snap f) (drop f) (rotate_ccw f) (rotate_cw f)
          (change_snap_face f) (snap_nudge f) (snap_scale f)
          (toggle_gravity f) (carry f) (menu f) (mousePos f) (delta f)
          (hovered f) (heldRightRemote f) (Some h) (rigWorldPosition f)
          (povWorldDirection f).

(** A hit on a floor: the normal points straight up. *)
Definition floorHit : Intersection := mkHit ZERO Y_AXIS 1%nat.

(** A hit on a wall: the normal is horizontal. *)
Definition wallHit : Intersection := mkHit ZERO Z_AXIS 2%nat.

(** Entity 5 is being snapped; the last hit was on the floor. *)
Definition snappingWith (rotation nudge : R) (face : Z) : State :=
  mkState SNAPPING
          (mkData 5%nat rotation nudge face true 0 0 ZERO (V3 1 1 1))
          1 (Some 1%nat) false false
          (mkArrow true true ZERO Y_AXIS NUDGE_START_OFFSET)
          (mkGrid true true (Some 1%nat) ZERO 1).

Definition snappingState : State :=
  snappingWith 0 NUDGE_START_OFFSET SnapFace.AUTO.
Definition embeddedState : State :=
  snappingWith 0 (- (3 / 10)) SnapFace.AUTO.
Definition turnedState : State :=
  snappingWith 1 (1 / 2) SnapFace.RIGHT.

(** Entity 5 is being carried. *)
Definition carryingState : State :=
  mkState CARRYING
          (mkData 5%nat 0 NUDGE_START_OFFSET SnapFace.AUTO true 0 0
                  ZERO (V3 1 1 1))
          0 None false false
          (mkArrow false false ZERO Z_AXIS 1)
          (mkGrid false false None ZERO 1).

(** The sample world after entity 5 has been removed. *)
Definition goneWorld : @World plainCollaborators :=
  @mkWorld plainCollaborators
           (mkECS {[ 7%nat ]} (members sampleECS))
           (fun e => (100 + e)%nat) (fun _ => 0%Z) unitCube ∅ 0%Z [].

Definition floorFrame : Frame := with_raycast floorHit quietFrame.
Definition wallFrame : Frame := with_raycast wallHit quietFrame.

(** Entity 7 is hovered and the carry action is pressed. *)
Definition pickFrame : Frame :=
  mkFrame false false false false false None None false true false (0, 0)
          16 (Some 7%nat) None None ZERO Z_AXIS.

(** Entity 7 is held by the right remote and snap is toggled. *)
Definition snapHeldFrame : Frame :=
  mkFrame true false false false false None None false false false (0, 0)
          16 None (Some 7%nat) None ZERO Z_AXIS.

(** The rotate-cw action is held for a frame of 16 ms; the ray hits
    nothing. *)
Definition cwFrame : Frame :=
  mkFrame false false false true false None None false false false (0, 0)
          16 None None None ZERO Z_AXIS.

(** The change_snap_face action is pressed. *)
Definition faceFrame : Frame :=
  mkFrame false false false false true None None false false false (0, 0)
          16 None None None ZERO Z_AXIS.


(** Snap is toggled; nothing is held or hovered. *)
Definition snapToggleFrame : Frame :=
  mkFrame true false false false false None None false false false (0, 0)
          16 None None None ZERO Z_AXIS.

(** Drop is pressed. *)
Definition dropFrame : Frame :=
  mkFrame false true false false false None None false false false (0, 0)
          16 None None None ZERO Z_AXIS.

(** Drop and snap are pressed together. *)
Definition dropSnapFrame : Frame :=
  mkFrame true true false false false None None false false false (0, 0)
          16 None None None ZERO Z_AXIS.

(** Entity 7 is hovered and the menu action is pressed at (3, 4). *)
Definition menuFrame : Frame :=
  mkFrame false false false false false None None false false true (3, 4)
          16 (Some 7%nat) None None ZERO Z_AXIS.

(** The rotate-ccw action is held for a frame of 16 ms; the ray hits
    nothing. *)
Definition ccwFrame : Frame :=
  mkFrame false false true false false None None false false false (0, 0)
          16 None None None ZERO Z_AXIS.

(** The menu is open on entity 5. *)
Definition menuState : State :=
  mkState MENU
          (mkData 5%nat 0 NUDGE_START_OFFSET SnapFace.AUTO true 3 4 ZERO ZERO)
          0 None false false
          (mkArrow false false ZERO Z_AXIS 1)
          (mkGrid false false None ZERO 1).

(** The sample world with entity 5 floaty, all its flag bits set. *)
Definition floatyWorld : @World plainCollaborators :=
  @mkWorld plainCollaborators
           (mkECS {[ 5%nat; 7%nat ]}
                  (fun c => match c with
                            | Owned => {[ 5%nat ]}
                            | FloatyObject => {[ 5%nat ]}
                            | _ => ∅
                            end))
           (fun e => (100 + e)%nat) (fun _ => 15%Z) unitCube ∅ 0%Z [].
(** * Properties *)

Section Properties.
Context {collaborators : Collaborators}.

(** ** How each statement of the solver acts on the state *)

Ltac phase :=
  intros;
  unfold rotateInput, faceInput, nudgeInput, attachHelpers, anchorGrid,
    resetOnDiscontinuity, aimArrow, gridUniforms, changeSnapFace;
  repeat case_match; reflexivity.

Lemma rotateInput_carryState f s : carryState (rotateInput f s) = carryState s.
Proof. phase. Qed.
Lemma rotateInput_activeObject f s :
  activeObject (carryStateData (rotateInput f s)) = activeObject (carryStateData s).
Proof. phase. Qed.
Lemma rotateInput_snapFace f s :
  snapFace (carryStateData (rotateInput f s)) = snapFace (carryStateData s).
Proof. phase. Qed.
Lemma rotateInput_nudgeOffset f s :
  nudgeOffset (carryStateData (rotateInput f s)) = nudgeOffset (carryStateData s).
Proof. phase. Qed.
Lemma rotateInput_size f s :
  size (carryStateData (rotateInput f s)) = size (carryStateData s).
Proof. phase. Qed.
Lemma rotateInput_center f s :
  center (carryStateData (rotateInput f s)) = center (carryStateData s).
Proof. phase. Qed.
Lemma rotateInput_prevDot f s : prevDot (rotateInput f s) = prevDot s.
Proof. phase. Qed.
Lemma rotateInput_arrowHelper f s : arrowHelper (rotateInput f s) = arrowHelper s.
Proof. phase. Qed.
Lemma rotateInput_gridMesh f s : gridMesh (rotateInput f s) = gridMesh s.
Proof. phase. Qed.
Lemma rotateInput_rotationOffset f s :
  rotationOffset (carryStateData (rotateInput f s)) =
  if rotate_ccw f then rotationOffset (carryStateData s) - ROTATION_SPEED * delta f
  else if rotate_cw f then rotationOffset (carryStateData s) + ROTATION_SPEED * delta f
  else rotationOffset (carryStateData s).
Proof. phase. Qed.

Lemma faceInput_carryState f s : carryState (faceInput f s) = carryState s.
Proof. phase. Qed.
Lemma faceInput_activeObject f s :
  activeObject (carryStateData (faceInput f s)) = activeObject (carryStateData s).
Proof. phase. Qed.
Lemma faceInput_rotationOffset f s :
  rotationOffset (carryStateData (faceInput f s)) = rotationOffset (carryStateData s).
Proof. phase. Qed.
Lemma faceInput_nudgeOffset f s :
  nudgeOffset (carryStateData (faceInput f s)) = nudgeOffset (carryStateData s).
Proof. phase. Qed.
Lemma faceInput_size f s :
  size (carryStateData (faceInput f s)) = size (carryStateData s).
Proof. phase. Qed.
Lemma faceInput_center f s :
  center (carryStateData (faceInput f s)) = center (carryStateData s).
Proof. phase. Qed.
Lemma faceInput_prevDot f s : prevDot (faceInput f s) = prevDot s.
Proof. phase. Qed.
Lemma faceInput_arrowHelper f s : arrowHelper (faceInput f s) = arrowHelper s.
Proof. phase. Qed.
Lemma faceInput_gridMesh f s : gridMesh (faceInput f s) = gridMesh s.
Proof. phase. Qed.
Lemma faceInput_snapFace f s :
  snapFace (carryStateData (faceInput f s)) =
  if change_snap_face f then Z.rem (snapFace (carryStateData s) + 1) 6
  else snapFace (carryStateData s).
Proof. phase. Qed.

Lemma nudgeInput_carryState f s : carryState (nudgeInput f s) = carryState s.
Proof. phase. Qed.
Lemma nudgeInput_activeObject f s :
  activeObject (carryStateData (nudgeInput f s)) = activeObject (carryStateData s).
Proof. phase. Qed.
Lemma nudgeInput_snapFace f s :
  snapFace (carryStateData (nudgeInput f s)) = snapFace (carryStateData s).
Proof. phase. Qed.
Lemma nudgeInput_rotationOffset f s :
  rotationOffset (carryStateData (nudgeInput f s)) = rotationOffset (carryStateData s).
Proof. phase. Qed.
Lemma nudgeInput_size f s :
  size (carryStateData (nudgeInput f s)) = size (carryStateData s).
Proof. phase. Qed.
Lemma nudgeInput_center f s :
  center (carryStateData (nudgeInput f s)) = center (carryStateData s).
Proof. phase. Qed.
Lemma nudgeInput_prevDot f s : prevDot (nudgeInput f s) = prevDot s.
Proof. phase. Qed.
Lemma nudgeInput_arrowHelper f s : arrowHelper (nudgeInput f s) = arrowHelper s.
Proof. phase. Qed.
Lemma nudgeInput_gridMesh f s : gridMesh (nudgeInput f s) = gridMesh s.
Proof. phase. Qed.
Lemma nudgeInput_nudgeOffset f s :
  nudgeOffset (carryStateData (nudgeInput f s)) =
  match snap_nudge f with
  | Some nudgeDelta =>
      nudgeOffset (carryStateData s) + nudgeDelta * delta f * NUDGE_SPEED
  | None => nudgeOffset (carryStateData s)
  end.
Proof. phase. Qed.

Lemma attachHelpers_carryState s : carryState (attachHelpers s) = carryState s.
Proof. phase. Qed.
Lemma attachHelpers_data s : carryStateData (attachHelpers s) = carryStateData s.
Proof. phase. Qed.
Lemma attachHelpers_prevDot s : prevDot (attachHelpers s) = prevDot s.
Proof. phase. Qed.
Lemma attachHelpers_arrow_visible s :
  ah_visible (arrowHelper (attachHelpers s)) = ah_visible (arrowHelper s).
Proof. phase. Qed.
Lemma attachHelpers_grid_visible s :
  gm_visible (gridMesh (attachHelpers s)) = gm_visible (gridMesh s).
Proof. phase. Qed.

Lemma anchorGrid_carryState h s : carryState (anchorGrid h s) = carryState s.
Proof. phase. Qed.
Lemma anchorGrid_data h s : carryStateData (anchorGrid h s) = carryStateData s.
Proof. phase. Qed.
Lemma anchorGrid_prevDot h s : prevDot (anchorGrid h s) = prevDot s.
Proof. phase. Qed.
Lemma anchorGrid_arrowHelper h s : arrowHelper (anchorGrid h s) = arrowHelper s.
Proof. phase. Qed.
Lemma anchorGrid_grid_visible h s :
  gm_visible (gridMesh (anchorGrid h s)) = gm_visible (gridMesh s).
Proof. phase. Qed.

Lemma resetOnDiscontinuity_carryState d s :
  carryState (resetOnDiscontinuity d s) = carryState s.
Proof. phase. Qed.
Lemma resetOnDiscontinuity_activeObject d s :
  activeObject (carryStateData (resetOnDiscontinuity d s)) =
  activeObject (carryStateData s).
Proof. phase. Qed.
Lemma resetOnDiscontinuity_snapFace d s :
  snapFace (carryStateData (resetOnDiscontinuity d s)) = snapFace (carryStateData s).
Proof. phase. Qed.
Lemma resetOnDiscontinuity_size d s :
  size (carryStateData (resetOnDiscontinuity d s)) = size (carryStateData s).
Proof. phase. Qed.
Lemma resetOnDiscontinuity_center d s :
  center (carryStateData (resetOnDiscontinuity d s)) = center (carryStateData s).
Proof. phase. Qed.
Lemma resetOnDiscontinuity_prevDot d s : prevDot (resetOnDiscontinuity d s) = d.
Proof. phase. Qed.
Lemma resetOnDiscontinuity_arrowHelper d s :
  arrowHelper (resetOnDiscontinuity d s) = arrowHelper s.
Proof. phase. Qed.
Lemma resetOnDiscontinuity_gridMesh d s :
  gridMesh (resetOnDiscontinuity d s) = gridMesh s.
Proof. phase. Qed.
Lemma resetOnDiscontinuity_rotationOffset d s :
  rotationOffset (carryStateData (resetOnDiscontinuity d s)) =
  if Rlt_dec (2 / 10) (Rabs (d - prevDot s)) then 0
  else rotationOffset (carryStateData s).
Proof. phase. Qed.
Lemma resetOnDiscontinuity_nudgeOffset d s :
  nudgeOffset (carryStateData (resetOnDiscontinuity d s)) =
  if Rlt_dec (2 / 10) (Rabs (d - prevDot s)) then NUDGE_START_OFFSET
  else nudgeOffset (carryStateData s).
Proof. phase. Qed.

Lemma aimArrow_carryState t d s : carryState (aimArrow t d s) = carryState s.
Proof. phase. Qed.
Lemma aimArrow_data t d s : carryStateData (aimArrow t d s) = carryStateData s.
Proof. phase. Qed.
Lemma aimArrow_prevDot t d s : prevDot (aimArrow t d s) = prevDot s.
Proof. phase. Qed.
Lemma aimArrow_gridMesh t d s : gridMesh (aimArrow t d s) = gridMesh s.
Proof. phase. Qed.

Lemma gridUniforms_carryState t o s : carryState (gridUniforms t o s) = carryState s.
Proof. phase. Qed.
Lemma gridUniforms_data t o s :
  carryStateData (gridUniforms t o s) = carryStateData s.
Proof. phase. Qed.
Lemma gridUniforms_prevDot t o s : prevDot (gridUniforms t o s) = prevDot s.
Proof. phase. Qed.
Lemma gridUniforms_arrowHelper t o s :
  arrowHelper (gridUniforms t o s) = arrowHelper s.
Proof. phase. Qed.
Lemma gridUniforms_grid_visible t o s :
  gm_visible (gridMesh (gridUniforms t o s)) = gm_visible (gridMesh s).
Proof. phase. Qed.

Create Rewrite HintDb solver.
Hint Rewrite
  rotateInput_carryState rotateInput_activeObject rotateInput_snapFace
  rotateInput_nudgeOffset rotateInput_size rotateInput_center
  rotateInput_prevDot rotateInput_arrowHelper rotateInput_gridMesh
  faceInput_carryState faceInput_activeObject faceInput_rotationOffset
  faceInput_nudgeOffset faceInput_size faceInput_center faceInput_prevDot
  faceInput_arrowHelper faceInput_gridMesh
  nudgeInput_carryState nudgeInput_activeObject nudgeInput_snapFace
  nudgeInput_rotationOffset nudgeInput_size nudgeInput_center
  nudgeInput_prevDot nudgeInput_arrowHelper nudgeInput_gridMesh
  attachHelpers_carryState attachHelpers_data attachHelpers_prevDot
  attachHelpers_arrow_visible attachHelpers_grid_visible
  anchorGrid_carryState anchorGrid_data anchorGrid_prevDot
  anchorGrid_arrowHelper anchorGrid_grid_visible
  resetOnDiscontinuity_carryState resetOnDiscontinuity_activeObject
  resetOnDiscontinuity_snapFace resetOnDiscontinuity_size
  resetOnDiscontinuity_center resetOnDiscontinuity_prevDot
  resetOnDiscontinuity_arrowHelper resetOnDiscontinuity_gridMesh
  aimArrow_carryState aimArrow_data aimArrow_prevDot aimArrow_gridMesh
  gridUniforms_carryState gridUniforms_data gridUniforms_prevDot
  gridUniforms_arrowHelper gridUniforms_grid_visible
  : solver.

(** ** The solver as a whole *)

Lemma solverState_carryState f h s : carryState (solverState f h s) = carryState s.
Proof. unfold solverState. now autorewrite with solver. Qed.

Lemma solverState_activeObject f h s :
  activeObject (carryStateData (solverState f h s)) = activeObject (carryStateData s).
Proof. unfold solverState. now autorewrite with solver. Qed.

Lemma solverState_size f h s :
  size (carryStateData (solverState f h s)) = size (carryStateData s).
Proof. unfold solverState. now autorewrite with solver. Qed.

Lemma solverState_center f h s :
  center (carryStateData (solverState f h s)) = center (carryStateData s).
Proof. unfold solverState. now autorewrite with solver. Qed.

Lemma solverState_snapFace f h s :
  snapFace (carryStateData (solverState f h s)) =
  if change_snap_face f then Z.rem (snapFace (carryStateData s) + 1) 6
  else snapFace (carryStateData s).
Proof.
  unfold solverState. autorewrite with solver.
  now rewrite faceInput_snapFace, rotateInput_snapFace.
Qed.

Lemma solverState_prevDot f h s :
  prevDot (solverState f h s) = Vec.dot (worldNormal h) Y_AXIS.
Proof. unfold solverState. now autorewrite with solver. Qed.

Lemma solverState_grid_visible f h s :
  gm_visible (gridMesh (solverState f h s)) = gm_visible (gridMesh s).
Proof. unfold solverState. now autorewrite with solver. Qed.

(** On a discontinuity the offsets are back at their defaults. *)
Lemma solverState_reset f h s :
  2 / 10 < Rabs (Vec.dot (worldNormal h) Y_AXIS - prevDot s) ->
  rotationOffset (carryStateData (solverState f h s)) = 0
  /\ nudgeOffset (carryStateData (solverState f h s)) = NUDGE_START_OFFSET.
Proof.
  intros Hd. unfold solverState. autorewrite with solver.
  rewrite resetOnDiscontinuity_rotationOffset, resetOnDiscontinuity_nudgeOffset.
  autorewrite with solver.
  destruct (Rlt_dec _ _) as [_|n]; [split; reflexivity | contradiction].
Qed.

(** Without a discontinuity they are the inputs applied to the old
    values. *)
Lemma solverState_steady f h s :
  ~ 2 / 10 < Rabs (Vec.dot (worldNormal h) Y_AXIS - prevDot s) ->
  rotationOffset (carryStateData (solverState f h s)) =
    rotationOffset (carryStateData (rotateInput f s))
  /\ nudgeOffset (carryStateData (solverState f h s)) =
    nudgeOffset (carryStateData (nudgeInput f s)).
Proof.
  intros Hd. unfold solverState. autorewrite with solver.
  rewrite resetOnDiscontinuity_rotationOffset, resetOnDiscontinuity_nudgeOffset.
  autorewrite with solver.
  destruct (Rlt_dec _ _) as [l|_]; [contradiction|].
  rewrite !nudgeInput_nudgeOffset. autorewrite with solver. split; reflexivity.
Qed.

(** The result of [handleSnapping] when it reaches the placement. *)
Lemma handleSnapping_hit s w f h :
  toggle_snap f = false -> drop f = false -> exitedPointerlock s = false ->
  raycast f = Some h ->
  let eid := activeObject (carryStateData s) in
  let S := solverState f h s in
  let sc := clampedScale f (eid2obj w eid) in
  let dot := Vec.dot (worldNormal h) Y_AXIS in
  let face := effectiveSnapFace (snapFace (carryStateData S)) dot in
  let sizeOnAxis := component (size (carryStateData S)) (AXIS_NAME_FOR_FACE face) in
  let scaleOnAxis := component sc (AXIS_NAME_FOR_FACE face) in
  let distance := offsetDistance sizeOnAxis scaleOnAxis (nudgeOffset (carryStateData S)) in
  exists obj,
    handleSnapping s w f =
      (gridUniforms (hit_point h) (obj_scale sc (scaleInput f (eid2obj w eid))) S,
       set_obj eid obj w,
       Some (mkLocals dot face sizeOnAxis scaleOnAxis distance))
    /\ scale obj = sc
    /\ meshes obj = meshes (eid2obj w eid)
    /\ position obj =
         Vec.addScaledVector
           (Vec.sub (hit_point h)
              (applyQuaternion (Vec.multiply (center (carryStateData S)) sc)
                 (quaternion obj)))
           (worldNormal h) distance.
Proof.
  intros Ht Hd He Hr. unfold handleSnapping.
  rewrite Ht, Hd, He, Hr. cbv zeta. cbn [orb].
  rewrite !gridUniforms_data, faceInput_activeObject, rotateInput_activeObject.
  eexists. split; [reflexivity|].
  unfold clampedScale, scaleInput.
  destruct (snap_scale f); cbn; auto.
Qed.

(** ** The frame as a whole *)

Lemma watchdogFires_selection s w sel :
  watchdogFires s (set_selection sel w) = watchdogFires s w.
Proof. reflexivity. Qed.

Lemma watchdog_quiet s w : watchdogFires s w = false -> watchdog s w = s.
Proof. unfold watchdog. now intros ->. Qed.

Lemma endFrame_carryState s : carryState (endFrame s) = carryState s.
Proof. unfold endFrame. now destruct (uiNeedsUpdate s). Qed.
Lemma endFrame_data s : carryStateData (endFrame s) = carryStateData s.
Proof. unfold endFrame. now destruct (uiNeedsUpdate s). Qed.
Lemma endFrame_prevDot s : prevDot (endFrame s) = prevDot s.
Proof. unfold endFrame. now destruct (uiNeedsUpdate s). Qed.
Lemma endFrame_arrowHelper s : arrowHelper (endFrame s) = arrowHelper s.
Proof. unfold endFrame. now destruct (uiNeedsUpdate s). Qed.
Lemma endFrame_gridMesh s : gridMesh (endFrame s) = gridMesh s.
Proof. unfold endFrame. now destruct (uiNeedsUpdate s). Qed.

Lemma carrySystemTrace_eq s w f :
  let w0 := set_selection ∅ w in
  let r := dispatch (watchdog s w0) w0 f in
  carrySystemTrace s w f =
    (endFrame (fst (fst r)),
     (if uiNeedsUpdate (fst (fst r)) then updateUI (fst (fst r)) (snd (fst r))
      else snd (fst r)),
     snd r).
Proof.
  unfold carrySystemTrace. cbv zeta.
  destruct (dispatch _ _ f) as [[s1 w1] l]. cbn [fst snd].
  unfold endFrame. now destruct (uiNeedsUpdate s1).
Qed.

Lemma carrySystem_state s w f :
  fst (carrySystem s w f) =
  endFrame (fst (fst (dispatch (watchdog s (set_selection ∅ w))
                               (set_selection ∅ w) f))).
Proof. unfold carrySystem. now rewrite carrySystemTrace_eq. Qed.

(** The UI event changes neither the objects nor the selection. *)
Lemma flush_eid2obj (c : bool) s (w : World) :
  eid2obj (if c then updateUI s w else w) = eid2obj w.
Proof. now destruct c. Qed.
Lemma flush_selection (c : bool) s (w : World) :
  selection (if c then updateUI s w else w) = selection w.
Proof. now destruct c. Qed.

(** A frame in which the solver places the object. *)
Lemma frame_snapping s w f h :
  snappingHit s w f h ->
  let eid := activeObject (carryStateData s) in
  let S := solverState f h s in
  let sc := clampedScale f (eid2obj w eid) in
  let dot := Vec.dot (worldNormal h) Y_AXIS in
  let face := effectiveSnapFace (snapFace (carryStateData S)) dot in
  let sizeOnAxis := component (size (carryStateData S)) (AXIS_NAME_FOR_FACE face) in
  let scaleOnAxis := component sc (AXIS_NAME_FOR_FACE face) in
  let distance :=
    offsetDistance sizeOnAxis scaleOnAxis (nudgeOffset (carryStateData S)) in
  let w' := snd (carrySystem s w f) in
  exists u,
    fst (carrySystem s w f) = endFrame (gridUniforms (hit_point h) u S)
    /\ solverLocals s w f =
         Some (mkLocals dot face sizeOnAxis scaleOnAxis distance)
    /\ scale (eid2obj w' eid) = sc
    /\ meshes (eid2obj w' eid) = meshes (eid2obj w eid)
    /\ position (eid2obj w' eid) =
         Vec.addScaledVector
           (Vec.sub (hit_point h)
              (applyQuaternion (Vec.multiply (center (carryStateData S)) sc)
                 (quaternion (eid2obj w' eid))))
           (worldNormal h) distance
    /\ (nudgeOffset (carryStateData s) < 0 ->
        forall m, m ∈ meshes (eid2obj w eid) -> m ∈ selection w').
Proof.
  intros (Hs & Hw & Ht & Hd & He & Hr). cbv zeta.
  unfold solverLocals, carrySystem. rewrite carrySystemTrace_eq. cbv zeta.
  rewrite watchdog_quiet by (now rewrite watchdogFires_selection).
  unfold dispatch. rewrite Hs. unfold snappingBranch. cbv zeta.
  set (w0 := if Rlt_dec _ 0 then _ else _).
  assert (Hobj : eid2obj w0 = eid2obj w) by (subst w0; now destruct (Rlt_dec _ _)).
  destruct (handleSnapping_hit s w0 f h Ht Hd He Hr) as (obj & Heq & Hsc & Hm & Hp).
  rewrite Heq. cbn [fst snd]. rewrite Hobj in *.
  rewrite flush_eid2obj, flush_selection. cbn [eid2obj set_obj selection].
  rewrite decide_True by reflexivity.
  eexists. repeat split; auto.
  intros Hn m Hin. subst w0.
  destruct (Rlt_dec _ _) as [_|n]; [|contradiction].
  unfold addEntityToSelection. cbn. set_solver.
Qed.

Lemma COS_FLOOR_SNAP_ANGLE_eq : COS_FLOOR_SNAP_ANGLE = cos (PI / 4).
Proof.
  unfold COS_FLOOR_SNAP_ANGLE, FLOOR_SNAP_ANGLE, degToRad. f_equal. field.
Qed.

Lemma COS_FLOOR_SNAP_ANGLE_bounds : 0 < COS_FLOOR_SNAP_ANGLE <= 1.
Proof.
  rewrite COS_FLOOR_SNAP_ANGLE_eq. split.
  - apply cos_gt_0; pose proof PI_RGT_0; lra.
  - apply COS_bound.
Qed.

Lemma dot_Y_AXIS v : Vec.dot v Y_AXIS = vy v.
Proof. unfold Vec.dot, Y_AXIS. cbn. ring. Qed.

(** ** Snap discontinuity *)

(** C8.  In a frame in which the solver runs and its ray hits a surface,
    if the dot product of the surface normal with world-up differs from
    the stored previous one by more than 0.2, the rotation offset is 0
    and the nudge offset is the start epsilon when the frame ends; the
    dot product of this frame is stored for the next one. *)
Theorem discontinuity_resets_offsets s w f h :
  snappingHit s w f h ->
  2 / 10 < Rabs (Vec.dot (worldNormal h) Y_AXIS - prevDot s) ->
  let s' := fst (carrySystem s w f) in
  rotationOffset (carryStateData s') = 0
  /\ nudgeOffset (carryStateData s') = NUDGE_START_OFFSET
  /\ prevDot s' = Vec.dot (worldNormal h) Y_AXIS.
Proof.
  intros Hh Hd. cbv zeta.
  destruct (frame_snapping s w f h Hh) as (u & -> & _).
  rewrite endFrame_data, endFrame_prevDot, gridUniforms_data,
    gridUniforms_prevDot, solverState_prevDot.
  destruct (solverState_reset f h s Hd) as [-> ->]. auto.
Qed.

(** ** Standoff distance *)

(** C6.  In a frame in which the solver runs and its ray hits a surface,
    the standoff distance is computed from the cached extent of the
    bounding box on the axis of the effective face, the scale of the
    object on that axis and the nudge offset: [(extent / 2 + nudge) *
    scale] for a negative nudge offset and [extent / 2 * scale + nudge]
    otherwise, and the object is placed that far along the normal.  For
    a (1,1,1) box at unit scale whose nudge offset is -0.3 in that frame
    the distance is 0.2, and the meshes of the entity are in the
    highlight selection. *)
Theorem standoff_distance s w f h :
  snappingHit s w f h ->
  let s' := fst (carrySystem s w f) in
  let w' := snd (carrySystem s w f) in
  let obj' := eid2obj w' (activeObject (carryStateData s)) in
  exists loc,
    solverLocals s w f = Some loc
    /\ let axis := AXIS_NAME_FOR_FACE (loc_snapFace loc) in
       let extent := component (size (carryStateData s')) axis in
       let sc := component (scale obj') axis in
       let n := nudgeOffset (carryStateData s') in
       (n < 0 -> loc_offsetDistance loc = (extent / 2 + n) * sc)
       /\ (0 <= n -> loc_offsetDistance loc = extent / 2 * sc + n)
       /\ position obj' =
            Vec.addScaledVector
              (Vec.sub (hit_point h)
                 (applyQuaternion
                    (Vec.multiply (center (carryStateData s')) (scale obj'))
                    (quaternion obj')))
              (worldNormal h) (loc_offsetDistance loc)
       /\ (size (carryStateData s') = V3 1 1 1 ->
           scale obj' = V3 1 1 1 ->
           nudgeOffset (carryStateData s) = - (3 / 10) ->
           n = - (3 / 10) ->
           loc_offsetDistance loc = 2 / 10
           /\ forall m, m ∈ meshes obj' -> m ∈ selection w').
Proof.
  intros Hh. cbv zeta.
  destruct (frame_snapping s w f h Hh) as (u & -> & -> & Hsc & Hm & Hp & Hsel).
  eexists. split; [reflexivity|]. cbn [loc_snapFace loc_offsetDistance].
  rewrite endFrame_data, gridUniforms_data, Hsc, Hm.
  set (face := effectiveSnapFace _ _) in *.
  split_and!.
  - intros Hn. unfold offsetDistance. destruct (Rlt_dec _ 0); [reflexivity | lra].
  - intros Hn. unfold offsetDistance. destruct (Rlt_dec _ 0); [lra | reflexivity].
  - rewrite Hp. reflexivity.
  - intros Hsz Hone Hstart Hn. split.
    + rewrite Hsz, Hone, Hn. unfold offsetDistance.
      destruct (Rlt_dec _ 0); [|lra].
      destruct (AXIS_NAME_FOR_FACE face); cbn; lra.
    + intros m Hin. apply Hsel; [lra | exact Hin].
Qed.

(** ** Effective snap face *)

(** C7.  In a frame in which the solver runs and its ray hits a surface,
    the effective face is the pinned face when [snapFace] is not AUTO;
    otherwise BOTTOM or TOP when the absolute value of the dot product of
    the normal with world-up is at least cos 45 degrees, by the sign of
    the dot product, and BACK when it is smaller.  A (1,1,1) box at unit
    scale on a surface whose normal is world-up, with [snapFace] AUTO and
    the nudge offset at its start epsilon, gets the floor face and the
    distance 0.5 + epsilon. *)
Theorem effective_snap_face s w f h :
  snappingHit s w f h ->
  let s' := fst (carrySystem s w f) in
  let obj' := eid2obj (snd (carrySystem s w f)) (activeObject (carryStateData s)) in
  let pinned := snapFace (carryStateData s') in
  let dot := Vec.dot (worldNormal h) Y_AXIS in
  exists loc,
    solverLocals s w f = Some loc
    /\ (pinned <> SnapFace.AUTO -> loc_snapFace loc = pinned)
    /\ (pinned = SnapFace.AUTO -> cos (degToRad 45) <= Rabs dot -> 0 < dot ->
        loc_snapFace loc = SnapFace.BOTTOM)
    /\ (pinned = SnapFace.AUTO -> cos (degToRad 45) <= Rabs dot -> dot < 0 ->
        loc_snapFace loc = SnapFace.TOP)
    /\ (pinned = SnapFace.AUTO -> Rabs dot < cos (degToRad 45) ->
        loc_snapFace loc = SnapFace.BACK)
    /\ (size (carryStateData s') = V3 1 1 1 ->
        scale obj' = V3 1 1 1 ->
        worldNormal h = Y_AXIS ->
        pinned = SnapFace.AUTO ->
        nudgeOffset (carryStateData s') = NUDGE_START_OFFSET ->
        loc_snapFace loc = DEFAULT_FLOOR_FACE
        /\ loc_offsetDistance loc = 1 / 2 + NUDGE_START_OFFSET).
Proof.
  intros Hh. cbv zeta.
  destruct (frame_snapping s w f h Hh) as (u & -> & -> & Hsc & _).
  eexists. split; [reflexivity|]. cbn [loc_snapFace loc_offsetDistance].
  rewrite endFrame_data, gridUniforms_data, Hsc.
  change (cos (degToRad 45)) with COS_FLOOR_SNAP_ANGLE.
  unfold effectiveSnapFace, SnapFace.AUTO.
  split_and!.
  - intros Hp. now destruct (Z.eqb_spec (snapFace (carryStateData (solverState f h s))) (-1)).
  - intros -> Hc Hd. cbn. destruct (Rle_dec _ _); [|contradiction].
    destruct (Rlt_dec 0 _); [reflexivity | contradiction].
  - intros -> Hc Hd. cbn. destruct (Rle_dec _ _); [|contradiction].
    destruct (Rlt_dec 0 _); [lra | reflexivity].
  - intros -> Hc. cbn. destruct (Rle_dec _ _); [lra | reflexivity].
  - intros Hsz Hone Hup -> Hn. rewrite Hup, Hn, Hsz, Hone, dot_Y_AXIS.
    cbn [negb Z.eqb Pos.eqb vy Y_AXIS].
    destruct (Rle_dec _ _) as [_|n].
    + destruct (Rlt_dec 0 1); [|lra]. split; [reflexivity|].
      unfold offsetDistance, NUDGE_START_OFFSET.
      destruct (Rlt_dec _ 0); [lra|]. cbn. lra.
    + exfalso. apply n. rewrite Rabs_R1. apply COS_FLOOR_SNAP_ANGLE_bounds.
Qed.

(** ** What each transition does to the state machine *)

Lemma carryObject_state eid s w :
  let s' := fst (carryObject eid s w) in
  carryState s' = CARRYING
  /\ activeObject (carryStateData s') = eid
  /\ applyGravity (carryStateData s') = true
  /\ snapFace (carryStateData s') = snapFace (carryStateData s)
  /\ arrowHelper s' = arrowHelper s
  /\ gridMesh s' = gridMesh s.
Proof. cbn. auto 10. Qed.

Lemma dropObject_state s w g :
  let s' := fst (dropObject s w g) in
  carryState s' = NONE
  /\ activeObject (carryStateData s') = 0%nat
  /\ snapFace (carryStateData s') = snapFace (carryStateData s)
  /\ ah_visible (arrowHelper s') = false
  /\ gm_visible (gridMesh s') = false.
Proof. cbn. auto 10. Qed.

Lemma enterSnapping_state s :
  let s' := enterSnapping s in
  carryState s' = SNAPPING
  /\ activeObject (carryStateData s') = activeObject (carryStateData s)
  /\ rotationOffset (carryStateData s') = 0
  /\ nudgeOffset (carryStateData s') = NUDGE_START_OFFSET
  /\ snapFace (carryStateData s') = SnapFace.AUTO
  /\ arrowHelper s' = arrowHelper s
  /\ gm_visible (gridMesh s') = true.
Proof. cbn. auto 10. Qed.

Lemma handleSnapping_face s w f :
  faceChange (change_snap_face f) false s (fst (fst (handleSnapping s w f))).
Proof.
  unfold handleSnapping.
  destruct (toggle_snap f); [now apply face_kept|].
  destruct (drop f || exitedPointerlock s) eqn:Hd; [now apply face_kept|].
  assert (Hc : forall h, snapFace (carryStateData (solverState f h s)) =
               snapFace (carryStateData (faceInput f (rotateInput f s)))).
  { intros h. unfold solverState. now autorewrite with solver. }
  assert (Hk : faceChange (change_snap_face f) false s (faceInput f (rotateInput f s))).
  { destruct (change_snap_face f) eqn:Hp.
    - apply face_cycled; [reflexivity|].
      now rewrite faceInput_snapFace, Hp, rotateInput_snapFace.
    - apply face_kept. now rewrite faceInput_snapFace, Hp, rotateInput_snapFace. }
  destruct (raycast f) as [h|]; [|exact Hk].
  cbv zeta. cbn [fst].
  fold (solverState f h s).
  destruct Hk as [Hk|Hp Hk|Hp]; [apply face_kept|apply face_cycled; [exact Hp|]|discriminate];
    now rewrite gridUniforms_data, Hc.
Qed.

Lemma handleSnapping_machine s w f :
  carryState s = SNAPPING ->
  machineChange s (fst (fst (handleSnapping s w f))).
Proof.
  intros Hs. unfold handleSnapping.
  destruct (toggle_snap f); [now apply machine_busy|].
  destruct (drop f || exitedPointerlock s) eqn:Hd; [now apply machine_cleared|].
  destruct (raycast f) as [h|].
  - cbv zeta. cbn [fst]. fold (solverState f h s).
    apply machine_kept.
    + now rewrite gridUniforms_carryState, solverState_carryState.
    + now rewrite gridUniforms_data, solverState_activeObject.
  - cbn [fst]. apply machine_kept; now autorewrite with solver.
Qed.

Lemma carryingBranch_face s w f :
  faceChange false (toggle_snap f) s (fst (carryingBranch s w f)).
Proof.
  unfold carryingBranch. cbv zeta.
  destruct (toggle_gravity f); cbn;
    destruct (drop f || exitedPointerlock s); cbn;
    destruct (toggle_snap f); cbn;
    first [ now apply face_kept | now apply face_reset ].
Qed.

Lemma carryingBranch_machine s w f :
  machineChange s (fst (carryingBranch s w f)).
Proof.
  unfold carryingBranch. cbv zeta.
  destruct (toggle_gravity f); cbn;
    destruct (drop f || exitedPointerlock s); cbn;
    destruct (toggle_snap f); cbn;
    first [ now apply machine_busy | now apply machine_cleared
          | now apply machine_kept ].
Qed.

Lemma idleBranch_face s w f :
  faceChange false (toggle_snap f) s (fst (idleBranch s w f)).
Proof.
  unfold idleBranch. cbv zeta.
  destruct (truthy (heldRightRemote f)), (toggle_snap f),
    (Nat.eqb (activeObject (carryStateData s)) 0), (truthy (hovered f)),
    (carry f), (menu f); cbn;
    first [ now apply face_kept | now apply face_reset ].
Qed.

Lemma idleBranch_machine s w f :
  machineChange s (fst (idleBranch s w f)).
Proof.
  unfold idleBranch. cbv zeta.
  destruct (truthy (heldRightRemote f)), (toggle_snap f),
    (Nat.eqb (activeObject (carryStateData s)) 0), (truthy (hovered f)),
    (carry f), (menu f); cbn;
    first [ now apply machine_busy | now apply machine_kept ].
Qed.

Lemma watchdog_machine s w : machineChange s (watchdog s w).
Proof.
  unfold watchdog. destruct (watchdogFires s w);
    [now apply machine_cleared | now apply machine_kept].
Qed.

Lemma watchdog_data s w :
  snapFace (carryStateData (watchdog s w)) = snapFace (carryStateData s).
Proof. unfold watchdog. now destruct (watchdogFires s w). Qed.

Lemma faceChange_weaken p t p' t' s s' :
  faceChange p t s s' ->
  (p = true -> p' = true) -> (t = true -> t' = true) ->
  faceChange p' t' s s'.
Proof.
  intros [Hk|Hp Hc|Ht Hs Hr Hn Hf] Hpp Htt;
    [apply face_kept | apply face_cycled | apply face_reset]; auto.
Qed.

Lemma dispatch_face s w f :
  faceChange (change_snap_face f) (toggle_snap f) s (fst (fst (dispatch s w f))).
Proof.
  unfold dispatch. destruct (carryState s) eqn:Hs; cbn [fst].
  - eapply faceChange_weaken; [apply idleBranch_face | discriminate | auto].
  - eapply faceChange_weaken; [apply idleBranch_face | discriminate | auto].
  - eapply faceChange_weaken; [apply carryingBranch_face | discriminate | auto].
  - unfold snappingBranch. cbv zeta.
    eapply faceChange_weaken; [apply handleSnapping_face | auto | discriminate].
Qed.

Lemma dispatch_machine s w f : machineChange s (fst (fst (dispatch s w f))).
Proof.
  unfold dispatch. destruct (carryState s) eqn:Hs; cbn [fst];
    try apply idleBranch_machine; try apply carryingBranch_machine.
  unfold snappingBranch. cbv zeta. now apply handleSnapping_machine.
Qed.

Lemma machineChange_cleared s s' :
  machineChange s s' -> cleared_when_none s -> cleared_when_none s'.
Proof.
  unfold cleared_when_none.
  intros [Hn Ha|Hc Ha|Hb] Hi Hs; [exact Ha | rewrite Ha; apply Hi; congruence | contradiction].
Qed.

Lemma frame_cleared s w f :
  cleared_when_none s -> cleared_when_none (fst (carrySystem s w f)).
Proof.
  intros Hi. rewrite carrySystem_state.
  unfold cleared_when_none. rewrite endFrame_carryState, endFrame_data.
  eapply machineChange_cleared; [apply dispatch_machine|].
  eapply machineChange_cleared; [apply watchdog_machine | exact Hi].
Qed.

Lemma step_cleared s s' : step s s' -> cleared_when_none s -> cleared_when_none s'.
Proof.
  intros [s0 w f|s0 w eid|s0|s0 l] Hi.
  - now apply frame_cleared.
  - intros Hn. now destruct (carryObject_state eid s0 w) as (Hc & _); cbv zeta in Hc; rewrite Hc in Hn.
  - intros _. reflexivity.
  - exact Hi.
Qed.

Lemma reachable_cleared s : reachable s -> cleared_when_none s.
Proof.
  induction 1 as [|s s' _ IH Hstep]; [intros _; reflexivity|].
  eapply step_cleared; eauto.
Qed.

(** ** The face stays in range *)

Lemma cycle_in_range (x : Z) :
  (-1 <= x <= 5)%Z -> (0 <= Z.rem (x + 1) 6 <= 5)%Z.
Proof.
  intros Hx. pose proof (Z.rem_bound_pos (x + 1) 6). lia.
Qed.

Lemma faceChange_range p t s s' :
  faceChange p t s s' -> face_in_range s -> face_in_range s'.
Proof.
  unfold face_in_range.
  intros [Hk|_ Hc|_ _ _ _ Hf] Hr.
  - now rewrite Hk.
  - rewrite Hc. pose proof (cycle_in_range _ Hr). lia.
  - rewrite Hf. unfold SnapFace.AUTO. lia.
Qed.

Lemma faceChange_from p t s0 s s' :
  snapFace (carryStateData s0) = snapFace (carryStateData s) ->
  faceChange p t s0 s' -> faceChange p t s s'.
Proof.
  intros He [Hk|Hp Hc|Ht Hs Hr Hn Hf];
    [apply face_kept | apply face_cycled | apply face_reset]; congruence.
Qed.

Lemma faceChange_endFrame p t s s' :
  faceChange p t s s' -> faceChange p t s (endFrame s').
Proof.
  intros [Hk|Hp Hc|Ht Hs Hr Hn Hf];
    [apply face_kept | apply face_cycled | apply face_reset];
    rewrite ?endFrame_data, ?endFrame_carryState; auto.
Qed.

Lemma frame_face s w f :
  faceChange (change_snap_face f) (toggle_snap f) s (fst (carrySystem s w f)).
Proof.
  rewrite carrySystem_state. apply faceChange_endFrame.
  eapply faceChange_from; [apply watchdog_data | apply dispatch_face].
Qed.

Lemma step_face s s' : step s s' -> exists p t, faceChange p t s s'.
Proof.
  intros [s0 w f|s0 w eid|s0|s0 l].
  - eauto using frame_face.
  - exists false, false. now apply face_kept.
  - exists false, false. now apply face_kept.
  - exists false, false. now apply face_kept.
Qed.

Lemma reachable_face_in_range s : reachable s -> face_in_range s.
Proof.
  induction 1 as [|s s' _ IH Hstep].
  - unfold face_in_range. cbn. unfold SnapFace.AUTO. lia.
  - destruct (step_face _ _ Hstep) as (p & t & Hc).
    eapply faceChange_range; eauto.
Qed.

(** The record of the state after a frame in which the solver runs past
    its early returns. *)
Lemma handleSnapping_data s w f :
  toggle_snap f = false -> drop f = false -> exitedPointerlock s = false ->
  carryStateData (fst (fst (handleSnapping s w f))) =
  carryStateData (match raycast f with
                  | Some h => solverState f h s
                  | None => faceInput f (rotateInput f s)
                  end).
Proof.
  intros Ht Hd He. unfold handleSnapping. rewrite Ht, Hd, He. cbn [orb].
  destruct (raycast f) as [h|]; [|reflexivity].
  cbv zeta. cbn [fst]. fold (solverState f h s). apply gridUniforms_data.
Qed.

Lemma frame_solver_data s w f :
  carryState s = SNAPPING -> watchdogFires s w = false ->
  toggle_snap f = false -> drop f = false -> exitedPointerlock s = false ->
  carryStateData (fst (carrySystem s w f)) =
  carryStateData (match raycast f with
                  | Some h => solverState f h s
                  | None => faceInput f (rotateInput f s)
                  end).
Proof.
  intros Hs Hw Ht Hd He. rewrite carrySystem_state, endFrame_data.
  rewrite watchdog_quiet by (now rewrite watchdogFires_selection).
  unfold dispatch. rewrite Hs. unfold snappingBranch. cbv zeta.
  now apply handleSnapping_data.
Qed.

Lemma frame_solver_snapFace s w f :
  carryState s = SNAPPING -> watchdogFires s w = false ->
  toggle_snap f = false -> drop f = false -> exitedPointerlock s = false ->
  snapFace (carryStateData (fst (carrySystem s w f))) =
  if change_snap_face f then Z.rem (snapFace (carryStateData s) + 1) 6
  else snapFace (carryStateData s).
Proof.
  intros Hs Hw Ht Hd He. rewrite frame_solver_data by assumption.
  destruct (raycast f) as [h|]; [apply solverState_snapFace|].
  now rewrite faceInput_snapFace, rotateInput_snapFace.
Qed.

(** The rotation input, when no discontinuity resets it. *)
Lemma frame_solver_rotation s w f :
  carryState s = SNAPPING -> watchdogFires s w = false ->
  toggle_snap f = false -> drop f = false -> exitedPointerlock s = false ->
  match raycast f with
  | Some h => ~ 2 / 10 < Rabs (Vec.dot (worldNormal h) Y_AXIS - prevDot s)
  | None => True
  end ->
  rotationOffset (carryStateData (fst (carrySystem s w f))) =
  if rotate_ccw f then rotationOffset (carryStateData s) - ROTATION_SPEED * delta f
  else if rotate_cw f then rotationOffset (carryStateData s) + ROTATION_SPEED * delta f
  else rotationOffset (carryStateData s).
Proof.
  intros Hs Hw Ht Hd He Hr. rewrite frame_solver_data by assumption.
  destruct (raycast f) as [h|].
  - destruct (solverState_steady f h s Hr) as [-> _].
    apply rotateInput_rotationOffset.
  - rewrite faceInput_rotationOffset. apply rotateInput_rotationOffset.
Qed.

Lemma ROTATION_SPEED_eq : ROTATION_SPEED = PI / 2000.
Proof. unfold ROTATION_SPEED, ROTATIONS_PER_SECOND. field. Qed.

(** C9.  In every reachable state the face is one of -1, 0, ..., 5.  A
    frame that handles a [change_snap_face] press leaves it in 0 .. 5.
    A transition that takes the face from a concrete value back to AUTO
    ends in SNAPPING with the offsets at their defaults, and no frame
    without a [toggle_snap] press does so. *)
Theorem snapFace_range s :
  reachable s ->
  (-1 <= snapFace (carryStateData s) <= 5)%Z
  /\ (forall w f,
        carryState s = SNAPPING -> watchdogFires s w = false ->
        toggle_snap f = false -> drop f = false ->
        exitedPointerlock s = false -> change_snap_face f = true ->
        (0 <= snapFace (carryStateData (fst (carrySystem s w f))) <= 5)%Z)
  /\ (forall s',
        step s s' ->
        snapFace (carryStateData s) <> SnapFace.AUTO ->
        snapFace (carryStateData s') = SnapFace.AUTO ->
        carryState s' = SNAPPING
        /\ rotationOffset (carryStateData s') = 0
        /\ nudgeOffset (carryStateData s') = NUDGE_START_OFFSET)
  /\ (forall w f,
        snapFace (carryStateData s) <> SnapFace.AUTO ->
        toggle_snap f = false ->
        snapFace (carryStateData (fst (carrySystem s w f))) <> SnapFace.AUTO).
Proof.
  intros Hr. pose proof (reachable_face_in_range s Hr) as Hi.
  unfold face_in_range in Hi. refine (conj Hi (conj _ (conj _ _))).
  - intros w f Hs Hw Ht Hd He Hp.
    rewrite frame_solver_snapFace, Hp by assumption.
    now apply cycle_in_range.
  - intros s' Hstep Hne Hauto.
    destruct (step_face _ _ Hstep) as (p & t & [Hk|_ Hc|_ Hs Hro Hn _]).
    + congruence.
    + pose proof (cycle_in_range _ Hi). unfold SnapFace.AUTO in *. lia.
    + auto.
  - intros w f Hne Ht Hauto.
    destruct (frame_face s w f) as [Hk|_ Hc|Htt _ _ _ _].
    + congruence.
    + pose proof (cycle_in_range _ Hi). unfold SnapFace.AUTO in *. lia.
    + congruence.
Qed.

(** C2.  In every reachable state with [carryState] NONE the active
    object is 0; [clearObjectMenu], [dropObject] and the reset at the top
    of a frame each set [carryState] to NONE and the active object to 0
    together. *)
Theorem none_has_no_active_object s :
  reachable s ->
  (carryState s = NONE -> activeObject (carryStateData s) = 0%nat)
  /\ (carryState (clearObjectMenu s) = NONE
      /\ activeObject (carryStateData (clearObjectMenu s)) = 0%nat)
  /\ (forall w gravity,
        carryState (fst (dropObject s w gravity)) = NONE
        /\ activeObject (carryStateData (fst (dropObject s w gravity))) = 0%nat)
  /\ (forall w,
        watchdogFires s w = true ->
        carryState (watchdog s w) = NONE
        /\ activeObject (carryStateData (watchdog s w)) = 0%nat).
Proof.
  intros Hr. refine (conj _ (conj _ (conj _ _))).
  - apply reachable_cleared, Hr.
  - split; reflexivity.
  - intros w g. split; reflexivity.
  - intros w Hw. unfold watchdog. rewrite Hw. split; reflexivity.
Qed.

(** ** The check at the top of the frame *)

Lemma watchdog_fired s w :
  watchdogFires s w = true ->
  carryState (watchdog s w) = NONE
  /\ activeObject (carryStateData (watchdog s w)) = 0%nat
  /\ ah_visible (arrowHelper (watchdog s w)) = false
  /\ gm_visible (gridMesh (watchdog s w)) = false.
Proof. intros Hw. unfold watchdog. rewrite Hw. now cbn. Qed.

Lemma idleBranch_arrowHelper s w f :
  arrowHelper (fst (idleBranch s w f)) = arrowHelper s.
Proof.
  unfold idleBranch. cbv zeta.
  destruct (truthy (heldRightRemote f)), (toggle_snap f),
    (Nat.eqb (activeObject (carryStateData s)) 0), (truthy (hovered f)),
    (carry f), (menu f); reflexivity.
Qed.

Lemma idleBranch_quiet s w f :
  startsInteraction f = false -> fst (idleBranch s w f) = s.
Proof.
  unfold startsInteraction, idleBranch. cbv zeta.
  destruct (truthy (heldRightRemote f)), (toggle_snap f),
    (Nat.eqb (activeObject (carryStateData s)) 0), (truthy (hovered f)),
    (carry f), (menu f); cbn; intros Hq; try discriminate; reflexivity.
Qed.

(** C1, as the code has it.  When the existence check of the active
    entity fails, or the state is CARRYING or SNAPPING and the entity is
    not Owned, the check at the top of the frame leaves [carryState]
    NONE, the active object 0 and both visual aids hidden.  The idle
    branch then runs in the same frame: the arrow is still hidden when
    the frame ends, and if that branch neither picks an entity up nor
    opens the menu, [carryState] is still NONE, the active object 0 and
    the grid hidden. *)
Theorem watchdog_forces_reset s w f :
  watchdogFires s w = true ->
  let s0 := watchdog s w in
  let s' := fst (carrySystem s w f) in
  (carryState s0 = NONE
   /\ activeObject (carryStateData s0) = 0%nat
   /\ ah_visible (arrowHelper s0) = false
   /\ gm_visible (gridMesh s0) = false)
  /\ ah_visible (arrowHelper s') = false
  /\ (startsInteraction f = false ->
      carryState s' = NONE
      /\ activeObject (carryStateData s') = 0%nat
      /\ gm_visible (gridMesh s') = false).
Proof.
  intros Hw. cbv zeta.
  pose proof (watchdog_fired s w Hw) as (Hs & Ha & Hv & Hg).
  refine (conj (conj Hs (conj Ha (conj Hv Hg))) _).
  rewrite carrySystem_state.
  rewrite endFrame_arrowHelper, endFrame_carryState, endFrame_data,
    endFrame_gridMesh.
  change (watchdog s (set_selection ∅ w)) with (watchdog s w).
  unfold dispatch. rewrite Hs. cbn [fst]. split.
  - now rewrite idleBranch_arrowHelper.
  - intros Hq. rewrite idleBranch_quiet by exact Hq. auto.
Qed.

(** ** Cycling the face *)

(** C4, as the code has it.  From any concrete face 0 .. 5, six
    [change_snap_face] steps lead back to the same face. *)
Theorem six_presses_return d :
  (0 <= snapFace d <= 5)%Z ->
  Nat.iter 6 changeSnapFace d = d.
Proof.
  destruct d as [a r n sf g x y c sz]. cbn [snapFace]. intros Hr.
  assert (Hc : sf = 0%Z \/ sf = 1%Z \/ sf = 2%Z \/ sf = 3%Z \/ sf = 4%Z
               \/ sf = 5%Z) by lia.
  destruct Hc as [->|[->|[->|[->|[->| ->]]]]]; reflexivity.
Qed.

(** ** Taking an entity over *)

Lemma hasComponent_remove e c c' eid eid' :
  hasComponent (removeComponent e c eid) c' eid' =
  if decide (c' = c) then hasComponent e c' eid' && negb (Nat.eqb eid' eid)
  else hasComponent e c' eid'.
Proof.
  unfold hasComponent, removeComponent. cbn.
  destruct (decide (c' = c)); [|reflexivity].
  destruct (Nat.eqb_spec eid' eid) as [->|Hne].
  - rewrite andb_false_r. apply bool_decide_eq_false.
    rewrite elem_of_difference, elem_of_singleton. tauto.
  - rewrite andb_true_r. apply bool_decide_ext.
    rewrite elem_of_difference, elem_of_singleton. tauto.
Qed.

(** The four markers the code removes are absent afterwards. *)
Lemma carryObject_strips eid s w :
  let e' := ecs (snd (carryObject eid s w)) in
  hasComponent e' Held eid = false
  /\ hasComponent e' HeldHandLeft eid = false
  /\ hasComponent e' HeldRemoteLeft eid = false
  /\ hasComponent e' HeldRemoteRight eid = false.
Proof.
  cbn. rewrite !hasComponent_remove. cbn.
  rewrite Nat.eqb_refl. cbn. rewrite !andb_false_r. auto.
Qed.

(** [HeldHandRight] is as [takeOwnership] leaves it. *)
Lemma carryObject_keeps_HeldHandRight eid s w :
  hasComponent (ecs (snd (carryObject eid s w))) HeldHandRight eid =
  hasComponent (takeOwnership (ecs w) eid) HeldHandRight eid.
Proof. cbn. rewrite !hasComponent_remove. reflexivity. Qed.

Lemma bodyUpdates_app b l1 l2 :
  bodyUpdates b (l1 ++ l2) = bodyUpdates b l1 ++ bodyUpdates b l2.
Proof.
  induction l1 as [|e l1 IH]; [reflexivity|].
  destruct e; cbn; try exact IH.
  destruct (Nat.eqb body b); cbn; now rewrite IH.
Qed.

(** C10.  [carryObject e2], called while another entity [e1] with a body
    of its own is the active object, issues one options update, for the
    body of [e2]; the updates issued for the body of [e1] are the same
    before and after, so its last options stand; the state record names
    [e2] as the active object with [applyGravity] set. *)
Theorem carryObject_leaves_previous_body s w e1 e2 :
  activeObject (carryStateData s) = e1 ->
  e1 <> e2 ->
  bodyId w e1 <> bodyId w e2 ->
  let s' := fst (carryObject e2 s w) in
  let w' := snd (carryObject e2 s w) in
  effects w' =
    effects w ++ [RequestPointerLock; UpdateBodyOptions (bodyId w e2) carryOptions]
  /\ bodyUpdates (bodyId w e1) (effects w') = bodyUpdates (bodyId w e1) (effects w)
  /\ last (bodyUpdates (bodyId w e1) (effects w')) =
     last (bodyUpdates (bodyId w e1) (effects w))
  /\ bodyUpdates (bodyId w e2) (effects w') =
     bodyUpdates (bodyId w e2) (effects w) ++ [carryOptions]
  /\ carryState s' = CARRYING
  /\ activeObject (carryStateData s') = e2
  /\ applyGravity (carryStateData s') = true.
Proof.
  intros Ha Hne Hb. cbv zeta.
  assert (He : effects (snd (carryObject e2 s w)) =
               effects w ++ [RequestPointerLock;
                             UpdateBodyOptions (bodyId w e2) carryOptions]).
  { cbn. now rewrite <- app_assoc. }
  assert (Hu : bodyUpdates (bodyId w e1) (effects (snd (carryObject e2 s w))) =
               bodyUpdates (bodyId w e1) (effects w)).
  { rewrite He, bodyUpdates_app. cbn.
    destruct (Nat.eqb_spec (bodyId w e2) (bodyId w e1)) as [Heq|_];
      [now symmetry in Heq | apply app_nil_r]. }
  refine (conj He (conj Hu (conj _ (conj _ _)))).
  - now rewrite Hu.
  - rewrite He, bodyUpdates_app. cbn. now rewrite Nat.eqb_refl.
  - cbn. auto.
Qed.

(** ** Facts used when a frame is run on concrete inputs *)

Lemma frame_solver_size s w f :
  carryState s = SNAPPING -> watchdogFires s w = false ->
  toggle_snap f = false -> drop f = false -> exitedPointerlock s = false ->
  size (carryStateData (fst (carrySystem s w f))) = size (carryStateData s).
Proof.
  intros Hs Hw Ht Hd He. rewrite frame_solver_data by assumption.
  destruct (raycast f) as [h|]; [apply solverState_size|].
  now rewrite faceInput_size, rotateInput_size.
Qed.

Lemma frame_solver_nudge s w f h :
  snappingHit s w f h ->
  ~ 2 / 10 < Rabs (Vec.dot (worldNormal h) Y_AXIS - prevDot s) ->
  nudgeOffset (carryStateData (fst (carrySystem s w f))) =
  match snap_nudge f with
  | Some nudgeDelta =>
      nudgeOffset (carryStateData s) + nudgeDelta * delta f * NUDGE_SPEED
  | None => nudgeOffset (carryStateData s)
  end.
Proof.
  intros (Hs & Hw & Ht & Hd & He & Hr) Hn.
  rewrite frame_solver_data, Hr by assumption.
  destruct (solverState_steady f h s Hn) as [_ ->].
  rewrite nudgeInput_nudgeOffset. now autorewrite with solver.
Qed.

Lemma frame_solver_prevDot s w f h :
  snappingHit s w f h ->
  prevDot (fst (carrySystem s w f)) = Vec.dot (worldNormal h) Y_AXIS.
Proof.
  intros Hh. destruct (frame_snapping s w f h Hh) as (u & -> & _).
  now rewrite endFrame_prevDot, gridUniforms_prevDot, solverState_prevDot.
Qed.

Lemma frame_solver_scale s w f h :
  snappingHit s w f h ->
  scale (eid2obj (snd (carrySystem s w f)) (activeObject (carryStateData s))) =
  clampedScale f (eid2obj w (activeObject (carryStateData s))).
Proof.
  intros Hh. now destruct (frame_snapping s w f h Hh) as (u & _ & _ & Hsc & _).
Qed.

Lemma frame_solver_meshes s w f h :
  snappingHit s w f h ->
  meshes (eid2obj (snd (carrySystem s w f)) (activeObject (carryStateData s))) =
  meshes (eid2obj w (activeObject (carryStateData s))).
Proof.
  intros Hh. now destruct (frame_snapping s w f h Hh) as (u & _ & _ & _ & Hm & _).
Qed.
End Properties.

(** * Further properties of the frame driver *)

Section FrameProperties.
Context {collaborators : Collaborators}.

Create Rewrite HintDb statements.
Hint Rewrite
  rotateInput_carryState rotateInput_activeObject rotateInput_snapFace
  rotateInput_nudgeOffset rotateInput_size rotateInput_center
  rotateInput_prevDot rotateInput_arrowHelper rotateInput_gridMesh
  faceInput_carryState faceInput_activeObject faceInput_rotationOffset
  faceInput_nudgeOffset faceInput_size faceInput_center faceInput_prevDot
  faceInput_arrowHelper faceInput_gridMesh
  nudgeInput_carryState nudgeInput_activeObject nudgeInput_snapFace
  nudgeInput_rotationOffset nudgeInput_size nudgeInput_center
  nudgeInput_prevDot nudgeInput_arrowHelper nudgeInput_gridMesh
  attachHelpers_carryState attachHelpers_data attachHelpers_prevDot
  attachHelpers_arrow_visible attachHelpers_grid_visible
  anchorGrid_carryState anchorGrid_data anchorGrid_prevDot
  anchorGrid_arrowHelper anchorGrid_grid_visible
  resetOnDiscontinuity_carryState resetOnDiscontinuity_activeObject
  resetOnDiscontinuity_snapFace resetOnDiscontinuity_size
  resetOnDiscontinuity_center resetOnDiscontinuity_prevDot
  resetOnDiscontinuity_arrowHelper resetOnDiscontinuity_gridMesh
  aimArrow_carryState aimArrow_data aimArrow_prevDot aimArrow_gridMesh
  gridUniforms_carryState gridUniforms_data gridUniforms_prevDot
  gridUniforms_arrowHelper gridUniforms_grid_visible
    faceInput_snapFace rotateInput_rotationOffset nudgeInput_nudgeOffset
  endFrame_carryState endFrame_data endFrame_prevDot endFrame_arrowHelper
  endFrame_gridMesh
  : statements.

(** ** Worlds and call logs through the transitions *)

Lemma carrySystem_world s w f :
  let w0 := set_selection ∅ w in
  let r := dispatch (watchdog s w0) w0 f in
  snd (carrySystem s w f) =
    if uiNeedsUpdate (fst (fst r)) then updateUI (fst (fst r)) (snd (fst r))
    else snd (fst r).
Proof. unfold carrySystem. now rewrite carrySystemTrace_eq. Qed.

Lemma carrySystem_effects s w f :
  let w0 := set_selection ∅ w in
  let r := dispatch (watchdog s w0) w0 f in
  effects (snd (carrySystem s w f)) =
    effects (snd (fst r))
    ++ uiCall (uiNeedsUpdate (fst (fst r))) (fst (carrySystem s w f)).
Proof.
  cbv zeta. rewrite carrySystem_world, carrySystem_state. cbv zeta.
  unfold uiCall. rewrite endFrame_carryState, endFrame_data.
  destruct (uiNeedsUpdate _); [reflexivity | now rewrite app_nil_r].
Qed.

Lemma carrySystem_eid2obj s w f :
  eid2obj (snd (carrySystem s w f)) =
  eid2obj (snd (fst (dispatch (watchdog s (set_selection ∅ w))
                              (set_selection ∅ w) f))).
Proof. rewrite carrySystem_world. cbv zeta. apply flush_eid2obj. Qed.

Lemma carrySystem_selection s w f :
  selection (snd (carrySystem s w f)) =
  selection (snd (fst (dispatch (watchdog s (set_selection ∅ w))
                                (set_selection ∅ w) f))).
Proof. rewrite carrySystem_world. cbv zeta. apply flush_selection. Qed.

Lemma dropObject_effects s w g :
  effects (snd (dropObject s w g)) =
  effects w ++ dropCalls (bodyId w (activeObject (carryStateData s))) g.
Proof.
  unfold dropObject, dropCalls. cbv zeta.
  destruct unlockPointerOnDrop; cbn;
    destruct (hasComponent _ _ _); cbn; now rewrite <- ?app_assoc.
Qed.

Lemma dropObject_eid2obj s w g : eid2obj (snd (dropObject s w g)) = eid2obj w.
Proof.
  unfold dropObject. cbv zeta.
  destruct unlockPointerOnDrop; cbn; destruct (hasComponent _ _ _); reflexivity.
Qed.

Lemma dropObject_selection s w g : selection (snd (dropObject s w g)) = selection w.
Proof.
  unfold dropObject. cbv zeta.
  destruct unlockPointerOnDrop; cbn; destruct (hasComponent _ _ _); reflexivity.
Qed.

Lemma carryObject_effects eid s w :
  effects (snd (carryObject eid s w)) = effects w ++ carryCalls (bodyId w eid).
Proof. cbn. now rewrite <- app_assoc. Qed.

Lemma dispatch_carrying s w f :
  carryingFrame s w ->
  dispatch (watchdog s (set_selection ∅ w)) (set_selection ∅ w) f =
  (carryingBranch s (set_selection ∅ w) f, None).
Proof.
  intros [Hs Hw].
  rewrite watchdog_quiet by (now rewrite watchdogFires_selection).
  unfold dispatch. now rewrite Hs.
Qed.

Lemma dispatch_snapping s w f :
  carryState s = SNAPPING -> watchdogFires s w = false ->
  dispatch (watchdog s (set_selection ∅ w)) (set_selection ∅ w) f =
  snappingBranch s (set_selection ∅ w) f.
Proof.
  intros Hs Hw.
  rewrite watchdog_quiet by (now rewrite watchdogFires_selection).
  unfold dispatch. now rewrite Hs.
Qed.

Lemma dispatch_idle s w f :
  carryState (watchdog s w) = NONE \/ carryState (watchdog s w) = MENU ->
  dispatch (watchdog s (set_selection ∅ w)) (set_selection ∅ w) f =
  (idleBranch (watchdog s w) (set_selection ∅ w) f, None).
Proof.
  intros Hs. change (watchdog s (set_selection ∅ w)) with (watchdog s w).
  unfold dispatch. now destruct Hs as [-> | ->].
Qed.

(** ** Frames in which an object is carried *)

Lemma projectOnPlane_Y v : Vec.projectOnPlane v Y_AXIS = V3 (vx v) 0 (vz v).
Proof.
  unfold Vec.projectOnPlane, Vec.sub, Vec.multiplyScalar, Vec.dot, Y_AXIS.
  cbn. f_equal; ring.
Qed.

(** The carrying branch, with the pair of the drop taken apart. *)
Lemma carryingBranch_eq s w f :
  let dir := Vec.normalize (Vec.projectOnPlane (povWorldDirection f) Y_AXIS) in
  let obj :=
    obj_position
      (Vec.add (rigWorldPosition f)
         (Vec.setY (Vec.multiplyScalar dir (- CARRY_DISTANCE)) CARRY_HEIGHT))
      (obj_quaternion (setFromUnitVectors Z_AXIS dir)
         (eid2obj w (activeObject (carryStateData s)))) in
  let w1 := set_obj (activeObject (carryStateData s)) obj w in
  let s1 :=
    if toggle_gravity f then
      set_uiNeedsUpdate true
        (upd_data (fun d => set_applyGravity (negb (applyGravity d)) d) s)
    else s in
  let gravity := xorb (toggle_gravity f) (applyGravity (carryStateData s)) in
  let dropped := drop f || exitedPointerlock s in
  let s2 := if dropped then fst (dropObject s1 w1 gravity) else s1 in
  let w2 := if dropped then snd (dropObject s1 w1 gravity) else w1 in
  carryingBranch s w f = (if toggle_snap f then enterSnapping s2 else s2, w2).
Proof.
  unfold carryingBranch. cbv zeta.
  destruct (toggle_gravity f); cbn [exitedPointerlock set_uiNeedsUpdate upd_data xorb];
    destruct (drop f || exitedPointerlock s); reflexivity.
Qed.

Lemma carryingBranch_object s w f :
  eid2obj (snd (carryingBranch s w f)) (activeObject (carryStateData s)) =
  let dir := Vec.normalize (Vec.projectOnPlane (povWorldDirection f) Y_AXIS) in
  obj_position
    (Vec.add (rigWorldPosition f)
       (Vec.setY (Vec.multiplyScalar dir (- CARRY_DISTANCE)) CARRY_HEIGHT))
    (obj_quaternion (setFromUnitVectors Z_AXIS dir)
       (eid2obj w (activeObject (carryStateData s)))).
Proof.
  rewrite carryingBranch_eq. cbv zeta. cbn [snd].
  destruct (drop f || exitedPointerlock s);
    rewrite ?dropObject_eid2obj; cbn [eid2obj set_obj];
    now rewrite decide_True.
Qed.

(** X1.  In every frame in which the carrying branch runs, the active
    object is put exactly CARRY_HEIGHT above the y of the rig position;
    horizontally it sits at distance CARRY_DISTANCE from the rig when the
    view direction has a horizontal part, and straight above the rig when
    the view direction is vertical. *)
Theorem carried_object_pose s w f :
  carryingFrame s w ->
  let p := position (eid2obj (snd (carrySystem s w f))
                             (activeObject (carryStateData s))) in
  let rig := rigWorldPosition f in
  vy p = vy rig + CARRY_HEIGHT
  /\ (horizontalSq (povWorldDirection f) = 0 ->
      vx p = vx rig /\ vz p = vz rig)
  /\ (horizontalSq (povWorldDirection f) <> 0 ->
      horizontalSq (Vec.sub p rig) = CARRY_DISTANCE * CARRY_DISTANCE).
Proof.
  intros Hc. cbv zeta.
  rewrite carrySystem_eid2obj, (dispatch_carrying s w f Hc). cbn [fst snd].
  rewrite carryingBranch_object. cbv zeta. cbn [position obj_position].
  rewrite projectOnPlane_Y.
  set (d := povWorldDirection f). set (rig := rigWorldPosition f).
  unfold Vec.normalize, Vec.length, Vec.dot, horizontalSq. cbn [vx vy vz].
  replace (vx d * vx d + 0 * 0 + vz d * vz d) with (vx d * vx d + vz d * vz d)
    by ring.
  set (q := vx d * vx d + vz d * vz d).
  assert (Hq : 0 <= q) by (unfold q; nra).
  split; [cbn; ring|]. split.
  - intros H0. rewrite H0, sqrt_0.
    destruct (Req_dec_T 0 0) as [_|n]; [|now contradiction n].
    assert (vx d = 0 /\ vz d = 0) as [Hx Hz] by (unfold q in H0; split; nra).
    cbn. rewrite Hx, Hz. split; ring.
  - intros Hn.
    destruct (Req_dec_T (sqrt q) 0) as [e|n].
    + apply sqrt_eq_0 in e; [contradiction | exact Hq].
    + cbn. pose proof (sqrt_sqrt q Hq) as Hs.
      set (l := sqrt q) in *.
      replace (vx rig + vx d * / l * - CARRY_DISTANCE - vx rig)
        with (- CARRY_DISTANCE * (vx d / l)) by (field; exact n).
      replace (vz rig + vz d * / l * - CARRY_DISTANCE - vz rig)
        with (- CARRY_DISTANCE * (vz d / l)) by (field; exact n).
      replace (- CARRY_DISTANCE * (vx d / l) * (- CARRY_DISTANCE * (vx d / l)) +
               - CARRY_DISTANCE * (vz d / l) * (- CARRY_DISTANCE * (vz d / l)))
        with (CARRY_DISTANCE * CARRY_DISTANCE * (q / (l * l)))
        by (unfold q; field; exact n).
      rewrite Hs. field. lra.
Qed.

Lemma carrying_frame_state s w f :
  carryingFrame s w ->
  fst (carrySystem s w f) =
  endFrame (fst (carryingBranch s (set_selection ∅ w) f)).
Proof. intros Hc. now rewrite carrySystem_state, (dispatch_carrying s w f Hc). Qed.

Lemma carrying_frame_effects s w f :
  carryingFrame s w ->
  effects (snd (carrySystem s w f)) =
  effects (snd (carryingBranch s (set_selection ∅ w) f))
  ++ uiCall (uiNeedsUpdate (fst (carryingBranch s (set_selection ∅ w) f)))
       (fst (carrySystem s w f)).
Proof.
  intros Hc. rewrite carrySystem_effects. cbv zeta.
  now rewrite (dispatch_carrying s w f Hc).
Qed.

(** X2.  A toggle_snap press in a frame of the carrying branch, with no
    drop in that frame, enters SNAPPING on the same object: rotation
    offset 0, nudge offset at the start epsilon, face AUTO, grid shown,
    no remembered surface; the gravity flag is the one after a
    toggle_gravity press of the same frame, and the only call that leaves
    the program is the UI event for the new state. *)
Theorem snap_toggle_from_carrying s w f :
  carryingFrame s w ->
  toggle_snap f = true -> drop f = false -> exitedPointerlock s = false ->
  let s' := fst (carrySystem s w f) in
  let w' := snd (carrySystem s w f) in
  carryState s' = SNAPPING
  /\ activeObject (carryStateData s') = activeObject (carryStateData s)
  /\ rotationOffset (carryStateData s') = 0
  /\ nudgeOffset (carryStateData s') = NUDGE_START_OFFSET
  /\ snapFace (carryStateData s') = SnapFace.AUTO
  /\ applyGravity (carryStateData s') =
     xorb (toggle_gravity f) (applyGravity (carryStateData s))
  /\ size (carryStateData s') = size (carryStateData s)
  /\ gm_visible (gridMesh s') = true
  /\ lastIntersectedObj s' = None
  /\ effects w' = effects w ++ [UpdateCarryUI SNAPPING (carryStateData s')].
Proof.
  intros Hc Ht Hd He. cbv zeta.
  rewrite (carrying_frame_effects s w f Hc), (carrying_frame_state s w f Hc).
  rewrite carryingBranch_eq. cbv zeta. rewrite Ht, Hd, He. cbn [orb fst snd].
  rewrite endFrame_carryState, endFrame_data, endFrame_gridMesh.
  unfold endFrame.
  destruct (toggle_gravity f); cbn; auto 12.
Qed.

(** X3.  A drop press, or a pointer lock lost since the last frame, in a
    frame of the carrying branch without a toggle_snap press ends the
    carry: the state is NONE with no active object and both visual aids
    hidden, and the calls issued are, in order, the pointer-lock release
    when configured, one options update for the body of the object that
    was carried, dynamic or kinematic by the gravity flag as it is after a
    toggle_gravity press of the same frame, and the UI event. *)
Theorem drop_while_carrying s w f :
  carryingFrame s w ->
  drop f || exitedPointerlock s = true -> toggle_snap f = false ->
  let s' := fst (carrySystem s w f) in
  let w' := snd (carrySystem s w f) in
  let gravity := xorb (toggle_gravity f) (applyGravity (carryStateData s)) in
  carryState s' = NONE
  /\ activeObject (carryStateData s') = 0%nat
  /\ ah_visible (arrowHelper s') = false
  /\ gm_visible (gridMesh s') = false
  /\ applyGravity (carryStateData s') = gravity
  /\ effects w' =
       effects w
       ++ dropCalls (bodyId w (activeObject (carryStateData s))) gravity
       ++ [UpdateCarryUI NONE (carryStateData s')].
Proof.
  intros Hc Hd Ht. cbv zeta.
  rewrite (carrying_frame_effects s w f Hc), (carrying_frame_state s w f Hc).
  rewrite carryingBranch_eq. cbv zeta. rewrite Ht, Hd. cbn [fst snd].
  rewrite endFrame_carryState, endFrame_data, endFrame_gridMesh,
    endFrame_arrowHelper, dropObject_effects.
  rewrite <- app_assoc.
  destruct (toggle_gravity f); cbn; auto 12.
Qed.

(** X4.  When drop and toggle_snap are both pressed in a frame of the
    carrying branch, the object is dropped first and the snap block still
    runs: the frame ends in SNAPPING with no active object and the grid
    shown, after the drop's options update for the body of the object
    that was carried. *)
Theorem drop_and_snap_same_frame s w f :
  carryingFrame s w ->
  drop f || exitedPointerlock s = true -> toggle_snap f = true ->
  let s' := fst (carrySystem s w f) in
  let w' := snd (carrySystem s w f) in
  let gravity := xorb (toggle_gravity f) (applyGravity (carryStateData s)) in
  carryState s' = SNAPPING
  /\ activeObject (carryStateData s') = 0%nat
  /\ gm_visible (gridMesh s') = true
  /\ ah_visible (arrowHelper s') = false
  /\ effects w' =
       effects w
       ++ dropCalls (bodyId w (activeObject (carryStateData s))) gravity
       ++ [UpdateCarryUI SNAPPING (carryStateData s')].
Proof.
  intros Hc Hd Ht. cbv zeta.
  rewrite (carrying_frame_effects s w f Hc), (carrying_frame_state s w f Hc).
  rewrite carryingBranch_eq. cbv zeta. rewrite Ht, Hd. cbn [fst snd].
  rewrite endFrame_carryState, endFrame_data, endFrame_gridMesh,
    endFrame_arrowHelper, dropObject_effects.
  rewrite <- app_assoc.
  destruct (toggle_gravity f); cbn; auto 12.
Qed.

(** ** Frames in which the solver branch runs *)

(** The world the solver is handed: the colour is set and the active
    object may have been added to the selection. *)
Lemma snappingBranch_eq s w f :
  snappingBranch s w f =
  handleSnapping s
    (if Rlt_dec (nudgeOffset (carryStateData s)) 0 then
       addEntityToSelection (setHex 16777215 w) (activeObject (carryStateData s))
     else setHex 16777215 w) f.
Proof. reflexivity. Qed.

Lemma snapping_frame_trace s w f :
  carryState s = SNAPPING -> watchdogFires s w = false ->
  exists w0,
    eid2obj w0 = eid2obj w /\ effects w0 = effects w
    /\ bodyId w0 = bodyId w
    /\ fst (carrySystem s w f) = endFrame (fst (fst (handleSnapping s w0 f)))
    /\ eid2obj (snd (carrySystem s w f)) =
       eid2obj (snd (fst (handleSnapping s w0 f)))
    /\ effects (snd (carrySystem s w f)) =
       effects (snd (fst (handleSnapping s w0 f)))
       ++ uiCall (uiNeedsUpdate (fst (fst (handleSnapping s w0 f))))
            (fst (carrySystem s w f)).
Proof.
  intros Hs Hw.
  eexists (if Rlt_dec (nudgeOffset (carryStateData s)) 0 then
             addEntityToSelection (setHex 16777215 (set_selection ∅ w))
               (activeObject (carryStateData s))
           else setHex 16777215 (set_selection ∅ w)).
  split_and!; try (now destruct (Rlt_dec _ _)).
  - now rewrite carrySystem_state, (dispatch_snapping s w f Hs Hw).
  - now rewrite carrySystem_eid2obj, (dispatch_snapping s w f Hs Hw).
  - rewrite carrySystem_effects. cbv zeta.
    now rewrite (dispatch_snapping s w f Hs Hw).
Qed.

Lemma handleSnapping_toggle s w f :
  toggle_snap f = true ->
  handleSnapping s w f =
  (set_uiNeedsUpdate true
     (upd_grid (grid_visible false) (set_carryState CARRYING s)), w, None).
Proof. intros Ht. unfold handleSnapping. now rewrite Ht. Qed.

Lemma handleSnapping_drop s w f :
  toggle_snap f = false -> drop f || exitedPointerlock s = true ->
  handleSnapping s w f = (dropObject s w false, None).
Proof. intros Ht Hd. unfold handleSnapping. now rewrite Ht, Hd. Qed.

Lemma handleSnapping_miss s w f :
  toggle_snap f = false -> drop f = false -> exitedPointerlock s = false ->
  raycast f = None ->
  handleSnapping s w f = (faceInput f (rotateInput f s), w, None).
Proof.
  intros Ht Hd He Hr. unfold handleSnapping. now rewrite Ht, Hd, He, Hr.
Qed.

(** X5.  A toggle_snap press in a frame of the solver branch goes back to
    CARRYING whatever else is pressed, drop included: the grid is hidden,
    the state record and every scene object are as before, and the only
    call that leaves the program is the UI event. *)
Theorem cancel_snapping s w f :
  carryState s = SNAPPING -> watchdogFires s w = false ->
  toggle_snap f = true ->
  let s' := fst (carrySystem s w f) in
  let w' := snd (carrySystem s w f) in
  carryState s' = CARRYING
  /\ carryStateData s' = carryStateData s
  /\ gm_visible (gridMesh s') = false
  /\ eid2obj w' = eid2obj w
  /\ effects w' = effects w ++ [UpdateCarryUI CARRYING (carryStateData s)].
Proof.
  intros Hs Hw Ht. cbv zeta.
  destruct (snapping_frame_trace s w f Hs Hw)
    as (w0 & Ho & He & _ & -> & -> & ->).
  rewrite (handleSnapping_toggle s w0 f Ht). cbn [fst snd].
  rewrite endFrame_carryState, endFrame_data, endFrame_gridMesh, Ho, He.
  cbn. auto.
Qed.

(** X6.  A drop press, or a pointer lock lost since the last frame, in a
    frame of the solver branch without a toggle_snap press drops the
    object where it is: the options update is the kinematic one without
    gravity whatever the gravity flag says, the state is NONE with no
    active object and both visual aids hidden, and no scene object is
    moved in that frame. *)
Theorem drop_while_snapping s w f :
  carryState s = SNAPPING -> watchdogFires s w = false ->
  toggle_snap f = false -> drop f || exitedPointerlock s = true ->
  let s' := fst (carrySystem s w f) in
  let w' := snd (carrySystem s w f) in
  carryState s' = NONE
  /\ activeObject (carryStateData s') = 0%nat
  /\ ah_visible (arrowHelper s') = false
  /\ gm_visible (gridMesh s') = false
  /\ eid2obj w' = eid2obj w
  /\ effects w' =
       effects w
       ++ dropCalls (bodyId w (activeObject (carryStateData s))) false
       ++ [UpdateCarryUI NONE (carryStateData s')].
Proof.
  intros Hs Hw Ht Hd. cbv zeta.
  destruct (snapping_frame_trace s w f Hs Hw)
    as (w0 & Ho & He & Hb & -> & -> & ->).
  rewrite (handleSnapping_drop s w0 f Ht Hd). cbn [fst snd].
  rewrite endFrame_carryState, endFrame_data, endFrame_gridMesh,
    endFrame_arrowHelper, dropObject_eid2obj, dropObject_effects, Ho, He, Hb.
  rewrite <- app_assoc. cbn. auto 10.
Qed.

(** X7.  A frame of the solver in which the ray hits nothing applies the
    rotation and face inputs and nothing else: the nudge and scale inputs
    are not read, the nudge offset, the stored dot product, the arrow and
    the grid are as before, and no scene object is touched. *)
Theorem miss_frame_is_inert s w f :
  solverFrame s w f -> raycast f = None ->
  let s' := fst (carrySystem s w f) in
  let w' := snd (carrySystem s w f) in
  carryState s' = SNAPPING
  /\ nudgeOffset (carryStateData s') = nudgeOffset (carryStateData s)
  /\ prevDot s' = prevDot s
  /\ arrowHelper s' = arrowHelper s
  /\ gridMesh s' = gridMesh s
  /\ eid2obj w' = eid2obj w
  /\ rotationOffset (carryStateData s') =
     (if rotate_ccw f then rotationOffset (carryStateData s) - ROTATION_SPEED * delta f
      else if rotate_cw f then rotationOffset (carryStateData s) + ROTATION_SPEED * delta f
      else rotationOffset (carryStateData s))
  /\ snapFace (carryStateData s') =
     (if change_snap_face f then Z.rem (snapFace (carryStateData s) + 1) 6
      else snapFace (carryStateData s)).
Proof.
  intros (Hs & Hw & Ht & Hd & He) Hr. cbv zeta.
  destruct (snapping_frame_trace s w f Hs Hw)
    as (w0 & Ho & _ & _ & -> & -> & _).
  rewrite (handleSnapping_miss s w0 f Ht Hd He Hr). cbn [fst snd].
  rewrite endFrame_carryState, endFrame_data, endFrame_prevDot,
    endFrame_arrowHelper, endFrame_gridMesh.
  autorewrite with statements.
  now rewrite Hs, Ho.
Qed.

(** ** Frames in which the solver places the object *)

Lemma hit_frame_state s w f h :
  snappingHit s w f h ->
  exists u, fst (carrySystem s w f) =
            endFrame (gridUniforms (hit_point h) u (solverState f h s)).
Proof.
  intros Hh. destruct (frame_snapping s w f h Hh) as (u & Hu & _). eauto.
Qed.

Lemma hit_frame_locals s w f h :
  snappingHit s w f h ->
  let S := solverState f h s in
  let sc := clampedScale f (eid2obj w (activeObject (carryStateData s))) in
  let dot := Vec.dot (worldNormal h) Y_AXIS in
  let face := effectiveSnapFace (snapFace (carryStateData S)) dot in
  let sizeOnAxis := component (size (carryStateData S)) (AXIS_NAME_FOR_FACE face) in
  let scaleOnAxis := component sc (AXIS_NAME_FOR_FACE face) in
  solverLocals s w f =
  Some (mkLocals dot face sizeOnAxis scaleOnAxis
          (offsetDistance sizeOnAxis scaleOnAxis (nudgeOffset (carryStateData S)))).
Proof.
  intros Hh. now destruct (frame_snapping s w f h Hh) as (u & _ & Hl & _).
Qed.

Lemma attachHelpers_arrow_parent s :
  ah_parent (arrowHelper (attachHelpers s)) = true.
Proof.
  unfold attachHelpers. now destruct (ah_parent (arrowHelper s)) eqn:E.
Qed.

Lemma solverState_arrowHelper f h s :
  let S := solverState f h s in
  arrowHelper S =
  mkArrow (if Req_dec_T (nudgeOffset (carryStateData S)) 0 then false else true)
          true (hit_point h) (worldNormal h) (nudgeOffset (carryStateData S)).
Proof.
  cbv zeta. unfold solverState at 1.
  set (X := resetOnDiscontinuity _ _).
  assert (Hn : nudgeOffset (carryStateData (solverState f h s)) =
               nudgeOffset (carryStateData X))
    by (unfold solverState; fold X; now rewrite aimArrow_data).
  assert (Hp : ah_parent (arrowHelper X) = true).
  { unfold X. rewrite resetOnDiscontinuity_arrowHelper, anchorGrid_arrowHelper.
    apply attachHelpers_arrow_parent. }
  rewrite Hn. clearbody X. unfold aimArrow. cbn.
  unfold arrow_visible, arrow_pose. cbn. now rewrite Hp.
Qed.

(** X8.  After a frame in which the solver places the object, the arrow
    is attached to the scene, sits at the hit point, points along the
    surface normal and has the nudge offset as its length; it is visible
    exactly when the nudge offset is not 0. *)
Theorem arrow_shows_nudge s w f h :
  snappingHit s w f h ->
  let s' := fst (carrySystem s w f) in
  let a := arrowHelper s' in
  ah_parent a = true
  /\ ah_position a = hit_point h
  /\ ah_direction a = worldNormal h
  /\ ah_length a = nudgeOffset (carryStateData s')
  /\ (ah_visible a = true <-> nudgeOffset (carryStateData s') <> 0).
Proof.
  intros Hh. cbv zeta.
  destruct (hit_frame_state s w f h Hh) as (u & ->).
  rewrite endFrame_arrowHelper, endFrame_data, gridUniforms_arrowHelper,
    gridUniforms_data, solverState_arrowHelper. cbn.
  split_and!; try reflexivity.
  destruct (Req_dec_T _ 0) as [e|n]; split; intros Hv;
    [discriminate | contradiction | exact n | reflexivity].
Qed.

(** X9.  The scale clamp: after a frame in which the solver places the
    object, no component of the scale of the active object is below 0.01,
    whatever the scale input was. *)
Theorem scale_never_below_minimum s w f h :
  snappingHit s w f h ->
  let sc := scale (eid2obj (snd (carrySystem s w f))
                           (activeObject (carryStateData s))) in
  1 / 100 <= vx sc /\ 1 / 100 <= vy sc /\ 1 / 100 <= vz sc.
Proof.
  intros Hh. cbv zeta. rewrite (frame_solver_scale s w f h Hh).
  unfold clampedScale, Vec.max, MIN_SCALE. cbn [vx vy vz].
  split_and!; apply Rmax_r.
Qed.

Lemma effectiveSnapFace_concrete pinned dot :
  (-1 <= pinned <= 5)%Z -> (0 <= effectiveSnapFace pinned dot <= 5)%Z.
Proof.
  intros Hp. unfold effectiveSnapFace.
  destruct (Z.eqb_spec pinned (-1)); cbn [negb]; [|lia].
  unfold DEFAULT_FLOOR_FACE, DEFAULT_CEIL_FACE, DEFAULT_WALL_FACE,
    SnapFace.BOTTOM, SnapFace.TOP, SnapFace.BACK.
  destruct (Rle_dec _ _); [destruct (Rlt_dec _ _)|]; lia.
Qed.

(** X10.  From a reachable state, the face the solver places the object
    with is always one of the six concrete faces 0 .. 5, never AUTO, so
    the three tables keyed by face are only read at keys they define. *)
Theorem effective_face_is_concrete s w f h :
  reachable s -> snappingHit s w f h ->
  exists loc,
    solverLocals s w f = Some loc /\ (0 <= loc_snapFace loc <= 5)%Z.
Proof.
  intros Hr Hh. rewrite (hit_frame_locals s w f h Hh). cbv zeta.
  eexists. split; [reflexivity|]. cbn [loc_snapFace].
  apply effectiveSnapFace_concrete.
  rewrite solverState_snapFace.
  pose proof (reachable_face_in_range s Hr) as Hi. unfold face_in_range in Hi.
  destruct (change_snap_face f); [|exact Hi].
  pose proof (cycle_in_range _ Hi). lia.
Qed.

(** X11.  For a positive scale on the measured axis, which the clamp
    guarantees, the standoff distance grows strictly with the nudge
    offset, across the change of formula at 0 as well; the two formulas
    give the same distance at nudge offset 0. *)
Theorem offsetDistance_increasing sizeOnAxis scaleOnAxis n1 n2 :
  0 < scaleOnAxis -> n1 < n2 ->
  offsetDistance sizeOnAxis scaleOnAxis n1 < offsetDistance sizeOnAxis scaleOnAxis n2
  /\ offsetDistance sizeOnAxis scaleOnAxis 0 = (sizeOnAxis / 2 + 0) * scaleOnAxis.
Proof.
  intros Hs Hn. unfold offsetDistance. split.
  - destruct (Rlt_dec n1 0), (Rlt_dec n2 0); nra.
  - destruct (Rlt_dec 0 0); lra.
Qed.

(** ** Frames in which the idle branch runs *)

Lemma idle_frame_state s w f :
  carryState (watchdog s w) = NONE \/ carryState (watchdog s w) = MENU ->
  fst (carrySystem s w f) =
  endFrame (fst (idleBranch (watchdog s w) (set_selection ∅ w) f)).
Proof. intros Hi. now rewrite carrySystem_state, (dispatch_idle s w f Hi). Qed.

Lemma idle_frame_world s w f :
  carryState (watchdog s w) = NONE \/ carryState (watchdog s w) = MENU ->
  let b := idleBranch (watchdog s w) (set_selection ∅ w) f in
  snd (carrySystem s w f) =
  if uiNeedsUpdate (fst b) then updateUI (fst b) (snd b) else snd b.
Proof.
  intros Hi. rewrite carrySystem_world. cbv zeta.
  now rewrite (dispatch_idle s w f Hi).
Qed.

Lemma idle_frame_effects s w f :
  carryState (watchdog s w) = NONE \/ carryState (watchdog s w) = MENU ->
  let b := idleBranch (watchdog s w) (set_selection ∅ w) f in
  effects (snd (carrySystem s w f)) =
  effects (snd b) ++ uiCall (uiNeedsUpdate (fst b)) (fst (carrySystem s w f)).
Proof.
  intros Hi. rewrite carrySystem_effects. cbv zeta.
  now rewrite (dispatch_idle s w f Hi).
Qed.

Lemma flush_ecs (c : bool) s (w : World) :
  ecs (if c then updateUI s w else w) = ecs w.
Proof. now destruct c. Qed.

Lemma idleBranch_fast_state s w f :
  truthy (heldRightRemote f) = true -> toggle_snap f = true ->
  fst (idleBranch s w f) =
  enterSnapping (fst (carryObject (eidOf (heldRightRemote f)) s (setHex 575473 w))).
Proof.
  intros Hh Ht. unfold idleBranch. rewrite Hh, Ht. cbn [andb].
  cbv zeta. now destruct (carryObject _ _ _).
Qed.

Lemma idleBranch_fast_world s w f :
  truthy (heldRightRemote f) = true -> toggle_snap f = true ->
  snd (idleBranch s w f) =
  snd (carryObject (eidOf (heldRightRemote f)) s (setHex 575473 w)).
Proof.
  intros Hh Ht. unfold idleBranch. rewrite Hh, Ht. cbn [andb].
  cbv zeta. now destruct (carryObject _ _ _).
Qed.

(** X12.  In a frame of the idle branch, a toggle_snap press while some
    entity is held by the right remote takes that entity straight into
    SNAPPING, whatever is hovered, pressed or shown in the menu: offsets
    at their defaults, face AUTO, gravity flag set, bounding box cached
    from the entity's object, grid shown, the remote and hand markers the
    pickup removes gone, and the calls issued are the pointer-lock
    request, the kinematic options update for the entity's body and the
    UI event. *)
Theorem fast_path_into_snapping s w f :
  carryState (watchdog s w) = NONE \/ carryState (watchdog s w) = MENU ->
  truthy (heldRightRemote f) = true -> toggle_snap f = true ->
  let held := eidOf (heldRightRemote f) in
  let s' := fst (carrySystem s w f) in
  let w' := snd (carrySystem s w f) in
  carryState s' = SNAPPING
  /\ activeObject (carryStateData s') = held
  /\ rotationOffset (carryStateData s') = 0
  /\ nudgeOffset (carryStateData s') = NUDGE_START_OFFSET
  /\ snapFace (carryStateData s') = SnapFace.AUTO
  /\ applyGravity (carryStateData s') = true
  /\ center (carryStateData s') = boundsCenter (eid2obj w held)
  /\ size (carryStateData s') = boundsSize (eid2obj w held)
  /\ gm_visible (gridMesh s') = true
  /\ hasComponent (ecs w') HeldRemoteRight held = false
  /\ effects w' =
       effects w ++ carryCalls (bodyId w held)
       ++ [UpdateCarryUI SNAPPING (carryStateData s')].
Proof.
  intros Hi Hh Ht. cbv zeta.
  rewrite (idle_frame_effects s w f Hi), (idle_frame_world s w f Hi),
    (idle_frame_state s w f Hi). cbv zeta.
  rewrite !(idleBranch_fast_state _ _ f Hh Ht), !(idleBranch_fast_world _ _ f Hh Ht).
  rewrite endFrame_carryState, endFrame_data, endFrame_gridMesh,
    carryObject_effects.
  set (held := eidOf (heldRightRemote f)).
  set (s0 := watchdog s w). set (w0 := setHex 575473 (set_selection ∅ w)).
  destruct (carryObject_strips held s0 w0) as (_ & _ & _ & Hm).
  cbv zeta in Hm. rewrite flush_ecs, Hm. rewrite <- app_assoc.
  assert (Hb : center (carryStateData (fst (carryObject held s0 w0))) =
               boundsCenter (eid2obj w held)
               /\ size (carryStateData (fst (carryObject held s0 w0))) =
                  boundsSize (eid2obj w held)) by (split; reflexivity).
  destruct Hb as [Hc Hz].
  destruct (carryObject_state held s0 w0) as (_ & Ha & Hg & _).
  cbv zeta in Ha, Hg.
  assert (He : effects w0 = effects w) by reflexivity.
  assert (Hy : bodyId w0 = bodyId w) by reflexivity.
  clearbody s0 w0.
  set (s1 := fst (carryObject held s0 w0)) in *. clearbody s1.
  cbn. rewrite He, Hy. split_and!; auto.
Qed.

(** X13.  While the menu is open on an entity that still exists, frames
    change nothing but the highlight: carry and menu presses on a hovered
    entity are not acted on, the state and its record stay as they are,
    the selection holds exactly the meshes of the menu's entity, and
    nothing but a pending UI event leaves the program. *)
Theorem menu_is_modal s w f :
  carryState s = MENU -> watchdogFires s w = false ->
  activeObject (carryStateData s) <> 0%nat ->
  truthy (heldRightRemote f) && toggle_snap f = false ->
  let s' := fst (carrySystem s w f) in
  let w' := snd (carrySystem s w f) in
  carryState s' = MENU
  /\ carryStateData s' = carryStateData s
  /\ selection w' = list_to_set (meshes (eid2obj w (activeObject (carryStateData s))))
  /\ eid2obj w' = eid2obj w
  /\ effects w' = effects w ++ uiCall (uiNeedsUpdate s) s'.
Proof.
  intros Hs Hw Ha Hf. cbv zeta.
  assert (Hq : watchdog s w = s) by (now apply watchdog_quiet).
  assert (Hi : carryState (watchdog s w) = NONE \/ carryState (watchdog s w) = MENU)
    by (right; now rewrite Hq).
  rewrite (idle_frame_effects s w f Hi), (idle_frame_world s w f Hi),
    (idle_frame_state s w f Hi). cbv zeta. rewrite Hq.
  unfold idleBranch. cbv zeta. rewrite Hf.
  destruct (Nat.eqb_spec (activeObject (carryStateData s)) 0) as [e|_];
    [contradiction|]. cbn [negb fst snd].
  rewrite endFrame_carryState, endFrame_data, flush_selection, flush_eid2obj.
  unfold addEntityToSelection.
  cbn [selection set_selection setHex eid2obj effects].
  split_and!; auto.
  apply (left_id_L ∅ (∪)).
Qed.

Lemma carryObject_selection eid s w :
  selection (snd (carryObject eid s w)) = selection w.
Proof. reflexivity. Qed.

Lemma carryObject_eid2obj eid s w :
  eid2obj (snd (carryObject eid s w)) = eid2obj w.
Proof. reflexivity. Qed.

Lemma carryObject_bounds eid s w :
  center (carryStateData (fst (carryObject eid s w))) = boundsCenter (eid2obj w eid)
  /\ size (carryStateData (fst (carryObject eid s w))) = boundsSize (eid2obj w eid).
Proof. split; reflexivity. Qed.

Lemma carryObject_offsets eid s w :
  rotationOffset (carryStateData (fst (carryObject eid s w))) =
    rotationOffset (carryStateData s)
  /\ nudgeOffset (carryStateData (fst (carryObject eid s w))) =
    nudgeOffset (carryStateData s)
  /\ uiNeedsUpdate (fst (carryObject eid s w)) = true.
Proof. split_and!; reflexivity. Qed.

Lemma idleBranch_hover_world s w f :
  truthy (heldRightRemote f) && toggle_snap f = false ->
  activeObject (carryStateData s) = 0%nat ->
  truthy (hovered f) = true ->
  let w1 := addEntityToSelection (setHex 575473 w) (eidOf (hovered f)) in
  idleBranch s w f =
  if carry f then carryObject (eidOf (hovered f)) s w1
  else if menu f then
    (showObjectMenu (eidOf (hovered f)) (fst (mousePos f)) (snd (mousePos f)) s,
     emit ExitPointerLock w1)
  else (s, w1).
Proof.
  intros Hf Ha Hh. unfold idleBranch. cbv zeta.
  now rewrite Hf, Ha, Hh.
Qed.

(** X14.  In a frame of the idle branch with nothing active and no fast
    path, a carry press on a hovered entity picks it up, also when menu is
    pressed in the same frame: the state is CARRYING that entity with the
    gravity flag set and the bounding box of its object cached; the
    rotation and nudge offsets are not touched by the pickup; the entity
    is highlighted in that frame; and the calls issued are the
    pointer-lock request, the kinematic options update for its body and
    the UI event. *)
Theorem pick_up_hovered s w f :
  idleFrame s w ->
  truthy (heldRightRemote f) && toggle_snap f = false ->
  truthy (hovered f) = true -> carry f = true ->
  let e := eidOf (hovered f) in
  let s' := fst (carrySystem s w f) in
  let w' := snd (carrySystem s w f) in
  carryState s' = CARRYING
  /\ activeObject (carryStateData s') = e
  /\ applyGravity (carryStateData s') = true
  /\ center (carryStateData s') = boundsCenter (eid2obj w e)
  /\ size (carryStateData s') = boundsSize (eid2obj w e)
  /\ rotationOffset (carryStateData s') = rotationOffset (carryStateData s)
  /\ nudgeOffset (carryStateData s') = nudgeOffset (carryStateData s)
  /\ selection w' = list_to_set (meshes (eid2obj w e))
  /\ effects w' =
       effects w ++ carryCalls (bodyId w e)
       ++ [UpdateCarryUI CARRYING (carryStateData s')].
Proof.
  intros [Hi Ha] Hf Hh Hc. cbv zeta.
  rewrite (idle_frame_effects s w f Hi), (idle_frame_world s w f Hi),
    (idle_frame_state s w f Hi). cbv zeta.
  rewrite (idleBranch_hover_world _ _ f Hf Ha Hh). cbv zeta. rewrite Hc.
  set (e := eidOf (hovered f)).
  set (w1 := addEntityToSelection _ e).
  assert (Hs1 : selection w1 = list_to_set (meshes (eid2obj w e)))
    by (unfold w1, addEntityToSelection; cbn [selection set_selection setHex eid2obj];
        apply (left_id_L ∅ (∪))).
  assert (He1 : effects w1 = effects w) by reflexivity.
  assert (Ho1 : eid2obj w1 = eid2obj w) by reflexivity.
  assert (Hb1 : bodyId w1 = bodyId w) by reflexivity.
  clearbody w1.
  rewrite endFrame_carryState, endFrame_data, flush_selection,
    carryObject_selection, carryObject_effects, Hs1, He1, Hb1.
  destruct (carryObject_state e (watchdog s w) w1) as (E1 & E2 & E3 & _).
  destruct (carryObject_bounds e (watchdog s w) w1) as (E4 & E5).
  destruct (carryObject_offsets e (watchdog s w) w1) as (E6 & E7 & E8).
  cbv zeta in *.
  rewrite E1, E2, E3, E4, E5, E6, E7, E8, Ho1, <- app_assoc.
  unfold watchdog. destruct (watchdogFires s w); split_and!; reflexivity.
Qed.

(** X15.  In a frame of the idle branch with nothing active and no fast
    path, a menu press on a hovered entity without a carry press opens
    the menu on it: the state is MENU with that entity active and the
    menu position taken from the mouse position, the pointer lock is
    released, the entity is highlighted, and no physics call is made.
    With neither press the frame only highlights the hovered entity. *)
Theorem open_menu_on_hovered s w f :
  idleFrame s w ->
  truthy (heldRightRemote f) && toggle_snap f = false ->
  truthy (hovered f) = true -> carry f = false ->
  let e := eidOf (hovered f) in
  let s' := fst (carrySystem s w f) in
  let w' := snd (carrySystem s w f) in
  selection w' = list_to_set (meshes (eid2obj w e))
  /\ (menu f = true ->
      carryState s' = MENU
      /\ activeObject (carryStateData s') = e
      /\ menuPosX (carryStateData s') = fst (mousePos f)
      /\ menuPosY (carryStateData s') = snd (mousePos f)
      /\ effects w' =
           effects w ++ [ExitPointerLock; UpdateCarryUI MENU (carryStateData s')])
  /\ (menu f = false ->
      carryState s' = carryState (watchdog s w)
      /\ activeObject (carryStateData s') = 0%nat
      /\ effects w' = effects w ++ uiCall (uiNeedsUpdate (watchdog s w)) s').
Proof.
  intros [Hi Ha] Hf Hh Hc. cbv zeta.
  rewrite (idle_frame_effects s w f Hi), (idle_frame_world s w f Hi),
    (idle_frame_state s w f Hi). cbv zeta.
  rewrite (idleBranch_hover_world _ _ f Hf Ha Hh). cbv zeta. rewrite Hc.
  set (e := eidOf (hovered f)).
  set (w1 := addEntityToSelection _ e).
  assert (Hs1 : selection w1 = list_to_set (meshes (eid2obj w e)))
    by (unfold w1, addEntityToSelection; cbn [selection set_selection setHex eid2obj];
        apply (left_id_L ∅ (∪))).
  assert (He1 : effects w1 = effects w) by reflexivity.
  clearbody w1. set (s0 := watchdog s w) in *. clearbody s0.
  destruct (menu f); cbn [fst snd];
    rewrite flush_selection, endFrame_carryState, endFrame_data.
  - split; [exact Hs1|]. split; [|discriminate]. intros _.
    cbn. rewrite He1, <- app_assoc. auto.
  - split; [exact Hs1|]. split; [discriminate|]. intros _.
    rewrite He1. split_and!; auto.
Qed.

(** ** What a frame never does *)

Lemma idleBranch_quiet_world s w f :
  startsInteraction f = false ->
  eid2obj (snd (idleBranch s w f)) = eid2obj w
  /\ effects (snd (idleBranch s w f)) = effects w
  /\ ecs (snd (idleBranch s w f)) = ecs w
  /\ floatyFlags (snd (idleBranch s w f)) = floatyFlags w
  /\ bodyId (snd (idleBranch s w f)) = bodyId w.
Proof.
  unfold startsInteraction, idleBranch. cbv zeta.
  destruct (truthy (heldRightRemote f)), (toggle_snap f),
    (Nat.eqb (activeObject (carryStateData s)) 0), (truthy (hovered f)),
    (carry f), (menu f); cbn [andb orb negb]; intros Hq; try discriminate;
    split_and!; reflexivity.
Qed.

(** X16.  When the check at the top of the frame fires and the idle branch
    starts nothing, the lost object is let go without any physics call:
    the only call of the frame is the UI event for the cleared state, the
    component store, the flags of floaty objects and every scene object
    are untouched, so the body keeps the options the pickup gave it. *)
Theorem watchdog_reset_makes_no_physics_call s w f :
  watchdogFires s w = true -> startsInteraction f = false ->
  let s' := fst (carrySystem s w f) in
  let w' := snd (carrySystem s w f) in
  effects w' = effects w ++ [UpdateCarryUI NONE (carryStateData s')]
  /\ bodyUpdates (bodyId w (activeObject (carryStateData s))) (effects w') =
     bodyUpdates (bodyId w (activeObject (carryStateData s))) (effects w)
  /\ ecs w' = ecs w
  /\ floatyFlags w' = floatyFlags w
  /\ eid2obj w' = eid2obj w.
Proof.
  intros Hw Hq. cbv zeta.
  destruct (watchdog_fired s w Hw) as (Hs & _).
  assert (Hi : carryState (watchdog s w) = NONE \/ carryState (watchdog s w) = MENU)
    by now left.
  assert (Hu : uiNeedsUpdate (watchdog s w) = true)
    by (unfold watchdog; now rewrite Hw).
  destruct (idleBranch_quiet_world (watchdog s w) (set_selection ∅ w) f Hq)
    as (Ho & He & Hc & Hfl & _).
  assert (Heff : effects (snd (carrySystem s w f)) =
                 effects w ++ [UpdateCarryUI NONE
                                 (carryStateData (fst (carrySystem s w f)))]).
  { rewrite (idle_frame_effects s w f Hi). cbv zeta.
    rewrite He, (idleBranch_quiet _ _ f Hq), Hu. unfold uiCall.
    rewrite (idle_frame_state s w f Hi), endFrame_carryState,
      (idleBranch_quiet _ _ f Hq), Hs. reflexivity. }
  split; [exact Heff|]. split.
  - rewrite Heff, bodyUpdates_app. cbn. apply app_nil_r.
  - rewrite (idle_frame_world s w f Hi). cbv zeta.
    rewrite (idleBranch_quiet _ _ f Hq), Hu. cbn [ecs floatyFlags eid2obj updateUI emit].
    auto.
Qed.

Lemma dropObject_world_other s w g e :
  e <> activeObject (carryStateData s) ->
  floatyFlags (snd (dropObject s w g)) e = floatyFlags w e.
Proof.
  intros Hne. unfold dropObject. cbv zeta.
  destruct unlockPointerOnDrop; cbn; destruct (hasComponent _ _ _); cbn;
    try reflexivity; now rewrite decide_False.
Qed.

Lemma dropObject_bodyId s w g : bodyId (snd (dropObject s w g)) = bodyId w.
Proof.
  unfold dropObject. cbv zeta.
  destruct unlockPointerOnDrop; cbn; destruct (hasComponent _ _ _); reflexivity.
Qed.

Lemma dropObject_ecs s w g : ecs (snd (dropObject s w g)) = ecs w.
Proof.
  unfold dropObject. cbv zeta.
  destruct unlockPointerOnDrop; cbn; destruct (hasComponent _ _ _); reflexivity.
Qed.

Lemma idleBranch_world s w f :
  eid2obj (snd (idleBranch s w f)) = eid2obj w
  /\ floatyFlags (snd (idleBranch s w f)) = floatyFlags w
  /\ bodyId (snd (idleBranch s w f)) = bodyId w.
Proof.
  destruct (truthy (heldRightRemote f) && toggle_snap f) eqn:Hf.
  - apply andb_prop in Hf as [Hh Ht].
    rewrite (idleBranch_fast_world s w f Hh Ht). split_and!; reflexivity.
  - unfold idleBranch. cbv zeta. rewrite Hf.
    destruct (Nat.eqb (activeObject (carryStateData s)) 0), (truthy (hovered f)),
      (carry f), (menu f); split_and!; reflexivity.
Qed.

(** The cases of [handleSnapping], for facts about the world it returns. *)
Lemma handleSnapping_world_cases s w f :
  snd (fst (handleSnapping s w f)) = w
  \/ snd (fst (handleSnapping s w f)) = snd (dropObject s w false)
  \/ exists obj,
       snd (fst (handleSnapping s w f)) =
       set_obj (activeObject (carryStateData s)) obj w.
Proof.
  destruct (toggle_snap f) eqn:Ht.
  { left. now rewrite (handleSnapping_toggle s w f Ht). }
  destruct (drop f || exitedPointerlock s) eqn:Hd.
  { right; left. now rewrite (handleSnapping_drop s w f Ht Hd). }
  apply orb_false_elim in Hd as [Hd He].
  destruct (raycast f) as [h|] eqn:Hr.
  - right; right.
    destruct (handleSnapping_hit s w f h Ht Hd He Hr) as (obj & Heq & _).
    exists obj. now rewrite Heq.
  - left. now rewrite (handleSnapping_miss s w f Ht Hd He Hr).
Qed.

Lemma dispatch_world_other s w f e :
  e <> activeObject (carryStateData s) ->
  let w' := snd (fst (dispatch s w f)) in
  eid2obj w' e = eid2obj w e
  /\ floatyFlags w' e = floatyFlags w e
  /\ bodyId w' = bodyId w.
Proof.
  intros Hne. cbv zeta. unfold dispatch.
  destruct (carryState s); cbn [fst snd];
    try (destruct (idleBranch_world s w f) as (-> & -> & ->); now auto).
  - rewrite carryingBranch_eq. cbv zeta. cbn [snd].
    destruct (drop f || exitedPointerlock s).
    + rewrite dropObject_eid2obj, dropObject_bodyId.
      rewrite dropObject_world_other by (cbn; destruct (toggle_gravity f); exact Hne).
      cbn. now rewrite decide_False.
    + cbn. now rewrite decide_False.
  - rewrite snappingBranch_eq.
    set (w0 := if Rlt_dec _ 0 then _ else _).
    assert (Ho : eid2obj w0 = eid2obj w) by (unfold w0; now destruct (Rlt_dec _ _)).
    assert (Hfl : floatyFlags w0 = floatyFlags w)
      by (unfold w0; now destruct (Rlt_dec _ _)).
    assert (Hb : bodyId w0 = bodyId w) by (unfold w0; now destruct (Rlt_dec _ _)).
    clearbody w0.
    destruct (handleSnapping_world_cases s w0 f) as [-> | [-> | (obj & ->)]].
    + now rewrite Ho, Hfl, Hb.
    + rewrite dropObject_eid2obj, dropObject_bodyId,
        dropObject_world_other, Ho, Hfl, Hb by exact Hne. auto.
    + cbn. rewrite decide_False, Ho, Hfl, Hb by exact Hne. auto.
Qed.

(** X17.  A frame moves no scene object but the one that is active when
    it starts, changes the floaty flags of no other entity, and never
    changes which body belongs to which entity. *)
Theorem frame_touches_only_the_active_object s w f e :
  e <> activeObject (carryStateData s) ->
  let w' := snd (carrySystem s w f) in
  eid2obj w' e = eid2obj w e
  /\ floatyFlags w' e = floatyFlags w e
  /\ bodyId w' = bodyId w.
Proof.
  intros Hne. cbv zeta. rewrite carrySystem_world. cbv zeta.
  set (r := dispatch _ _ f).
  assert (Hr : eid2obj (snd (fst r)) e = eid2obj w e
               /\ floatyFlags (snd (fst r)) e = floatyFlags w e
               /\ bodyId (snd (fst r)) = bodyId w).
  { unfold r, watchdog. destruct (watchdogFires s (set_selection ∅ w)).
    - unfold dispatch. cbn [carryState set_uiNeedsUpdate upd_grid upd_arrow
                               upd_data set_carryState fst snd].
      destruct (idleBranch_world
                  (set_uiNeedsUpdate true
                     (upd_grid (grid_visible false)
                        (upd_arrow (arrow_visible false)
                           (upd_data (set_activeObject 0%nat)
                              (set_carryState NONE s)))))
                  (set_selection ∅ w) f) as (-> & -> & ->).
      auto.
    - apply (dispatch_world_other s (set_selection ∅ w) f e Hne). }
  clearbody r. destruct (uiNeedsUpdate (fst (fst r))); exact Hr.
Qed.

(** ** The UI event *)

Lemma dropCalls_not_ui b g : Forall (fun c => isUIEvent c = false) (dropCalls b g).
Proof. unfold dropCalls. destruct unlockPointerOnDrop; repeat constructor. Qed.

Lemma carryCalls_not_ui b : Forall (fun c => isUIEvent c = false) (carryCalls b).
Proof. repeat constructor. Qed.

Lemma idleBranch_calls s w f :
  exists l, effects (snd (idleBranch s w f)) = effects w ++ l
            /\ Forall (fun c => isUIEvent c = false) l.
Proof.
  destruct (truthy (heldRightRemote f) && toggle_snap f) eqn:Hf.
  - apply andb_prop in Hf as [Hh Ht].
    rewrite (idleBranch_fast_world s w f Hh Ht), carryObject_effects.
    eexists. split; [reflexivity | apply carryCalls_not_ui].
  - unfold idleBranch. cbv zeta. rewrite Hf.
    destruct (Nat.eqb (activeObject (carryStateData s)) 0), (truthy (hovered f)),
      (carry f), (menu f); cbn [negb];
      rewrite ?carryObject_effects;
      first [ exists []; split; [now rewrite app_nil_r | constructor]
            | eexists; split; [reflexivity | apply carryCalls_not_ui]
            | exists [ExitPointerLock]; split; [reflexivity | repeat constructor] ].
Qed.

Lemma dispatch_calls s w f :
  exists l, effects (snd (fst (dispatch s w f))) = effects w ++ l
            /\ Forall (fun c => isUIEvent c = false) l.
Proof.
  unfold dispatch. destruct (carryState s); cbn [fst snd];
    try apply idleBranch_calls.
  - rewrite carryingBranch_eq. cbv zeta. cbn [snd].
    destruct (drop f || exitedPointerlock s).
    + rewrite dropObject_effects. eexists. split; [reflexivity|].
      apply dropCalls_not_ui.
    + exists []. split; [now rewrite app_nil_r | constructor].
  - rewrite snappingBranch_eq.
    set (w0 := if Rlt_dec _ 0 then _ else _).
    assert (He : effects w0 = effects w) by (unfold w0; now destruct (Rlt_dec _ _)).
    clearbody w0.
    destruct (handleSnapping_world_cases s w0 f) as [-> | [-> | (obj & ->)]].
    + exists []. split; [now rewrite app_nil_r, He | constructor].
    + rewrite dropObject_effects, He. eexists. split; [reflexivity|].
      apply dropCalls_not_ui.
    + exists []. split; [now rewrite app_nil_r, <- He | constructor].
Qed.

Ltac dirty :=
  intros;
  unfold rotateInput, faceInput, nudgeInput, attachHelpers, anchorGrid,
    resetOnDiscontinuity, aimArrow, gridUniforms, changeSnapFace;
  repeat case_match; cbn; auto.

Lemma solverState_dirty f h s :
  uiNeedsUpdate s = true -> uiNeedsUpdate (solverState f h s) = true.
Proof.
  intros Hu. unfold solverState.
  assert (H1 : uiNeedsUpdate (rotateInput f s) = true) by (revert Hu; dirty).
  assert (H2 : uiNeedsUpdate (faceInput f (rotateInput f s)) = true)
    by (revert H1; generalize (rotateInput f s); dirty).
  assert (H3 : uiNeedsUpdate (nudgeInput f (faceInput f (rotateInput f s))) = true)
    by (revert H2; generalize (faceInput f (rotateInput f s)); dirty).
  revert H3. generalize (nudgeInput f (faceInput f (rotateInput f s))).
  intros s3 H3.
  assert (H4 : uiNeedsUpdate (attachHelpers s3) = true) by (revert H3; dirty).
  revert H4. generalize (attachHelpers s3). intros s4 H4.
  assert (H5 : uiNeedsUpdate (anchorGrid h s4) = true) by (revert H4; dirty).
  revert H5. generalize (anchorGrid h s4). intros s5 H5.
  assert (H6 : forall d, uiNeedsUpdate (resetOnDiscontinuity d s5) = true)
    by (revert H5; dirty).
  specialize (H6 (Vec.dot (worldNormal h) Y_AXIS)).
  revert H6. generalize (resetOnDiscontinuity (Vec.dot (worldNormal h) Y_AXIS) s5).
  dirty.
Qed.

Lemma handleSnapping_dirty s w f :
  uiNeedsUpdate s = true -> uiNeedsUpdate (fst (fst (handleSnapping s w f))) = true.
Proof.
  intros Hu.
  destruct (toggle_snap f) eqn:Ht.
  { now rewrite (handleSnapping_toggle s w f Ht). }
  destruct (drop f || exitedPointerlock s) eqn:Hd.
  { now rewrite (handleSnapping_drop s w f Ht Hd). }
  apply orb_false_elim in Hd as [Hd He].
  destruct (raycast f) as [h|] eqn:Hr.
  - destruct (handleSnapping_hit s w f h Ht Hd He Hr) as (obj & Heq & _).
    rewrite Heq. cbn [fst].
    pose proof (solverState_dirty f h s Hu) as Hs. revert Hs.
    generalize (solverState f h s). dirty.
  - rewrite (handleSnapping_miss s w f Ht Hd He Hr). cbn [fst].
    revert Hu. dirty.
Qed.

Lemma dispatch_dirty s w f :
  uiNeedsUpdate s = true -> uiNeedsUpdate (fst (fst (dispatch s w f))) = true.
Proof.
  intros Hu. unfold dispatch. destruct (carryState s); cbn [fst].
  1,2: destruct (truthy (heldRightRemote f) && toggle_snap f) eqn:Hf;
    [ apply andb_prop in Hf as [Hh Ht];
      now rewrite (idleBranch_fast_state s w f Hh Ht)
    | unfold idleBranch; cbv zeta; rewrite Hf;
      destruct (Nat.eqb (activeObject (carryStateData s)) 0),
        (truthy (hovered f)), (carry f), (menu f); cbn; auto ].
  - rewrite carryingBranch_eq. cbv zeta. cbn [fst].
    destruct (toggle_gravity f), (drop f || exitedPointerlock s), (toggle_snap f);
      cbn; auto.
  - rewrite snappingBranch_eq. now apply handleSnapping_dirty.
Qed.

(** X18.  Every frame ends with the dirty flag and the pointer-lock flag
    cleared.  The calls of a frame are appended to the log; at most one of
    them is a UI event, it is the last call of the frame and carries the
    state and record the frame ends with; and an update that was pending
    when the frame started is always sent. *)
Theorem ui_event_once_and_last s w f :
  let s' := fst (carrySystem s w f) in
  let w' := snd (carrySystem s w f) in
  uiNeedsUpdate s' = false
  /\ exitedPointerlock s' = false
  /\ exists calls sent,
       effects w' = effects w ++ calls ++ uiCall sent s'
       /\ Forall (fun c => isUIEvent c = false) calls
       /\ (uiNeedsUpdate s = true -> sent = true).
Proof.
  cbv zeta. split; [|split].
  - rewrite carrySystem_state. generalize (fst (fst (dispatch
      (watchdog s (set_selection ∅ w)) (set_selection ∅ w) f))).
    intros X. unfold endFrame. destruct (uiNeedsUpdate X) eqn:E; cbn; auto.
  - rewrite carrySystem_state. generalize (fst (fst (dispatch
      (watchdog s (set_selection ∅ w)) (set_selection ∅ w) f))).
    intros X. unfold endFrame. now destruct (uiNeedsUpdate X).
  - rewrite carrySystem_effects. cbv zeta.
    set (s0 := watchdog s (set_selection ∅ w)).
    destruct (dispatch_calls s0 (set_selection ∅ w) f) as (l & Hl & Hn).
    exists l, (uiNeedsUpdate (fst (fst (dispatch s0 (set_selection ∅ w) f)))).
    split; [now rewrite Hl, <- app_assoc|]. split; [exact Hn|].
    intros Hu. apply dispatch_dirty.
    unfold s0, watchdog. now destruct (watchdogFires _ _).
Qed.

(** ** The component store and the flags *)

Lemma removeComponent_entities e c eid :
  entities (removeComponent e c eid) = entities e.
Proof. reflexivity. Qed.

(** X19.  A pickup changes component membership only for the entity it
    picks up and only for the four markers it removes: after
    [takeOwnership], every other entity keeps all its components, the
    picked entity keeps every other component (Owned, Carryable and
    Rigidbody among them), and the set of existing entities is the
    same. *)
Theorem carryObject_component_frame eid s w :
  let before := takeOwnership (ecs w) eid in
  let after := ecs (snd (carryObject eid s w)) in
  entities after = entities before
  /\ (forall c e, e <> eid -> hasComponent after c e = hasComponent before c e)
  /\ (forall c,
        c <> Held -> c <> HeldHandLeft -> c <> HeldRemoteLeft ->
        c <> HeldRemoteRight ->
        hasComponent after c eid = hasComponent before c eid).
Proof.
  cbv zeta.
  assert (He : ecs (snd (carryObject eid s w)) =
               removeComponent
                 (removeComponent
                    (removeComponent
                       (removeComponent
                          (removeComponent (takeOwnership (ecs w) eid)
                             HeldRemoteRight eid)
                          HeldRemoteLeft eid)
                       HeldRemoteRight eid)
                    HeldHandLeft eid)
                 Held eid) by reflexivity.
  rewrite He. split; [reflexivity|]. split.
  - intros c e Hne. rewrite !hasComponent_remove.
    destruct (Nat.eqb_spec e eid) as [Heq|_]; [contradiction|].
    cbn [negb]. rewrite !andb_true_r.
    now repeat destruct (decide _).
  - intros c H1 H2 H3 H4. rewrite !hasComponent_remove.
    now rewrite !decide_False by assumption.
Qed.

(** X20.  What a drop does to the flags of a floaty object: a drop with
    gravity clears the MODIFY_GRAVITY_ON_RELEASE bits and keeps all the
    others; a drop without gravity keeps those bits as they were and
    clears every other flag; the flags of an object that is not floaty
    are not written. *)
Theorem dropObject_floaty_flags s w gravity :
  let a := activeObject (carryStateData s) in
  let old := floatyFlags w a in
  let new := floatyFlags (snd (dropObject s w gravity)) a in
  (hasComponent (ecs w) FloatyObject a = false -> new = old)
  /\ (hasComponent (ecs w) FloatyObject a = true -> gravity = true ->
      Z.land new MODIFY_GRAVITY_ON_RELEASE = 0%Z
      /\ Z.land new (Z.lnot MODIFY_GRAVITY_ON_RELEASE) =
         Z.land old (Z.lnot MODIFY_GRAVITY_ON_RELEASE))
  /\ (hasComponent (ecs w) FloatyObject a = true -> gravity = false ->
      Z.land new MODIFY_GRAVITY_ON_RELEASE =
      Z.land old MODIFY_GRAVITY_ON_RELEASE
      /\ Z.land new (Z.lnot MODIFY_GRAVITY_ON_RELEASE) = 0%Z).
Proof.
  cbv zeta.
  assert (Hfl : floatyFlags (snd (dropObject s w gravity))
                  (activeObject (carryStateData s)) =
                if hasComponent (ecs w) FloatyObject (activeObject (carryStateData s))
                then Z.land (floatyFlags w (activeObject (carryStateData s)))
                       (if gravity then Z.lnot MODIFY_GRAVITY_ON_RELEASE
                        else MODIFY_GRAVITY_ON_RELEASE)
                else floatyFlags w (activeObject (carryStateData s))).
  { unfold dropObject. cbv zeta.
    destruct unlockPointerOnDrop; cbn [ecs emit floatyFlags];
      destruct (hasComponent _ _ _); cbn; try reflexivity;
      now rewrite decide_True. }
  rewrite Hfl. split_and!.
  - now intros ->.
  - intros -> ->. split.
    + rewrite <- Z.land_assoc, (Z.land_comm (Z.lnot _)), Z.land_lnot_diag.
      apply Z.land_0_r.
    + now rewrite <- Z.land_assoc, Z.land_diag.
  - intros -> ->. split.
    + now rewrite <- Z.land_assoc, Z.land_diag.
    + rewrite <- Z.land_assoc, Z.land_lnot_diag. apply Z.land_0_r.
Qed.

(** ** The highlight *)

Lemma handleSnapping_selection s w f :
  selection (snd (fst (handleSnapping s w f))) = selection w.
Proof.
  destruct (handleSnapping_world_cases s w f) as [-> | [-> | (obj & ->)]];
    [reflexivity | apply dropObject_selection | reflexivity].
Qed.

(** X21.  The selection is rebuilt in every frame.  While carrying,
    nothing is highlighted.  While snapping, the active object is
    highlighted exactly when its nudge offset is negative at the start of
    the frame. *)
Theorem highlight_while_carrying_and_snapping s w f :
  let w' := snd (carrySystem s w f) in
  let own := list_to_set (meshes (eid2obj w (activeObject (carryStateData s)))) in
  (carryingFrame s w -> selection w' = ∅)
  /\ (carryState s = SNAPPING -> watchdogFires s w = false ->
      (nudgeOffset (carryStateData s) < 0 -> selection w' = own)
      /\ (0 <= nudgeOffset (carryStateData s) -> selection w' = ∅)).
Proof.
  cbv zeta. split.
  - intros Hc. rewrite carrySystem_selection, (dispatch_carrying s w f Hc).
    cbn [fst snd]. rewrite carryingBranch_eq. cbv zeta. cbn [snd].
    destruct (drop f || exitedPointerlock s);
      rewrite ?dropObject_selection; reflexivity.
  - intros Hs Hw.
    rewrite carrySystem_selection, (dispatch_snapping s w f Hs Hw),
      snappingBranch_eq, handleSnapping_selection.
    split; intros Hn; destruct (Rlt_dec _ 0); try lra.
    + unfold addEntityToSelection.
      cbn [selection set_selection setHex eid2obj].
      apply (left_id_L ∅ (∪)).
    + reflexivity.
Qed.

(** ** The stored dot product *)

Lemma idleBranch_prevDot s w f : prevDot (fst (idleBranch s w f)) = prevDot s.
Proof.
  destruct (truthy (heldRightRemote f) && toggle_snap f) eqn:Hf.
  - apply andb_prop in Hf as [Hh Ht].
    now rewrite (idleBranch_fast_state s w f Hh Ht).
  - unfold idleBranch. cbv zeta. rewrite Hf.
    destruct (Nat.eqb (activeObject (carryStateData s)) 0), (truthy (hovered f)),
      (carry f), (menu f); reflexivity.
Qed.

Lemma carryingBranch_prevDot s w f :
  prevDot (fst (carryingBranch s w f)) = prevDot s.
Proof.
  rewrite carryingBranch_eq. cbv zeta. cbn [fst].
  destruct (toggle_gravity f), (drop f || exitedPointerlock s), (toggle_snap f);
    reflexivity.
Qed.

Lemma handleSnapping_prevDot s w f :
  prevDot (fst (fst (handleSnapping s w f))) =
  match snd (handleSnapping s w f) with
  | Some loc => loc_dot loc
  | None => prevDot s
  end.
Proof.
  destruct (toggle_snap f) eqn:Ht.
  { now rewrite (handleSnapping_toggle s w f Ht). }
  destruct (drop f || exitedPointerlock s) eqn:Hd.
  { now rewrite (handleSnapping_drop s w f Ht Hd). }
  apply orb_false_elim in Hd as [Hd He].
  destruct (raycast f) as [h|] eqn:Hr.
  - destruct (handleSnapping_hit s w f h Ht Hd He Hr) as (obj & Heq & _).
    rewrite Heq. cbn [fst snd loc_dot].
    now rewrite gridUniforms_prevDot, solverState_prevDot.
  - rewrite (handleSnapping_miss s w f Ht Hd He Hr). cbn [fst snd].
    now autorewrite with statements.
Qed.

(** X22.  The stored dot product changes only in a frame in which the
    solver places the object, where it becomes the dot product of that
    frame; every other frame leaves it as it was, the frames that enter
    SNAPPING included, so the first placement after entering compares
    against the value left by the last placement before. *)
Theorem stored_dot_changes_only_on_placement s w f :
  prevDot (fst (carrySystem s w f)) =
  match solverLocals s w f with
  | Some loc => loc_dot loc
  | None => prevDot s
  end.
Proof.
  unfold solverLocals. rewrite carrySystem_state, carrySystemTrace_eq.
  cbv zeta. cbn [snd]. rewrite endFrame_prevDot.
  assert (Hw : prevDot (watchdog s (set_selection ∅ w)) = prevDot s)
    by (unfold watchdog; now destruct (watchdogFires _ _)).
  rewrite <- Hw. generalize (watchdog s (set_selection ∅ w)). intros s0.
  unfold dispatch. destruct (carryState s0); cbn [fst snd].
  - apply idleBranch_prevDot.
  - apply idleBranch_prevDot.
  - apply carryingBranch_prevDot.
  - rewrite snappingBranch_eq. apply handleSnapping_prevDot.
Qed.

(** X23.  Two frames in a row in which the solver places the object: if
    the dot products of their surface normals with world-up differ by
    more than 0.2, the second frame ends with the rotation offset 0 and
    the nudge offset at the start epsilon; if they differ by at most 0.2,
    the second frame ends with the offsets of the first changed by its
    own rotation and nudge inputs. *)
Theorem discontinuity_between_frames s w1 f1 h1 w2 f2 h2 :
  snappingHit s w1 f1 h1 ->
  let s1 := fst (carrySystem s w1 f1) in
  snappingHit s1 w2 f2 h2 ->
  let s2 := fst (carrySystem s1 w2 f2) in
  let d1 := Vec.dot (worldNormal h1) Y_AXIS in
  let d2 := Vec.dot (worldNormal h2) Y_AXIS in
  (2 / 10 < Rabs (d2 - d1) ->
   rotationOffset (carryStateData s2) = 0
   /\ nudgeOffset (carryStateData s2) = NUDGE_START_OFFSET)
  /\ (Rabs (d2 - d1) <= 2 / 10 ->
      rotationOffset (carryStateData s2) =
        (if rotate_ccw f2 then rotationOffset (carryStateData s1) - ROTATION_SPEED * delta f2
         else if rotate_cw f2 then rotationOffset (carryStateData s1) + ROTATION_SPEED * delta f2
         else rotationOffset (carryStateData s1))
      /\ nudgeOffset (carryStateData s2) =
        match snap_nudge f2 with
        | Some nudgeDelta =>
            nudgeOffset (carryStateData s1) + nudgeDelta * delta f2 * NUDGE_SPEED
        | None => nudgeOffset (carryStateData s1)
        end).
Proof.
  intros H1. cbv zeta. intros H2.
  pose proof (frame_solver_prevDot s w1 f1 h1 H1) as Hp.
  set (s1 := fst (carrySystem s w1 f1)) in *. split.
  - intros Hd. destruct (hit_frame_state s1 w2 f2 h2 H2) as (u & ->).
    rewrite endFrame_data, gridUniforms_data.
    apply solverState_reset. now rewrite Hp.
  - intros Hd.
    assert (Hn : ~ 2 / 10 < Rabs (Vec.dot (worldNormal h2) Y_AXIS - prevDot s1))
      by (rewrite Hp; lra).
    split.
    + destruct H2 as (Hs & Hw & Ht & Hdr & He & Hr).
      rewrite (frame_solver_rotation s1 w2 f2 Hs Hw Ht Hdr He);
        [reflexivity | now rewrite Hr].
    + exact (frame_solver_nudge s1 w2 f2 h2 H2 Hn).
Qed.

(** X24.  Rotating clockwise for one frame and counter-clockwise for the
    next frame of the same length, with no discontinuity reset in either,
    brings the rotation offset back to where it was; counter-clockwise
    wins when both rotate actions are active. *)
Theorem rotation_round_trip s w1 f1 w2 f2 :
  solverFrame s w1 f1 ->
  let s1 := fst (carrySystem s w1 f1) in
  solverFrame s1 w2 f2 ->
  rotate_ccw f1 = false -> rotate_cw f1 = true ->
  rotate_ccw f2 = true -> delta f2 = delta f1 ->
  match raycast f1 with
  | Some h => ~ 2 / 10 < Rabs (Vec.dot (worldNormal h) Y_AXIS - prevDot s)
  | None => True
  end ->
  match raycast f2 with
  | Some h => ~ 2 / 10 < Rabs (Vec.dot (worldNormal h) Y_AXIS - prevDot s1)
  | None => True
  end ->
  rotationOffset (carryStateData (fst (carrySystem s1 w2 f2))) =
  rotationOffset (carryStateData s).
Proof.
  intros (Hs & Hw & Ht & Hd & He). cbv zeta.
  intros (Hs2 & Hw2 & Ht2 & Hd2 & He2) Hccw1 Hcw1 Hccw2 Hdelta Hr1 Hr2.
  rewrite (frame_solver_rotation _ w2 f2 Hs2 Hw2 Ht2 Hd2 He2 Hr2), Hccw2.
  rewrite (frame_solver_rotation s w1 f1 Hs Hw Ht Hd He Hr1), Hccw1, Hcw1, Hdelta.
  ring.
Qed.

(** ** The grid and the remembered surface *)

Ltac anchor :=
  intros;
  unfold rotateInput, faceInput, nudgeInput, attachHelpers, anchorGrid,
    resetOnDiscontinuity, aimArrow, gridUniforms, changeSnapFace;
  repeat case_match; reflexivity.

Lemma rotateInput_last f s : lastIntersectedObj (rotateInput f s) = lastIntersectedObj s.
Proof. anchor. Qed.
Lemma faceInput_last f s : lastIntersectedObj (faceInput f s) = lastIntersectedObj s.
Proof. anchor. Qed.
Lemma nudgeInput_last f s : lastIntersectedObj (nudgeInput f s) = lastIntersectedObj s.
Proof. anchor. Qed.
Lemma attachHelpers_last s : lastIntersectedObj (attachHelpers s) = lastIntersectedObj s.
Proof. anchor. Qed.
Lemma attachHelpers_geometry s :
  gm_geometry (gridMesh (attachHelpers s)) = gm_geometry (gridMesh s).
Proof. anchor. Qed.
Lemma resetOnDiscontinuity_last d s :
  lastIntersectedObj (resetOnDiscontinuity d s) = lastIntersectedObj s.
Proof. anchor. Qed.
Lemma aimArrow_last t d s : lastIntersectedObj (aimArrow t d s) = lastIntersectedObj s.
Proof. anchor. Qed.
Lemma gridUniforms_last t o s :
  lastIntersectedObj (gridUniforms t o s) = lastIntersectedObj s.
Proof. anchor. Qed.
Lemma gridUniforms_geometry t o s :
  gm_geometry (gridMesh (gridUniforms t o s)) = gm_geometry (gridMesh s).
Proof. anchor. Qed.
Lemma gridUniforms_objectPos t o s :
  gm_objectPos (gridMesh (gridUniforms t o s)) = t.
Proof. anchor. Qed.
Lemma endFrame_last s : lastIntersectedObj (endFrame s) = lastIntersectedObj s.
Proof. unfold endFrame. now destruct (uiNeedsUpdate s). Qed.

Lemma anchorGrid_anchors h s :
  grid_anchored s ->
  lastIntersectedObj (anchorGrid h s) = Some (hit_object h)
  /\ gm_geometry (gridMesh (anchorGrid h s)) = Some (hit_object h).
Proof.
  intros Ha. unfold anchorGrid.
  destruct (bool_decide (lastIntersectedObj s <> Some (hit_object h))) eqn:E.
  - split; reflexivity.
  - apply bool_decide_eq_false in E.
    assert (Hl : lastIntersectedObj s = Some (hit_object h)).
    { destruct (decide (lastIntersectedObj s = Some (hit_object h))); tauto. }
    split; [exact Hl | now apply Ha].
Qed.

Lemma solverState_anchors f h s :
  grid_anchored s ->
  lastIntersectedObj (solverState f h s) = Some (hit_object h)
  /\ gm_geometry (gridMesh (solverState f h s)) = Some (hit_object h).
Proof.
  intros Ha. unfold solverState.
  rewrite aimArrow_last, resetOnDiscontinuity_last, aimArrow_gridMesh,
    resetOnDiscontinuity_gridMesh.
  apply anchorGrid_anchors.
  intros m. rewrite attachHelpers_last, nudgeInput_last, faceInput_last,
    rotateInput_last, attachHelpers_geometry, nudgeInput_gridMesh,
    faceInput_gridMesh, rotateInput_gridMesh.
  apply Ha.
Qed.

Lemma handleSnapping_anchored s w f :
  grid_anchored s -> grid_anchored (fst (fst (handleSnapping s w f))).
Proof.
  intros Ha.
  destruct (toggle_snap f) eqn:Ht.
  { rewrite (handleSnapping_toggle s w f Ht). exact Ha. }
  destruct (drop f || exitedPointerlock s) eqn:Hd.
  { rewrite (handleSnapping_drop s w f Ht Hd). exact Ha. }
  apply orb_false_elim in Hd as [Hd He].
  destruct (raycast f) as [h|] eqn:Hr.
  - destruct (handleSnapping_hit s w f h Ht Hd He Hr) as (obj & Heq & _).
    rewrite Heq. cbn [fst]. intros m.
    rewrite gridUniforms_last, gridUniforms_geometry.
    destruct (solverState_anchors f h s Ha) as [-> ->]. auto.
  - rewrite (handleSnapping_miss s w f Ht Hd He Hr). cbn [fst]. intros m.
    rewrite faceInput_last, rotateInput_last, faceInput_gridMesh,
      rotateInput_gridMesh.
    apply Ha.
Qed.

Lemma dispatch_anchored s w f :
  grid_anchored s -> grid_anchored (fst (fst (dispatch s w f))).
Proof.
  intros Ha. unfold dispatch. destruct (carryState s); cbn [fst].
  1,2: destruct (truthy (heldRightRemote f) && toggle_snap f) eqn:Hf;
    [ apply andb_prop in Hf as [Hh Ht];
      rewrite (idleBranch_fast_state s w f Hh Ht); intros m; discriminate
    | unfold idleBranch; cbv zeta; rewrite Hf;
      destruct (Nat.eqb (activeObject (carryStateData s)) 0),
        (truthy (hovered f)), (carry f), (menu f); exact Ha ].
  - rewrite carryingBranch_eq. cbv zeta. cbn [fst].
    destruct (toggle_gravity f), (drop f || exitedPointerlock s), (toggle_snap f);
      first [ exact Ha | intros m; discriminate ].
  - rewrite snappingBranch_eq. now apply handleSnapping_anchored.
Qed.

Lemma frame_anchored s w f :
  grid_anchored s -> grid_anchored (fst (carrySystem s w f)).
Proof.
  intros Ha. rewrite carrySystem_state. intros m.
  rewrite endFrame_last, endFrame_gridMesh.
  apply dispatch_anchored.
  unfold watchdog. destruct (watchdogFires _ _); exact Ha.
Qed.

Lemma reachable_anchored s : reachable s -> grid_anchored s.
Proof.
  induction 1 as [|s s' _ IH Hstep]; [intros m; discriminate|].
  destruct Hstep as [s0 w f|s0 w eid|s0|s0 l];
    [now apply frame_anchored | exact IH | exact IH | exact IH].
Qed.

(** X25.  In every reachable state the grid shares the geometry of the
    surface remembered as last hit, if one is remembered.  After a frame
    in which the solver places the object, the surface that was hit is the
    remembered one, the grid shares its geometry, and the reference
    position of the grid shader is the hit point. *)
Theorem grid_follows_the_surface s :
  reachable s ->
  (forall m, lastIntersectedObj s = Some m -> gm_geometry (gridMesh s) = Some m)
  /\ (forall w f h,
        snappingHit s w f h ->
        let s' := fst (carrySystem s w f) in
        lastIntersectedObj s' = Some (hit_object h)
        /\ gm_geometry (gridMesh s') = Some (hit_object h)
        /\ gm_objectPos (gridMesh s') = hit_point h).
Proof.
  intros Hr. pose proof (reachable_anchored s Hr) as Ha.
  split; [exact Ha|].
  intros w f h Hh. cbv zeta.
  destruct (hit_frame_state s w f h Hh) as (u & ->).
  rewrite endFrame_last, endFrame_gridMesh, gridUniforms_last,
    gridUniforms_geometry, gridUniforms_objectPos.
  destruct (solverState_anchors f h s Ha) as [-> ->]. auto.
Qed.

(** ** Frames in a row *)

Lemma watchdogFires_ext s s' w :
  carryState s' = carryState s ->
  activeObject (carryStateData s') = activeObject (carryStateData s) ->
  watchdogFires s' w = watchdogFires s w.
Proof. intros Hc Ha. unfold watchdogFires. now rewrite Hc, Ha. Qed.

Lemma endFrame_exitedPointerlock s : exitedPointerlock (endFrame s) = false.
Proof. reflexivity. Qed.

Lemma solver_frame_keeps_machine s w f :
  solverFrame s w f ->
  let s' := fst (carrySystem s w f) in
  carryState s' = SNAPPING
  /\ activeObject (carryStateData s') = activeObject (carryStateData s)
  /\ exitedPointerlock s' = false.
Proof.
  intros (Hs & Hw & Ht & Hd & He). cbv zeta. split; [|split].
  - destruct (snapping_frame_trace s w f Hs Hw) as (w0 & _ & _ & _ & -> & _).
    rewrite endFrame_carryState.
    destruct (raycast f) as [h|] eqn:Hr.
    + destruct (handleSnapping_hit s w0 f h Ht Hd He Hr) as (obj & -> & _).
      cbn [fst]. now rewrite gridUniforms_carryState, solverState_carryState.
    + rewrite (handleSnapping_miss s w0 f Ht Hd He Hr). cbn [fst].
      now autorewrite with statements.
  - rewrite (frame_solver_data s w f Hs Hw Ht Hd He).
    destruct (raycast f) as [h|]; [apply solverState_activeObject|].
    now autorewrite with statements.
  - rewrite carrySystem_state. apply endFrame_exitedPointerlock.
Qed.

Lemma solver_frame_continues s w f w2 f2 :
  solverFrame s w f ->
  watchdogFires s w2 = false -> toggle_snap f2 = false -> drop f2 = false ->
  solverFrame (fst (carrySystem s w f)) w2 f2.
Proof.
  intros Hf Hw2 Ht2 Hd2.
  destruct (solver_frame_keeps_machine s w f Hf) as (Hc & Ha & He).
  destruct Hf as (Hs & _).
  unfold solverFrame. split_and!; auto.
  rewrite <- Hw2. apply watchdogFires_ext; congruence.
Qed.

Lemma hit_frame_continues s w f h w2 f2 h2 :
  snappingHit s w f h ->
  watchdogFires s w2 = false -> toggle_snap f2 = false -> drop f2 = false ->
  raycast f2 = Some h2 ->
  snappingHit (fst (carrySystem s w f)) w2 f2 h2.
Proof.
  intros (Hs & Hw & Ht & Hd & He & Hr) Hw2 Ht2 Hd2 Hr2.
  assert (Hf : solverFrame s w f) by (unfold solverFrame; auto).
  destruct (solver_frame_continues s w f w2 f2 Hf Hw2 Ht2 Hd2)
    as (H1 & H2 & H3 & H4 & H5).
  unfold snappingHit. auto 10.
Qed.
End FrameProperties.

(** * Concrete runs *)

#[local] Existing Instance plainCollaborators.

Lemma floor_after_floor (s : State) :
  prevDot s = 1 ->
  ~ 2 / 10 < Rabs (Vec.dot (worldNormal floorHit) Y_AXIS - prevDot s).
Proof.
  intros ->. rewrite dot_Y_AXIS. cbn.
  replace (1 - 1) with 0 by ring. rewrite Rabs_R0. lra.
Qed.

Lemma wall_after_floor (s : State) :
  prevDot s = 1 ->
  2 / 10 < Rabs (Vec.dot (worldNormal wallHit) Y_AXIS - prevDot s).
Proof.
  intros ->. rewrite dot_Y_AXIS. cbn.
  replace (0 - 1) with (- (1)) by ring. rewrite Rabs_Ropp, Rabs_R1. lra.
Qed.

Lemma unit_scale_clamped (f : Frame) (m : MeshId) :
  snap_scale f = None -> clampedScale f (unitCube m) = V3 1 1 1.
Proof.
  intros Hs. unfold clampedScale, scaleInput. rewrite Hs.
  assert (Hm : Rmax 1 (1 / 100) = 1) by (apply Rmax_left; lra).
  unfold Vec.max, MIN_SCALE, unitCube. cbn [scale vx vy vz].
  now rewrite Hm.
Qed.

(** ** C1 *)

(** C1, the claim as stated fails.  Entity 5 is carried and has been
    removed from the world; entity 7 is hovered and carry is pressed.  The
    check at the top of the frame fires, and the frame ends CARRYING
    entity 7. *)
Lemma watchdog_reset_not_final :
  watchdogFires carryingState goneWorld = true
  /\ ~ (carryState (fst (carrySystem carryingState goneWorld pickFrame)) = NONE
        /\ activeObject (carryStateData
             (fst (carrySystem carryingState goneWorld pickFrame))) = 0%nat
        /\ ah_visible (arrowHelper
             (fst (carrySystem carryingState goneWorld pickFrame))) = false
        /\ gm_visible (gridMesh
             (fst (carrySystem carryingState goneWorld pickFrame))) = false).
Proof.
  split; [reflexivity|].
  intros (Hs & _). discriminate Hs.
Qed.

Lemma watchdog_forces_reset_witness :
  watchdogFires carryingState goneWorld = true
  /\ carryState (fst (carrySystem carryingState goneWorld quietFrame)) = NONE
  /\ activeObject (carryStateData
       (fst (carrySystem carryingState goneWorld quietFrame))) = 0%nat
  /\ ah_visible (arrowHelper
       (fst (carrySystem carryingState goneWorld quietFrame))) = false
  /\ gm_visible (gridMesh
       (fst (carrySystem carryingState goneWorld quietFrame))) = false.
Proof.
  assert (Hw : watchdogFires carryingState goneWorld = true) by reflexivity.
  destruct (watchdog_forces_reset carryingState goneWorld quietFrame Hw)
    as (_ & Ha & Hq).
  destruct (Hq eq_refl) as (Hs & Ho & Hg).
  exact (conj Hw (conj Hs (conj Ho (conj Ha Hg)))).
Defined.

(** ** C2 *)

Lemma none_has_no_active_object_witness :
  let s1 := clearObjectMenu (fst (carryObject 7%nat initialState sampleWorld)) in
  reachable s1 /\ carryState s1 = NONE /\ activeObject (carryStateData s1) = 0%nat.
Proof.
  cbv zeta.
  assert (Hr : reachable
            (clearObjectMenu (fst (carryObject 7%nat initialState sampleWorld)))).
  { eapply reachable_step; [eapply reachable_step; [apply reachable_init|]|].
    - apply (step_carryObject initialState sampleWorld 7%nat).
    - apply step_clearObjectMenu. }
  split; [exact Hr|]. split; [reflexivity|].
  exact (proj1 (none_has_no_active_object _ Hr) eq_refl).
Defined.

(** ** C3 *)

(** C3, the code at a frame of 16 ms with rotate-cw held.  The rotation
    offset grows by [2 * PI / 4 / 1000] per millisecond, a quarter turn per
    second, which is not the [4 * 2 * PI / 1000] per millisecond of four
    turns per second. *)
Theorem rotation_rate_is_a_quarter_turn_per_second :
  rotationOffset (carryStateData (fst (carrySystem snappingState sampleWorld cwFrame)))
  = rotationOffset (carryStateData snappingState) + (2 * PI / 4 / 1000) * 16
  /\ (2 * PI / 4 / 1000) * 16 <> (4 * (2 * PI) / 1000) * 16.
Proof.
  split.
  - rewrite (frame_solver_rotation snappingState sampleWorld cwFrame
               eq_refl eq_refl eq_refl eq_refl eq_refl I).
    cbn. unfold ROTATION_SPEED, ROTATIONS_PER_SECOND. field.
  - pose proof PI_RGT_0. lra.
Qed.

(** ** C4 *)

(** C4, the claim as stated fails.  Starting from AUTO, six
    [change_snap_face] steps end on BACK. *)
Lemma six_presses_from_auto :
  snapFace initialData = SnapFace.AUTO
  /\ snapFace (Nat.iter 6 changeSnapFace initialData) = SnapFace.BACK
  /\ snapFace (Nat.iter 6 changeSnapFace initialData) <> snapFace initialData.
Proof. split; [reflexivity|]. split; [reflexivity|]. discriminate. Qed.

Lemma six_presses_return_witness :
  Nat.iter 6 changeSnapFace (set_snapFace SnapFace.RIGHT initialData)
  = set_snapFace SnapFace.RIGHT initialData.
Proof.
  apply six_presses_return. cbn. unfold SnapFace.RIGHT. lia.
Defined.

(** ** C5 *)

(** C5, the code at an entity held by the right hand.  Entity 7 carries
    [HeldHandRight] and [HeldRemoteRight]; after [carryObject 7] the
    remote marker is gone and the hand marker is still there. *)
Theorem carryObject_leaves_HeldHandRight :
  hasComponent (ecs sampleWorld) HeldHandRight 7%nat = true
  /\ hasComponent (ecs sampleWorld) HeldRemoteRight 7%nat = true
  /\ hasComponent (ecs (snd (carryObject 7%nat initialState sampleWorld)))
       HeldRemoteRight 7%nat = false
  /\ hasComponent (ecs (snd (carryObject 7%nat initialState sampleWorld)))
       HeldHandRight 7%nat = true.
Proof. repeat split; reflexivity. Qed.

(** ** C6 *)

Lemma standoff_distance_witness :
  snappingHit embeddedState sampleWorld floorFrame floorHit
  /\ exists loc,
       solverLocals embeddedState sampleWorld floorFrame = Some loc
       /\ loc_offsetDistance loc = 2 / 10
       /\ 5%nat ∈ selection (snd (carrySystem embeddedState sampleWorld floorFrame)).
Proof.
  assert (Hh : snappingHit embeddedState sampleWorld floorFrame floorHit)
    by (repeat split; reflexivity).
  split; [exact Hh|].
  destruct (standoff_distance _ _ _ _ Hh) as (loc & Hl & _ & _ & _ & Hsc).
  exists loc. split; [exact Hl|].
  destruct Hsc as [Hd Hsel].
  - now rewrite frame_solver_size.
  - rewrite (frame_solver_scale _ _ _ _ Hh). now apply unit_scale_clamped.
  - reflexivity.
  - rewrite (frame_solver_nudge _ _ _ _ Hh); [reflexivity|].
    now apply floor_after_floor.
  - split; [exact Hd|]. apply Hsel.
    rewrite (frame_solver_meshes _ _ _ _ Hh). cbn. set_solver.
Defined.

(** ** C7 *)

Lemma effective_snap_face_witness :
  snappingHit snappingState sampleWorld floorFrame floorHit
  /\ exists loc,
       solverLocals snappingState sampleWorld floorFrame = Some loc
       /\ loc_snapFace loc = SnapFace.BOTTOM
       /\ loc_offsetDistance loc = 1 / 2 + 1 / 1000.
Proof.
  assert (Hh : snappingHit snappingState sampleWorld floorFrame floorHit)
    by (repeat split; reflexivity).
  split; [exact Hh|].
  destruct (effective_snap_face _ _ _ _ Hh) as (loc & Hl & _ & _ & _ & _ & Hsc).
  exists loc. split; [exact Hl|].
  apply Hsc.
  - now rewrite frame_solver_size.
  - rewrite (frame_solver_scale _ _ _ _ Hh). now apply unit_scale_clamped.
  - reflexivity.
  - now rewrite frame_solver_snapFace.
  - rewrite (frame_solver_nudge _ _ _ _ Hh); [reflexivity|].
    now apply floor_after_floor.
Defined.

(** ** C8 *)

Lemma discontinuity_resets_offsets_witness :
  snappingHit turnedState sampleWorld wallFrame wallHit
  /\ rotationOffset (carryStateData turnedState) = 1
  /\ rotationOffset (carryStateData
       (fst (carrySystem turnedState sampleWorld wallFrame))) = 0
  /\ nudgeOffset (carryStateData
       (fst (carrySystem turnedState sampleWorld wallFrame))) = 1 / 1000.
Proof.
  assert (Hh : snappingHit turnedState sampleWorld wallFrame wallHit)
    by (repeat split; reflexivity).
  assert (Hd : 2 / 10 <
               Rabs (Vec.dot (worldNormal wallHit) Y_AXIS - prevDot turnedState))
    by (now apply wall_after_floor).
  destruct (discontinuity_resets_offsets _ _ _ _ Hh Hd) as (Hr & Hn & _).
  exact (conj Hh (conj eq_refl (conj Hr Hn))).
Defined.

(** ** C9 *)

Lemma snapFace_range_witness :
  let s1 := fst (carrySystem initialState sampleWorld snapHeldFrame) in
  let w1 := snd (carrySystem initialState sampleWorld snapHeldFrame) in
  reachable s1
  /\ carryState s1 = SNAPPING
  /\ (-1 <= snapFace (carryStateData s1) <= 5)%Z
  /\ (0 <= snapFace (carryStateData (fst (carrySystem s1 w1 faceFrame))) <= 5)%Z.
Proof.
  cbv zeta.
  assert (Hr : reachable (fst (carrySystem initialState sampleWorld snapHeldFrame))).
  { eapply reachable_step; [apply reachable_init|].
    apply (step_frame initialState sampleWorld snapHeldFrame). }
  destruct (snapFace_range _ Hr) as (Hi & Hp & _).
  split; [exact Hr|]. split; [reflexivity|]. split; [exact Hi|].
  apply Hp; reflexivity.
Defined.

(** ** C10 *)

Lemma carryObject_leaves_previous_body_witness :
  activeObject (carryStateData carryingState) = 5%nat
  /\ bodyUpdates 105%nat (effects (snd (carryObject 7%nat carryingState sampleWorld)))
     = bodyUpdates 105%nat (effects sampleWorld)
  /\ bodyUpdates 107%nat (effects (snd (carryObject 7%nat carryingState sampleWorld)))
     = [carryOptions]
  /\ activeObject (carryStateData (fst (carryObject 7%nat carryingState sampleWorld)))
     = 7%nat.
Proof.
  assert (Hb : bodyId sampleWorld 5%nat <> bodyId sampleWorld 7%nat)
    by (cbn; lia).
  assert (Hne : 5%nat <> 7%nat) by lia.
  destruct (carryObject_leaves_previous_body carryingState sampleWorld
              5%nat 7%nat eq_refl Hne Hb)
    as (_ & Hu & _ & Hn & _ & Ha & _).
  exact (conj eq_refl (conj Hu (conj Hn Ha))).
Defined.

(** ** Runs for the further properties *)

Lemma carried_object_pose_witness :
  carryingFrame carryingState sampleWorld
  /\ vy (position (eid2obj (snd (carrySystem carryingState sampleWorld quietFrame))
                           5%nat)) = 0 + CARRY_HEIGHT
  /\ horizontalSq
       (Vec.sub (position (eid2obj (snd (carrySystem carryingState sampleWorld
                                           quietFrame)) 5%nat)) ZERO)
     = CARRY_DISTANCE * CARRY_DISTANCE.
Proof.
  assert (Hc : carryingFrame carryingState sampleWorld) by (split; reflexivity).
  destruct (carried_object_pose carryingState sampleWorld quietFrame Hc)
    as (Hy & _ & Hh).
  split; [exact Hc|]. split; [exact Hy|].
  apply Hh. unfold horizontalSq. cbn. lra.
Defined.

Lemma snap_toggle_from_carrying_witness :
  carryingFrame carryingState sampleWorld
  /\ carryState (fst (carrySystem carryingState sampleWorld snapToggleFrame))
     = SNAPPING
  /\ snapFace (carryStateData
       (fst (carrySystem carryingState sampleWorld snapToggleFrame)))
     = SnapFace.AUTO.
Proof.
  assert (Hc : carryingFrame carryingState sampleWorld) by (split; reflexivity).
  destruct (snap_toggle_from_carrying carryingState sampleWorld snapToggleFrame
              Hc eq_refl eq_refl eq_refl) as (Hs & _ & _ & _ & Hf & _).
  exact (conj Hc (conj Hs Hf)).
Defined.

Lemma drop_while_carrying_witness :
  carryingFrame carryingState sampleWorld
  /\ carryState (fst (carrySystem carryingState sampleWorld dropFrame)) = NONE
  /\ bodyUpdates 105%nat
       (effects (snd (carrySystem carryingState sampleWorld dropFrame)))
     = [dropOptions true].
Proof.
  assert (Hc : carryingFrame carryingState sampleWorld) by (split; reflexivity).
  destruct (drop_while_carrying carryingState sampleWorld dropFrame
              Hc eq_refl eq_refl) as (Hs & _ & _ & _ & _ & He).
  split; [exact Hc|]. split; [exact Hs|].
  rewrite He. reflexivity.
Defined.

Lemma drop_and_snap_same_frame_witness :
  carryingFrame carryingState sampleWorld
  /\ carryState (fst (carrySystem carryingState sampleWorld dropSnapFrame))
     = SNAPPING
  /\ activeObject (carryStateData
       (fst (carrySystem carryingState sampleWorld dropSnapFrame))) = 0%nat.
Proof.
  assert (Hc : carryingFrame carryingState sampleWorld) by (split; reflexivity).
  destruct (drop_and_snap_same_frame carryingState sampleWorld dropSnapFrame
              Hc eq_refl eq_refl) as (Hs & Ha & _).
  exact (conj Hc (conj Hs Ha)).
Defined.

Lemma cancel_snapping_witness :
  carryState (fst (carrySystem turnedState sampleWorld dropSnapFrame)) = CARRYING
  /\ carryStateData (fst (carrySystem turnedState sampleWorld dropSnapFrame))
     = carryStateData turnedState.
Proof.
  destruct (cancel_snapping turnedState sampleWorld dropSnapFrame
              eq_refl eq_refl eq_refl) as (Hs & Hd & _).
  exact (conj Hs Hd).
Defined.

Lemma drop_while_snapping_witness :
  applyGravity (carryStateData snappingState) = true
  /\ carryState (fst (carrySystem snappingState sampleWorld dropFrame)) = NONE
  /\ bodyUpdates 105%nat
       (effects (snd (carrySystem snappingState sampleWorld dropFrame)))
     = [dropOptions false].
Proof.
  destruct (drop_while_snapping snappingState sampleWorld dropFrame
              eq_refl eq_refl eq_refl eq_refl) as (Hs & _ & _ & _ & _ & He).
  split; [reflexivity|]. split; [exact Hs|].
  rewrite He. reflexivity.
Defined.

Lemma miss_frame_is_inert_witness :
  solverFrame snappingState sampleWorld cwFrame
  /\ nudgeOffset (carryStateData
       (fst (carrySystem snappingState sampleWorld cwFrame)))
     = NUDGE_START_OFFSET
  /\ eid2obj (snd (carrySystem snappingState sampleWorld cwFrame))
     = eid2obj sampleWorld.
Proof.
  assert (Hf : solverFrame snappingState sampleWorld cwFrame)
    by (unfold solverFrame; repeat split; reflexivity).
  destruct (miss_frame_is_inert snappingState sampleWorld cwFrame Hf eq_refl)
    as (_ & Hn & _ & _ & _ & Ho & _).
  exact (conj Hf (conj Hn Ho)).
Defined.

Lemma arrow_shows_nudge_witness :
  snappingHit snappingState sampleWorld floorFrame floorHit
  /\ ah_position (arrowHelper
       (fst (carrySystem snappingState sampleWorld floorFrame))) = ZERO
  /\ ah_direction (arrowHelper
       (fst (carrySystem snappingState sampleWorld floorFrame))) = Y_AXIS.
Proof.
  assert (Hh : snappingHit snappingState sampleWorld floorFrame floorHit)
    by (repeat split; reflexivity).
  destruct (arrow_shows_nudge _ _ _ _ Hh) as (_ & Hp & Hd & _).
  exact (conj Hh (conj Hp Hd)).
Defined.

Lemma scale_never_below_minimum_witness :
  snappingHit snappingState sampleWorld floorFrame floorHit
  /\ 1 / 100 <= vx (scale (eid2obj
       (snd (carrySystem snappingState sampleWorld floorFrame)) 5%nat)).
Proof.
  assert (Hh : snappingHit snappingState sampleWorld floorFrame floorHit)
    by (repeat split; reflexivity).
  destruct (scale_never_below_minimum _ _ _ _ Hh) as (Hx & _).
  exact (conj Hh Hx).
Defined.

Lemma effective_face_is_concrete_witness :
  let s1 := fst (carrySystem initialState sampleWorld snapHeldFrame) in
  let w1 := snd (carrySystem initialState sampleWorld snapHeldFrame) in
  reachable s1
  /\ snappingHit s1 w1 floorFrame floorHit
  /\ exists loc, solverLocals s1 w1 floorFrame = Some loc
                 /\ (0 <= loc_snapFace loc <= 5)%Z.
Proof.
  cbv zeta.
  assert (Hr : reachable (fst (carrySystem initialState sampleWorld snapHeldFrame))).
  { eapply reachable_step; [apply reachable_init|].
    apply (step_frame initialState sampleWorld snapHeldFrame). }
  assert (Hh : snappingHit
                 (fst (carrySystem initialState sampleWorld snapHeldFrame))
                 (snd (carrySystem initialState sampleWorld snapHeldFrame))
                 floorFrame floorHit)
    by (repeat split; reflexivity).
  exact (conj Hr (conj Hh (effective_face_is_concrete _ _ _ _ Hr Hh))).
Defined.

Lemma offsetDistance_increasing_witness :
  offsetDistance 1 1 (- (3 / 10)) < offsetDistance 1 1 (1 / 1000).
Proof.
  apply (offsetDistance_increasing 1 1 (- (3 / 10)) (1 / 1000)); lra.
Defined.

Lemma fast_path_into_snapping_witness :
  carryState (fst (carrySystem menuState sampleWorld snapHeldFrame)) = SNAPPING
  /\ activeObject (carryStateData
       (fst (carrySystem menuState sampleWorld snapHeldFrame))) = 7%nat.
Proof.
  assert (Hi : carryState (watchdog menuState sampleWorld) = NONE
               \/ carryState (watchdog menuState sampleWorld) = MENU)
    by (right; reflexivity).
  destruct (fast_path_into_snapping menuState sampleWorld snapHeldFrame
              Hi eq_refl eq_refl) as (Hs & Ha & _).
  exact (conj Hs Ha).
Defined.

Lemma menu_is_modal_witness :
  carry pickFrame = true
  /\ carryState (fst (carrySystem menuState sampleWorld pickFrame)) = MENU
  /\ carryStateData (fst (carrySystem menuState sampleWorld pickFrame))
     = carryStateData menuState.
Proof.
  assert (Ha : activeObject (carryStateData menuState) <> 0%nat)
    by (cbn; lia).
  destruct (menu_is_modal menuState sampleWorld pickFrame
              eq_refl eq_refl Ha eq_refl) as (Hs & Hd & _).
  exact (conj eq_refl (conj Hs Hd)).
Defined.

Lemma pick_up_hovered_witness :
  idleFrame initialState sampleWorld
  /\ carryState (fst (carrySystem initialState sampleWorld pickFrame)) = CARRYING
  /\ activeObject (carryStateData
       (fst (carrySystem initialState sampleWorld pickFrame))) = 7%nat
  /\ size (carryStateData
       (fst (carrySystem initialState sampleWorld pickFrame))) = V3 1 1 1.
Proof.
  assert (Hi : idleFrame initialState sampleWorld)
    by (split; [left|]; reflexivity).
  destruct (pick_up_hovered initialState sampleWorld pickFrame
              Hi eq_refl eq_refl eq_refl) as (Hs & Ha & _ & _ & Hz & _).
  exact (conj Hi (conj Hs (conj Ha Hz))).
Defined.

Lemma open_menu_on_hovered_witness :
  idleFrame initialState sampleWorld
  /\ carryState (fst (carrySystem initialState sampleWorld menuFrame)) = MENU
  /\ menuPosX (carryStateData
       (fst (carrySystem initialState sampleWorld menuFrame))) = 3.
Proof.
  assert (Hi : idleFrame initialState sampleWorld)
    by (split; [left|]; reflexivity).
  destruct (open_menu_on_hovered initialState sampleWorld menuFrame
              Hi eq_refl eq_refl eq_refl) as (_ & Hm & _).
  destruct (Hm eq_refl) as (Hs & _ & Hx & _).
  exact (conj Hi (conj Hs Hx)).
Defined.

Lemma watchdog_reset_makes_no_physics_call_witness :
  watchdogFires carryingState goneWorld = true
  /\ bodyUpdates 105%nat
       (effects (snd (carrySystem carryingState goneWorld quietFrame)))
     = bodyUpdates 105%nat (effects goneWorld).
Proof.
  destruct (watchdog_reset_makes_no_physics_call carryingState goneWorld
              quietFrame eq_refl eq_refl) as (_ & Hb & _).
  exact (conj eq_refl Hb).
Defined.

Lemma frame_touches_only_the_active_object_witness :
  eid2obj (snd (carrySystem carryingState sampleWorld dropFrame)) 7%nat
  = eid2obj sampleWorld 7%nat.
Proof.
  assert (Hne : 7%nat <> activeObject (carryStateData carryingState))
    by (cbn; lia).
  exact (proj1 (frame_touches_only_the_active_object carryingState sampleWorld
                  dropFrame 7%nat Hne)).
Defined.

Lemma ui_event_once_and_last_witness :
  uiNeedsUpdate (fst (carrySystem carryingState sampleWorld dropFrame)) = false
  /\ exitedPointerlock (fst (carrySystem carryingState sampleWorld dropFrame))
     = false.
Proof.
  destruct (ui_event_once_and_last carryingState sampleWorld dropFrame)
    as (Hu & He & _).
  exact (conj Hu He).
Defined.

Lemma carryObject_component_frame_witness :
  hasComponent (ecs (snd (carryObject 7%nat initialState sampleWorld))) Owned 7%nat
  = hasComponent (takeOwnership (ecs sampleWorld) 7%nat) Owned 7%nat
  /\ hasComponent (ecs (snd (carryObject 7%nat initialState sampleWorld))) Owned 5%nat
  = hasComponent (takeOwnership (ecs sampleWorld) 7%nat) Owned 5%nat.
Proof.
  destruct (carryObject_component_frame 7%nat initialState sampleWorld)
    as (_ & Ho & Hc).
  split.
  - apply Hc; discriminate.
  - apply Ho. lia.
Defined.

Lemma dropObject_floaty_flags_witness :
  hasComponent (ecs floatyWorld) FloatyObject 5%nat = true
  /\ Z.land (floatyFlags (snd (dropObject carryingState floatyWorld false)) 5%nat)
            (Z.lnot MODIFY_GRAVITY_ON_RELEASE) = 0%Z
  /\ Z.land (floatyFlags (snd (dropObject carryingState floatyWorld true)) 5%nat)
            MODIFY_GRAVITY_ON_RELEASE = 0%Z.
Proof.
  assert (Hf : hasComponent (ecs floatyWorld) FloatyObject
                 (activeObject (carryStateData carryingState)) = true)
    by reflexivity.
  destruct (dropObject_floaty_flags carryingState floatyWorld false)
    as (_ & _ & Hk).
  destruct (dropObject_floaty_flags carryingState floatyWorld true)
    as (_ & Hg & _).
  split; [exact Hf|]. split.
  - exact (proj2 (Hk Hf eq_refl)).
  - exact (proj1 (Hg Hf eq_refl)).
Defined.

Lemma highlight_while_carrying_and_snapping_witness :
  carryingFrame carryingState sampleWorld
  /\ selection (snd (carrySystem carryingState sampleWorld quietFrame)) = ∅
  /\ selection (snd (carrySystem embeddedState sampleWorld quietFrame))
     = list_to_set (meshes (eid2obj sampleWorld 5%nat)).
Proof.
  assert (Hc : carryingFrame carryingState sampleWorld) by (split; reflexivity).
  split; [exact Hc|]. split.
  - exact (proj1 (highlight_while_carrying_and_snapping carryingState sampleWorld
                    quietFrame) Hc).
  - destruct (highlight_while_carrying_and_snapping embeddedState sampleWorld
                quietFrame) as (_ & Hs).
    destruct (Hs eq_refl eq_refl) as (Hn & _).
    apply Hn. cbn. lra.
Defined.

Lemma discontinuity_between_frames_witness :
  let s1 := fst (carrySystem turnedState sampleWorld floorFrame) in
  snappingHit turnedState sampleWorld floorFrame floorHit
  /\ snappingHit s1 sampleWorld wallFrame wallHit
  /\ rotationOffset (carryStateData s1) = 1
  /\ rotationOffset (carryStateData (fst (carrySystem s1 sampleWorld wallFrame)))
     = 0.
Proof.
  cbv zeta.
  assert (H1 : snappingHit turnedState sampleWorld floorFrame floorHit)
    by (repeat split; reflexivity).
  assert (H2 : snappingHit (fst (carrySystem turnedState sampleWorld floorFrame))
                 sampleWorld wallFrame wallHit)
    by (apply (hit_frame_continues _ _ _ _ _ _ _ H1); reflexivity).
  destruct (discontinuity_between_frames _ _ _ _ _ _ _ H1 H2) as (Hd & _).
  split; [exact H1|]. split; [exact H2|]. split.
  - assert (Hf : solverFrame turnedState sampleWorld floorFrame)
      by (unfold solverFrame; repeat split; reflexivity).
    destruct Hf as (Hs & Hw & Ht & Hdr & He).
    rewrite (frame_solver_rotation turnedState sampleWorld floorFrame
               Hs Hw Ht Hdr He); [reflexivity|].
    now apply floor_after_floor.
  - apply Hd. rewrite !dot_Y_AXIS. cbn.
    replace (0 - 1) with (- (1)) by ring. rewrite Rabs_Ropp, Rabs_R1. lra.
Defined.

Lemma rotation_round_trip_witness :
  let s1 := fst (carrySystem turnedState sampleWorld cwFrame) in
  solverFrame turnedState sampleWorld cwFrame
  /\ solverFrame s1 sampleWorld ccwFrame
  /\ rotationOffset (carryStateData (fst (carrySystem s1 sampleWorld ccwFrame)))
     = 1.
Proof.
  cbv zeta.
  assert (H1 : solverFrame turnedState sampleWorld cwFrame)
    by (unfold solverFrame; repeat split; reflexivity).
  assert (H2 : solverFrame (fst (carrySystem turnedState sampleWorld cwFrame))
                 sampleWorld ccwFrame)
    by (apply (solver_frame_continues _ _ _ _ _ H1); reflexivity).
  split; [exact H1|]. split; [exact H2|].
  exact (rotation_round_trip turnedState sampleWorld cwFrame sampleWorld ccwFrame
           H1 H2 eq_refl eq_refl eq_refl eq_refl I I).
Defined.

Lemma grid_follows_the_surface_witness :
  let s1 := fst (carrySystem initialState sampleWorld snapHeldFrame) in
  let w1 := snd (carrySystem initialState sampleWorld snapHeldFrame) in
  reachable s1
  /\ lastIntersectedObj s1 = None
  /\ gm_geometry (gridMesh (fst (carrySystem s1 w1 floorFrame))) = Some 1%nat.
Proof.
  cbv zeta.
  assert (Hr : reachable (fst (carrySystem initialState sampleWorld snapHeldFrame))).
  { eapply reachable_step; [apply reachable_init|].
    apply (step_frame initialState sampleWorld snapHeldFrame). }
  assert (Hh : snappingHit
                 (fst (carrySystem initialState sampleWorld snapHeldFrame))
                 (snd (carrySystem initialState sampleWorld snapHeldFrame))
                 floorFrame floorHit)
    by (repeat split; reflexivity).
  destruct (grid_follows_the_surface _ Hr) as (_ & Hg).
  destruct (Hg _ _ _ Hh) as (_ & Hm & _).
  exact (conj Hr (conj eq_refl Hm)).
Defined.
